(** * Philips AirPurifier integration: a shallow embedding

  The development follows the Python sources of
  [custom_components/philips_airpurifier].  Definitions:

  - [Py]               Python values, exceptions and the state-and-error
                       monad in which the stateful coroutines are written;
  - [Float]            Python floats: binary64 values and the operations
                       on them that the sources use;
  - [Select]           [select.py], [PhilipsSelect.async_select_option];
  - [StatusCache]      the merged status snapshot of the Coordinator;
  - [Sensor]           [sensor.py], [PhilipsFilterSensor];
  - [Integration]      [__init__.py], [services.py] and [diagnostics.py]
                       over one model of the Home Assistant instance;
  - [Example]          one purifier, on which the properties are tried;
  - [SelectPlatform]   [select.py], the entity and the platform setup;
  - [SensorAttributes] [sensor.py], the attributes and the icon of a
                       filter sensor;
  - [ServiceCalls]     [services.py], the handlers of the services;
  - [Repairs]          [repairs.py], [async_check_integration_health].

  Theorems: [PyFacts], [FloatFacts], [SelectFacts], [StatusCacheFacts],
  [SensorFacts], [ServicesFacts], [SetupFacts] with [SetupWitnesses],
  [DiagnosticsFacts], [SelectPlatformFacts], [SensorAttributesFacts],
  [ServiceCallsFacts], [RepairsFacts], [LifecycleFacts] and
  [DiagnosticsContentFacts].

  A coroutine is run to completion: [await] is sequencing, and what an
  awaited external call answers (the device, the network) is an argument
  of the embedded function. *)

From Stdlib Require Import ZArith String List DecimalString.
From stdpp Require Import base gmap strings list.

#[local] Set Warnings "-register-all".
Local Open Scope string_scope.
Local Open Scope Z_scope.

(* ===================================================================== *)
(** ** Python values, exceptions, the coroutine monad                     *)
(* ===================================================================== *)

Module Py.

(** JSON-like Python values.  A [PDict] keeps the insertion order of a
    Python [dict]; [PSet] and [PTuple] are the containers that are neither
    a [Mapping] nor a [list]. *)
Inductive pyval : Type :=
| PNone
| PBool (b : bool)
| PInt (z : Z)
| PStr (s : string)
| PList (l : list pyval)
| PTuple (l : list pyval)
| PSet (l : list pyval)
| PDict (d : list (string * pyval)).

Definition pydict : Type := list (string * pyval).

(** The exceptions that occur in the embedded code. *)
Inductive exn : Type :=
| KeyError (key : string)
| ValueError
| TypeError
| ZeroDivisionError
| OverflowError
| RuntimeError
| AttributeError
| TimeoutError
| ConnectError
| ConfigEntryNotReady
| OtherError (msg : string).

Inductive result (A : Type) : Type :=
| Ok (a : A)
| Raise (e : exn).
Arguments Ok {A} a.
Arguments Raise {A} e.

(** A coroutine over a world [W]: it returns or raises, and the world it
    leaves behind is the one at the point of the return or of the raise. *)
Definition M (W A : Type) : Type := W -> result A * W.

Definition ret {W A} (a : A) : M W A := fun w => (Ok a, w).
Definition raise {W A} (e : exn) : M W A := fun w => (Raise e, w).
Definition bind {W A B} (m : M W A) (k : A -> M W B) : M W B :=
  fun w => match m w with
           | (Ok a, w') => k a w'
           | (Raise e, w') => (Raise e, w')
           end.
Definition reads {W A} (f : W -> A) : M W A := fun w => (Ok (f w), w).
Definition modify {W} (f : W -> W) : M W unit := fun w => (Ok tt, f w).
Definition lift_result {W A} (r : result A) : M W A := fun w => (r, w).

(** [try: body except <the exceptions accepted by handles>: handler]. *)
Definition try_except {W A} (body : M W A) (handles : exn -> bool)
    (handler : exn -> M W A) : M W A :=
  fun w => match body w with
           | (Ok a, w') => (Ok a, w')
           | (Raise e, w') => if handles e then handler e w' else (Raise e, w')
           end.

(** [for x in xs: body x]. *)
Fixpoint for_each {W A} (xs : list A) (body : A -> M W unit) : M W unit :=
  match xs with
  | [] => ret tt
  | x :: xs' => bind (body x) (fun _ => for_each xs' body)
  end.

(** [except Exception] accepts every exception of [exn]. *)
Definition any_exception (e : exn) : bool := true.

Definition is_KeyError (e : exn) : bool :=
  match e with KeyError _ => true | _ => false end.
Definition is_ValueError (e : exn) : bool :=
  match e with ValueError => true | _ => false end.

(** [d.get(k)] and [k in d] on an ordered dict. *)
Fixpoint dict_get (d : pydict) (k : string) : option pyval :=
  match d with
  | [] => None
  | (k', v) :: d' => if String.eqb k' k then Some v else dict_get d' k
  end.

Definition dict_has (d : pydict) (k : string) : bool :=
  match dict_get d k with Some _ => true | None => false end.

(** [d[k] = v]: overwrite in place, or append a new key at the end. *)
Fixpoint dict_set (d : pydict) (k : string) (v : pyval) : pydict :=
  match d with
  | [] => [(k, v)]
  | (k', v') :: d' =>
      if String.eqb k' k then (k', v) :: d' else (k', v') :: dict_set d' k v
  end.

(** [d.update(e)]. *)
Definition dict_update (d e : pydict) : pydict :=
  fold_left (fun acc kv => dict_set acc (fst kv) (snd kv)) e d.

Definition dict_get_default (d : pydict) (k : string) (dflt : pyval) : pyval :=
  match dict_get d k with Some v => v | None => dflt end.

Definition dict_keys (d : pydict) : list string := map fst d.

(** [d[k1][k2]...] through nested dicts, [None] when a key is missing. *)
Fixpoint lookup_path (path : list string) (v : pyval) : option pyval :=
  match path with
  | [] => Some v
  | k :: path' =>
      match v with
      | PDict d =>
          match dict_get d k with
          | Some v' => lookup_path path' v'
          | None => None
          end
      | _ => None
      end
  end.

(** A coroutine that leaves the world as it found it. *)
Definition read_only {W A} (m : M W A) : Prop := forall w, snd (m w) = w.

(** Python truthiness, [bool(v)]. *)
Definition truthy (v : pyval) : bool :=
  match v with
  | PNone => false
  | PBool b => b
  | PInt z => negb (z =? 0)
  | PStr s => negb (String.eqb s "")
  | PList l | PTuple l | PSet l => match l with [] => false | _ => true end
  | PDict d => match d with [] => false | _ => true end
  end.

End Py.

Export Py.

(* ===================================================================== *)
(** ** Python floats                                                      *)
(* ===================================================================== *)

Module Float.

(** A Python float is an IEEE 754 binary64 value.  [Finite m e] is the
    value [m * 2^e]; zero is [Finite 0 0] (the sign of a zero plays no part
    in what follows). *)
Inductive float : Type :=
| Finite (m e : Z)
| Infinity (negative : bool)
| NaN.

(** The value of [Finite m e] as a fraction: [num m e / den e]. *)
Definition num (m e : Z) : Z := m * 2 ^ Z.max e 0.
Definition den (e : Z) : Z := 2 ^ Z.max (- e) 0.

(** The integer nearest to [n / d], for [0 < d]; of the two integers
    nearest to a tie, the even one. *)
Definition round_half_even (n d : Z) : Z :=
  let q := n / d in
  let r := n mod d in
  match 2 * r ?= d with
  | Lt => q
  | Gt => q + 1
  | Eq => if Z.even q then q else q + 1
  end.

(** The binary exponent of [n / d], for [n <> 0] and [0 < d]: the [j]
    with [2^j <= |n / d| < 2^(j+1)]. *)
Definition ilog2_quot (n d : Z) : Z :=
  if d <=? Z.abs n then Z.log2 (Z.abs n / d)
  else - Z.log2_up (- ((- d) / Z.abs n)).

(** The binary64 value nearest to [n / d], for [0 < d], a tie going to the
    even significand: 53 significant bits, the spacing [2^e] of the values
    around [n / d] never below [2^-1074], and infinity from [2^1024] on.
    Every arithmetic operation of IEEE 754 returns the exact result rounded
    in this way. *)
Definition round_to_float (n d : Z) : float :=
  if n =? 0 then Finite 0 0
  else
    let e := Z.max (ilog2_quot n d - 52) (-1074) in
    let m := if 0 <=? e then round_half_even n (d * 2 ^ e)
             else round_half_even (n * 2 ^ (- e)) d in
    if 1024 <=? Z.log2 (Z.abs m) + e then Infinity (n <? 0) else Finite m e.

(** [float(z)], also the conversion of an int operand of a float
    operator: OverflowError when the int is beyond the floats. *)
Definition float_of_int (z : Z) : result float :=
  match round_to_float z 1 with
  | Infinity _ => Raise OverflowError
  | f => Ok f
  end.

(** [x * y] on floats; an overflow gives an infinity, not an exception. *)
Definition float_mul (x y : float) : float :=
  match x, y with
  | Finite mx ex, Finite my ey =>
      round_to_float (num mx ex * num my ey) (den ex * den ey)
  | Finite m _, Infinity s | Infinity s, Finite m _ =>
      if m =? 0 then NaN else Infinity (xorb s (m <? 0))
  | Infinity sx, Infinity sy => Infinity (xorb sx sy)
  | _, _ => NaN
  end.

(** [x / y] on floats: ZeroDivisionError when [y] is zero. *)
Definition float_div (x y : float) : result float :=
  match y with
  | Finite my ey =>
      if my =? 0 then Raise ZeroDivisionError
      else
        match x with
        | Finite mx ex =>
            Ok (round_to_float (num mx ex * den ey * Z.sgn my)
                               (den ex * Z.abs (num my ey)))
        | Infinity s => Ok (Infinity (xorb s (my <? 0)))
        | NaN => Ok NaN
        end
  | Infinity _ =>
      match x with
      | Finite _ _ => Ok (Finite 0 0)
      | _ => Ok NaN
      end
  | NaN => Ok NaN
  end.

(** [a / b] on ints: the exact quotient rounded once; ZeroDivisionError
    when [b] is zero, OverflowError when the quotient is beyond the
    floats. *)
Definition int_truediv (a b : Z) : result float :=
  if b =? 0 then Raise ZeroDivisionError
  else
    match round_to_float (a * Z.sgn b) (Z.abs b) with
    | Infinity _ => Raise OverflowError
    | f => Ok f
    end.

(** [round(x)] of a float: the nearest int, a tie going to the even one;
    OverflowError on an infinity, ValueError on a NaN. *)
Definition py_round (x : float) : result Z :=
  match x with
  | Finite m e => Ok (round_half_even (num m e) (den e))
  | Infinity _ => Raise OverflowError
  | NaN => Raise ValueError
  end.

(** [int(x)] of a float: the value with its fraction cut off;
    OverflowError on an infinity, ValueError on a NaN. *)
Definition int_of_float (x : float) : result Z :=
  match x with
  | Finite m e => Ok (Z.quot (num m e) (den e))
  | Infinity _ => Raise OverflowError
  | NaN => Raise ValueError
  end.

(** [x <= k] for a float [x] and an int [k]; the comparison is exact. *)
Definition float_le_int (x : float) (k : Z) : bool :=
  match x with
  | Finite m e => num m e <=? k * den e
  | Infinity negative => negative
  | NaN => false
  end.

End Float.

Declare Scope py_scope.
Delimit Scope py_scope with py.
Notation "x <- m ;; k" := (bind m (fun x => k))
(at level 100, m at next level, right associativity) : py_scope.
Notation "m ;;; k" := (bind m (fun _ => k))
(at level 100, right associativity) : py_scope.
Local Open Scope py_scope.

(* ===================================================================== *)
(** ** select.py                                                          *)
(* ===================================================================== *)

Module Select.

(** What leaves the entity: a control write handed to the CoAP client, and
    the state write of [_handle_coordinator_update].  A control write
    records the cache entry of its key at the moment the call is issued. *)
Inductive event : Type :=
| SetControlValue (key : string) (value : pyval) (cached_then : option pyval)
| CoordinatorUpdate.

(** The entity's view of the world: [_device_status], which is the
    coordinator's status mapping, and the calls made so far. *)
Record World : Type := {
  status : gmap string pyval;
  calls : list event;
}.

(** The fields of [PhilipsSelect] that [async_select_option] uses:
    [kind] and [_options], a dict from device value to option label. *)
Record PhilipsSelect : Type := {
  kind : string;
  _options : list (pyval * string);
}.

(** [next(key for key, value in self._options.items() if value == option)].
    An exhausted generator raises StopIteration, which a coroutine turns
    into RuntimeError. *)
Fixpoint next_option_key (options : list (pyval * string)) (option : string)
    : result pyval :=
  match options with
  | [] => Raise RuntimeError
  | (key, value) :: rest =>
      if String.eqb value option then Ok key else next_option_key rest option
  end.

(** [await self.coordinator.client.set_control_value(key, value)]; [net]
    is what the client answers. *)
Definition set_control_value (key : string) (value : pyval)
    (net : result unit) : M World unit :=
  fun w =>
    (net, {| status := status w;
             calls := calls w ++ [SetControlValue key value (status w !! key)] |}).

(** [self._device_status[key] = value]. *)
Definition device_status_set (key : string) (value : pyval) : M World unit :=
  modify (fun w => {| status := <[key := value]> (status w); calls := calls w |}).

Definition _handle_coordinator_update : M World unit :=
  modify (fun w => {| status := status w; calls := calls w ++ [CoordinatorUpdate] |}).

Definition async_select_option (self : PhilipsSelect) (option : option string)
    (net : result unit) : M World unit :=
  match option with
  | None => ret tt
  | Some opt =>
      if (String.length opt =? 0)%nat then ret tt
      else
        try_except
          (option_key <- lift_result (next_option_key (_options self) opt) ;;
           set_control_value (kind self) option_key net ;;;
           device_status_set (kind self) option_key ;;;
           _handle_coordinator_update)
          (fun e => is_KeyError e || is_ValueError e)
          (fun _ => ret tt)
  end.

(** The preferred-index select of an AC-series purifier. *)
Definition preferred_index : PhilipsSelect :=
  {| kind := "ddp";
     _options := [(PStr "0", "indoor_allergen_index"); (PStr "1", "pm25")] |}.

Definition world0 : World :=
  {| status := {["ddp" := PStr "0"]}; calls := [] |}.

End Select.

(* ===================================================================== *)
(** ** The Coordinator's status cache                                     *)
(* ===================================================================== *)

Module StatusCache.

Import Select.

(** Modelled from the spec: the StatusCache merge of the Coordinator
    ([coordinator.py] is not among the sources).  A delta is a partial
    mapping; merge is union with right-bias: the delta's values win on
    matching keys, keys absent from the delta are untouched.  ([∪] on
    [gmap] prefers its left operand.) *)
Definition merge (cache delta : gmap string pyval) : gmap string pyval :=
  delta ∪ cache.

(** Modelled from the spec: the states of the Coordinator's state machine. *)
Inductive phase : Type := INIT | CONNECTING | OBSERVING | RECONNECTING | SHUTDOWN.

(** Modelled from the spec: what of the Coordinator the cache claims need,
    its state, the StatusCache, the availability flag, the ListenerRegistry
    and the control writes handed to the DeviceLink. *)
Record Coordinator : Type := {
  state : phase;
  cache : gmap string pyval;
  available : bool;
  listeners : list nat;
  written : list (string * pyval);
}.

(** Modelled from the spec: the operations that reach a Coordinator during
    its lifetime. [SelectOption] is the write path of [select.py], run on
    the Coordinator's cache. *)
Inductive op : Type :=
| FirstRefresh (fetched : option (gmap string pyval))
| Deliver (delta : gmap string pyval)
| LinkError
| Reconnect (reached : bool)
| StalenessExpired
| SetControlValue (key : string) (value : pyval) (acked : bool)
| SelectOption (entity : PhilipsSelect) (option : option string) (net : result unit)
| Shutdown.

Definition with_state (c : Coordinator) (s : phase) : Coordinator :=
  {| state := s; cache := cache c; available := available c;
     listeners := listeners c; written := written c |}.

(** Modelled from the spec, sections 4.1 to 4.4: one operation.
    - the first refresh leads to observing when the device is reached, the
      status it fetched merged into the pre-populated cache;
    - a delivered delta is merged while observing, and makes the device
      available again;
    - a link error or a failed connect leads to reconnecting, the cache
      retained as it is;
    - staleness only lowers the availability flag;
    - [set_control_value] updates the cache entry before the write and
      keeps the update when the write fails;
    - shutdown clears the ListenerRegistry and is terminal. *)
Definition step (c : Coordinator) (o : op) : Coordinator :=
  match state c with
  | SHUTDOWN => c
  | _ =>
    match o with
    | FirstRefresh fetched =>
        match state c, fetched with
        | (INIT | CONNECTING), Some first =>
            {| state := OBSERVING; cache := merge (cache c) first;
               available := true; listeners := listeners c;
               written := written c |}
        | (INIT | CONNECTING), None => with_state c CONNECTING
        | _, _ => c
        end
    | Deliver delta =>
        match state c with
        | OBSERVING =>
            {| state := OBSERVING; cache := merge (cache c) delta; available := true;
               listeners := listeners c; written := written c |}
        | _ => c
        end
    | LinkError =>
        match state c with
        | OBSERVING => with_state c RECONNECTING
        | _ => c
        end
    | Reconnect reached =>
        match state c with
        | RECONNECTING => if reached then with_state c OBSERVING else c
        | _ => c
        end
    | StalenessExpired =>
        {| state := state c; cache := cache c; available := false;
           listeners := listeners c; written := written c |}
    | SetControlValue key value acked =>
        {| state := state c; cache := <[key := value]> (cache c);
           available := available c; listeners := listeners c;
           written := if acked then written c ++ [(key, value)] else written c |}
    | SelectOption entity option net =>
        let w := snd (async_select_option entity option net
                        {| status := cache c; calls := [] |}) in
        {| state := state c; cache := status w; available := available c;
           listeners := listeners c; written := written c |}
    | Shutdown =>
        {| state := SHUTDOWN; cache := cache c; available := available c;
           listeners := []; written := written c |}
    end
  end.

(** Modelled from the spec: a lifetime, one operation after the other. *)
Definition run (c : Coordinator) (ops : list op) : Coordinator :=
  fold_left step ops c.

(** Modelled from the spec, section 7: the errors that reach a caller of
    the Coordinator.  A connect error is surfaced, as the "not ready"
    condition, only by the first refresh; a control-write error is surfaced
    to the caller of the write. *)
Inductive surfaced_error : Type := NotReady | WriteRejected.

(** Modelled from the spec, sections 4.1 and 7: what one operation
    surfaces to its caller.
    - the first refresh that does not reach the device surfaces "not
      ready";
    - a link error, a failed reconnect attempt and staleness are absorbed:
      they are state transitions, never an exception;
    - a control write that is not acknowledged, or that is made after the
      shutdown has closed the connection, surfaces a write error; so does
      the write path of [select.py] when it raises. *)
Definition surfaced (c : Coordinator) (o : op) : option surfaced_error :=
  match o with
  | FirstRefresh None =>
      match state c with
      | INIT | CONNECTING => Some NotReady
      | _ => None
      end
  | SetControlValue _ _ acked =>
      match state c with
      | SHUTDOWN => Some WriteRejected
      | _ => if acked then None else Some WriteRejected
      end
  | SelectOption entity option net =>
      match fst (async_select_option entity option net
                   {| status := cache c; calls := [] |}) with
      | Ok _ => None
      | Raise _ => Some WriteRejected
      end
  | _ => None
  end.

(** Modelled from the spec: a session has been established once the first
    refresh has led to observing. *)
Definition established (c : Coordinator) : Prop :=
  state c <> INIT /\ state c <> CONNECTING.

End StatusCache.

(* ===================================================================== *)
(** ** sensor.py: the filter sensor                                       *)
(* ===================================================================== *)

Module Sensor.

(** Evaluation of an expression that reads the status and may raise. *)
Definition rbind {A B} (r : result A) (k : A -> result B) : result B :=
  match r with
  | Ok a => k a
  | Raise e => Raise e
  end.

Notation "x <~ r ;; k" := (rbind r (fun x => k))
  (at level 100, r at next level, right associativity).

(** [status[key]]. *)
Definition getitem (status : gmap string pyval) (key : string) : result pyval :=
  match status !! key with
  | Some v => Ok v
  | None => Raise (KeyError key)
  end.

(** [key in status]. *)
Definition contains (status : gmap string pyval) (key : string) : bool :=
  match status !! key with
  | Some _ => true
  | None => false
  end.

(** The operand of an arithmetic operator or of an ordering comparison with
    a number: an int, or a bool (a subclass of int); anything else of
    [pyval] makes the operator raise TypeError. *)
Definition number (v : pyval) : result Z :=
  match v with
  | PInt z => Ok z
  | PBool b => Ok (if b then 1 else 0)
  | _ => Raise TypeError
  end.

(** [100.0 * v] for an int [v]: the int is converted to a float first. *)
Definition times_100 (v : Z) : result Float.float :=
  fv <~ Float.float_of_int v ;;
  Ok (Float.float_mul (Float.Finite 100 0) fv).

(** [round(scaled / t)] for a float [scaled] and an int [t]: the int is
    converted to a float, the floats are divided, the quotient is
    rounded. *)
Definition rounded_quotient (scaled : Float.float) (t : Z) : result Z :=
  ft <~ Float.float_of_int t ;;
  q <~ Float.float_div scaled ft ;;
  Float.py_round q.

(** [timedelta(hours=v)] for an int [v], in microseconds: OverflowError
    when the days of the timedelta are beyond 999999999. *)
Definition timedelta_hours (v : Z) : result Z :=
  if (-999999999 <=? v / 24) && (v / 24 <=? 999999999)
  then Ok (v * 3600000000)
  else Raise OverflowError.

Definition str_of_Z (z : Z) : string :=
  DecimalString.NilZero.string_of_int (Z.to_int z).

(** The keys of a [PhilipsFilterSensor]: [_value_key] is the filter's
    remaining-hours field, [_total_key] its total-capacity field. *)
Record PhilipsFilterSensor : Type := {
  _value_key : string;
  _total_key : string;
}.

Section Properties.
Variable self : PhilipsFilterSensor.
Variable _device_status : gmap string pyval.

Definition _has_total : bool := contains _device_status (_total_key self).

Definition _value : result pyval := getitem _device_status (_value_key self).

Definition _total : result pyval := getitem _device_status (_total_key self).

(** [round(100.0 * self._value / self._total)]: the product is formed
    first, then the total is read, then the division is made. *)
Definition _percentage : result pyval :=
  value <~ _value ;;
  v <~ number value ;;
  scaled <~ times_100 v ;;
  total <~ _total ;;
  t <~ number total ;;
  percentage <~ rounded_quotient scaled t ;;
  Ok (PInt percentage).

(** [str(round(timedelta(hours=self._value) / timedelta(hours=1)))]: the
    quotient of two timedeltas is the float quotient of their
    microseconds. *)
Definition _time_remaining : result pyval :=
  value <~ _value ;;
  v <~ number value ;;
  microseconds <~ timedelta_hours v ;;
  q <~ Float.int_truediv microseconds 3600000000 ;;
  hours <~ Float.py_round q ;;
  Ok (PStr (str_of_Z hours)).

Definition native_value : result pyval :=
  if _has_total then _percentage else _time_remaining.

End Properties.

(** [filter_keys] of [async_check_integration_health]. *)
Definition filter_keys : list (string * string) :=
  [("fltsts0", "flttotal0"); ("fltsts1", "flttotal1");
   ("fltsts2", "flttotal2"); ("D05-14", "D05-08")].

(** The HEPA filter sensor, and a status whose total capacity is zero. *)
Definition hepa : PhilipsFilterSensor :=
  {| _value_key := "fltsts1"; _total_key := "flttotal1" |}.

Definition status_zero_total : gmap string pyval :=
  {[ "fltsts1" := PInt 0; "flttotal1" := PInt 0 ]}.

Definition status_half_used : gmap string pyval :=
  {[ "fltsts1" := PInt 2400; "flttotal1" := PInt 4800 ]}.

End Sensor.

(* ===================================================================== *)
(** ** __init__.py, services.py, diagnostics.py                           *)
(* ===================================================================== *)

Module Integration.

(** The constants of [const.py], which is not among the sources.
    [CONF_HOST] and [CONF_NAME] are Home Assistant's. *)
Record Const : Type := {
  DOMAIN : string;
  CONF_MODEL : string;
  CONF_DEVICE_ID : string;
  CONF_STATUS : string;
}.

Definition CONF_HOST : string := "host".
Definition CONF_NAME : string := "name".

Definition PLATFORMS : list string :=
  ["binary_sensor"; "climate"; "fan"; "humidifier"; "light"; "number";
   "select"; "sensor"; "switch"].

(** An [asyncio.Task], as far as [done()] tells. *)
Record Task : Type := { done : bool }.

(** The attributes of a Coordinator that the sources read: [client],
    [status], and the ones [diagnostics.py] inspects.  [_timeout] is [None]
    when the attribute is missing; [_timer_disconnected] is [None] when the
    attribute is missing and [Some None] when the timer has no
    [is_running]. *)
Record Coordinator : Type := {
  host : pyval;
  client : option string;
  status : pyval;
  _timeout : option pyval;
  _listeners : list nat;
  _task : option Task;
  _reconnect_task : option Task;
  _timer_disconnected : option (option bool);
}.

Record DeviceInformation : Type := {
  di_host : pyval;
  di_mac : pyval;
  di_model : pyval;
  di_name : pyval;
  di_device_id : pyval;
}.

Record ConfigEntryData : Type := {
  device_information : DeviceInformation;
  coordinator : Coordinator;
  latest_status : pyval;
  ced_client : string;
}.

Record ConfigEntry : Type := {
  entry_id : string;
  title : string;
  version : Z;
  data : pydict;
  options : pydict;
  source : string;
  entry_state : string;
}.

(** A device of the device registry. *)
Record DeviceEntry : Type := {
  dev_id : string;
  dev_manufacturer : pyval;
  dev_model : pyval;
  dev_name : pyval;
  dev_sw_version : pyval;
  dev_hw_version : pyval;
  dev_connections : list pyval;
  dev_identifiers : list pyval;
  dev_config_entries : list string;
}.

(** An entity of the entity registry. *)
Record EntityEntry : Type := {
  ent_entity_id : string;
  ent_config_entry_id : string;
  ent_platform : string;
  ent_device_class : pyval;
  ent_entity_category : pyval;
  ent_disabled_by : pyval;
  ent_hidden_by : pyval;
  ent_has_entity_name : bool;
  ent_translation_key : pyval;
}.

(** A registered service: the handler, the call of [async_setup_services]
    whose closure it is, and its schema. *)
Record Service : Type := {
  handler : string;
  closure_of : nat;
  schema : string;
}.

(** The calls that leave the integration. *)
Inductive event : Type :=
| CoAPClientCreate (host : pyval) (timeout : Z)
| CoordinatorInit (host : pyval) (status : pyval)
| AsyncFirstRefresh (host : pyval)
| ForwardEntrySetups (entry_id : string) (platforms : list string)
| ForwardEntryUnload (entry_id : string) (platform : string)
| CoordinatorShutdown (host : pyval)
| CreateTask (name : string).

(** The Home Assistant instance: [hass.data.get(DOMAIN)], the services
    registered under [DOMAIN], the config entries, the two registries, what
    [sys.version] and the clock read, and the calls made so far.
    [ha_version] is the attribute [version] of [hass.config]: [None] when
    the object has no such attribute, as is the case of Home Assistant's
    [Config] (which gives the version in [as_dict()] only), and [Some] on
    an instance whose [config] answers it, such as a test double. *)
Record Hass : Type := {
  domain_data : option (gmap string ConfigEntryData);
  services : gmap string Service;
  config_entries : gmap string ConfigEntry;
  devices : list DeviceEntry;
  entities : list EntityEntry;
  ha_version : option string;
  sys_version : string;
  utcnow : string;
  calls : list event;
}.

Definition set_domain_data (f : option (gmap string ConfigEntryData) ->
    option (gmap string ConfigEntryData)) (h : Hass) : Hass :=
  {| domain_data := f (domain_data h); services := services h;
     config_entries := config_entries h; devices := devices h;
     entities := entities h; ha_version := ha_version h;
     sys_version := sys_version h; utcnow := utcnow h; calls := calls h |}.

Definition set_services (f : gmap string Service -> gmap string Service)
    (h : Hass) : Hass :=
  {| domain_data := domain_data h; services := f (services h);
     config_entries := config_entries h; devices := devices h;
     entities := entities h; ha_version := ha_version h;
     sys_version := sys_version h; utcnow := utcnow h; calls := calls h |}.

Definition set_config_entries (f : gmap string ConfigEntry -> gmap string ConfigEntry)
    (h : Hass) : Hass :=
  {| domain_data := domain_data h; services := services h;
     config_entries := f (config_entries h); devices := devices h;
     entities := entities h; ha_version := ha_version h;
     sys_version := sys_version h; utcnow := utcnow h; calls := calls h |}.

Definition set_calls (f : list event -> list event) (h : Hass) : Hass :=
  {| domain_data := domain_data h; services := services h;
     config_entries := config_entries h; devices := devices h;
     entities := entities h; ha_version := ha_version h;
     sys_version := sys_version h; utcnow := utcnow h; calls := f (calls h) |}.

Definition emit (e : event) : M Hass unit :=
  modify (set_calls (fun l => (l ++ [e])%list)).

(** [d[k]] on an ordered dict. *)
Definition getitem {W} (d : pydict) (k : string) : M W pyval :=
  match dict_get d k with
  | Some v => ret v
  | None => raise (KeyError k)
  end.

(* --------------------------------------------------------------------- *)
(** *** The Coordinator, as the setup and teardown drive it               *)
(* --------------------------------------------------------------------- *)

(** Modelled from the spec: the constructor [Coordinator(hass, client,
    host, status)] of the absent [coordinator.py].  INIT: constructed with a
    device address and, optionally, a previously persisted status snapshot
    that pre-populates the cache; no listener, no background task, the
    staleness timer not running. *)
Definition Coordinator_init (client : string) (host : pyval) (status : pyval)
    : M Hass Coordinator :=
  emit (CoordinatorInit host status) ;;;
  ret {| host := host; client := Some client; status := status;
         _timeout := None; _listeners := []; _task := None;
         _reconnect_task := None; _timer_disconnected := Some (Some false) |}.

(** Modelled from the spec: the StatusCache merge, on the status of a
    Coordinator: the fetched values win on matching keys, the other keys are
    untouched; a Coordinator constructed without a snapshot has nothing to
    keep. *)
Definition merge_status (cache fetched : pyval) : pyval :=
  match cache, fetched with
  | PDict c, PDict f => PDict (dict_update c f)
  | _, _ => fetched
  end.

(** Modelled from the spec: [first_refresh()] of the absent
    [coordinator.py].  It performs the initial transition to observing
    synchronously, the fetched status merged into the cache, and fails if
    the device cannot be reached within the bound; the failure surfaces to
    the caller, as the "not ready" condition of the spec's sections 4.1
    and 7.  [outcome] is what the call does on this device: the status the
    device answers, or the exception that the call raises. *)
Definition async_first_refresh (c : Coordinator) (outcome : result pyval)
    : M Hass Coordinator :=
  emit (AsyncFirstRefresh (host c)) ;;;
  match outcome with
  | Raise e => raise e
  | Ok fetched =>
      ret {| host := host c; client := client c;
             status := merge_status (status c) fetched;
             _timeout := _timeout c; _listeners := _listeners c;
             _task := Some {| done := false |};
             _reconnect_task := _reconnect_task c;
             _timer_disconnected := Some (Some true) |}
  end.

(** Modelled from the spec: [shutdown()] of the absent [coordinator.py].
    It cancels the observation loop and the reconnect task, stops the
    staleness timer, closes the DeviceLink and clears the ListenerRegistry;
    it never raises. *)
Definition shutdown (c : Coordinator) : M Hass Coordinator :=
  emit (CoordinatorShutdown (host c)) ;;;
  ret {| host := host c; client := None; status := status c;
         _timeout := _timeout c; _listeners := [];
         _task := None; _reconnect_task := None;
         _timer_disconnected := Some (Some false) |}.

(* --------------------------------------------------------------------- *)
(** *** services.py                                                       *)
(* --------------------------------------------------------------------- *)

Definition SERVICE_FILTER_RESET : string := "filter_reset".
Definition SERVICE_CALIBRATE_SENSORS : string := "calibrate_sensors".
Definition SERVICE_SET_DISPLAY_BRIGHTNESS : string := "set_display_brightness".
Definition SERVICE_SCHEDULE_MAINTENANCE : string := "schedule_maintenance".
Definition SERVICE_SET_CHILD_LOCK : string := "set_child_lock".
Definition SERVICE_SET_TIMER : string := "set_timer".
Definition SERVICE_RESET_DEVICE : string := "reset_device".

(** [hass.services.has_service(DOMAIN, name)]. *)
Definition has_service (name : string) : M Hass bool :=
  reads (fun h => match services h !! name with Some _ => true | None => false end).

(** [hass.services.async_register(DOMAIN, name, handler, schema=schema)]:
    Home Assistant stores the service under its name, replacing a service
    of that name. *)
Definition async_register (name : string) (s : Service) : M Hass unit :=
  modify (set_services (fun m => <[name := s]> m)).

(** [hass.services.async_remove(DOMAIN, name)]. *)
Definition async_remove (name : string) : M Hass unit :=
  modify (set_services (fun m => delete name m)).

(** The [services] dict of [async_setup_services]: name, handler, schema. *)
Definition setup_services_table : list (string * (string * string)) :=
  [(SERVICE_FILTER_RESET, ("async_filter_reset", "FILTER_RESET_SCHEMA"));
   (SERVICE_CALIBRATE_SENSORS, ("async_calibrate_sensors", "CALIBRATE_SENSORS_SCHEMA"));
   (SERVICE_SET_DISPLAY_BRIGHTNESS,
      ("async_set_display_brightness", "SET_DISPLAY_BRIGHTNESS_SCHEMA"));
   (SERVICE_SCHEDULE_MAINTENANCE,
      ("async_schedule_maintenance", "SCHEDULE_MAINTENANCE_SCHEMA"));
   (SERVICE_SET_CHILD_LOCK, ("async_set_child_lock", "SET_CHILD_LOCK_SCHEMA"));
   (SERVICE_SET_TIMER, ("async_set_timer", "SET_TIMER_SCHEMA"));
   (SERVICE_RESET_DEVICE, ("async_reset_device", "RESET_DEVICE_SCHEMA"))].

(** [async_setup_services]; [call] tells this call's handler closures from
    those of another call. *)
Definition async_setup_services (call : nat) : M Hass unit :=
  for_each setup_services_table (fun entry =>
    let '(service_name, (handler, schema)) := entry in
    registered <- has_service service_name ;;
    if negb registered then
      try_except
        (async_register service_name
           {| handler := handler; closure_of := call; schema := schema |})
        any_exception
        (fun _ => ret tt)
    else ret tt).

(** The [services] list of [async_unload_services]. *)
Definition unload_services_list : list string :=
  [SERVICE_FILTER_RESET; SERVICE_CALIBRATE_SENSORS;
   SERVICE_SET_DISPLAY_BRIGHTNESS; SERVICE_SCHEDULE_MAINTENANCE;
   SERVICE_SET_CHILD_LOCK; SERVICE_SET_TIMER; SERVICE_RESET_DEVICE].

Definition async_unload_services : M Hass unit :=
  for_each unload_services_list (fun service_name =>
    registered <- has_service service_name ;;
    if registered then async_remove service_name else ret tt).

(** The services that one call of [async_setup_services] has to offer, by
    name. *)
Definition offered_services (call : nat) (table : list (string * (string * string)))
    : gmap string Service :=
  list_to_map
    (map (fun entry =>
            (fst entry,
             {| handler := fst (snd entry); closure_of := call;
                schema := snd (snd entry) |}))
         table).

(* --------------------------------------------------------------------- *)
(** *** __init__.py                                                       *)
(* --------------------------------------------------------------------- *)

(** What the outside answers during one [async_setup_entry]:
    - [get_mac_address]: the MAC address found for the host, if any;
    - [format_mac]: Home Assistant's normalisation of a MAC address;
    - [CoAPClient_create]: the outcome of
      [asyncio.wait_for(CoAPClient.create(host), timeout=25)], the client or
      the exception raised, [TimeoutError] when the 25 seconds elapse;
    - [first_refresh]: what [coordinator.async_first_refresh()] does, the
      status it fetches or the exception it raises when the device is not
      reached;
    - [services_call]: the identity of this call of [async_setup_services]. *)
Record Answers : Type := {
  get_mac_address : option string;
  format_mac : string -> string;
  CoAPClient_create : result string;
  first_refresh : result pyval;
  services_call : nat;
}.

(** The tail of [async_get_mac_address_from_host]: [None] for an empty
    answer, the formatted address otherwise. *)
Definition formatted_mac_address (a : Answers) : pyval :=
  match get_mac_address a with
  | None => PNone
  | Some mac_address =>
      if String.eqb mac_address "" then PNone
      else PStr (format_mac a mac_address)
  end.

(** [async_get_mac_address_from_host]: whether the host is a name, an IPv4
    or an IPv6 address, one [get_mac_address] lookup is made, and its answer
    is formatted unless it is empty. *)
Definition async_get_mac_address_from_host (a : Answers) (host : pyval)
    : M Hass pyval :=
  ret (formatted_mac_address a).

(** [await asyncio.wait_for(CoAPClient.create(host), timeout=25)]. *)
Definition CoAPClient_create_within (a : Answers) (host : pyval) (timeout : Z)
    : M Hass string :=
  emit (CoAPClientCreate host timeout) ;;;
  lift_result (CoAPClient_create a).

(** [hass.config_entries.async_update_entry(entry, data=new_data)]. *)
Definition async_update_entry (entry : ConfigEntry) (new_data : pydict)
    : M Hass unit :=
  modify (set_config_entries (fun m =>
    <[entry_id entry :=
        {| entry_id := entry_id entry; title := title entry;
           version := version entry; data := new_data;
           options := options entry; source := source entry;
           entry_state := entry_state entry |}]> m)).


(** [hass.data.setdefault(DOMAIN, {})[entry_id] = config_entry_data]. *)
Definition domain_data_store (id : string) (config_entry_data : ConfigEntryData)
    : M Hass unit :=
  modify (set_domain_data (fun d =>
    Some (<[id := config_entry_data]> (default ∅ d)))).

Section WithConstants.
Variable K : Const.

(** [hass.data[DOMAIN]]. *)
Definition domain_data_get : M Hass (gmap string ConfigEntryData) :=
  fun h => match domain_data h with
           | Some m => (Ok m, h)
           | None => (Raise (KeyError (DOMAIN K)), h)
           end.

(** [hass.data[DOMAIN][entry_id]]. *)
Definition domain_data_lookup (id : string) : M Hass ConfigEntryData :=
  m <- domain_data_get ;;
  match m !! id with
  | Some config_entry_data => ret config_entry_data
  | None => raise (KeyError id)
  end.

(** [hass.data[DOMAIN].pop(entry_id)]. *)
Definition domain_data_pop (id : string) : M Hass unit :=
  m <- domain_data_get ;;
  match m !! id with
  | Some _ => modify (set_domain_data (fun _ => Some (delete id m)))
  | None => raise (KeyError id)
  end.

(** [not hass.data[DOMAIN]]. *)
Definition domain_data_is_empty : M Hass bool :=
  m <- domain_data_get ;;
  ret (match map_to_list m with [] => true | _ => false end).

(** The four fields that [async_setup_entry] reads before it connects. *)
Definition has_device_fields (entry : ConfigEntry)
    (host model name device_id : pyval) : Prop :=
  dict_get (data entry) CONF_HOST = Some host
  /\ dict_get (data entry) (CONF_MODEL K) = Some model
  /\ dict_get (data entry) CONF_NAME = Some name
  /\ dict_get (data entry) (CONF_DEVICE_ID K) = Some device_id.

(** [entry] after [async_update_entry(entry, data=new_data)]. *)
Definition with_data (entry : ConfigEntry) (new_data : pydict) : ConfigEntry :=
  {| entry_id := entry_id entry; title := title entry;
     version := version entry; data := new_data;
     options := options entry; source := source entry;
     entry_state := entry_state entry |}.

Definition async_setup_entry (entry : ConfigEntry) (a : Answers) : M Hass bool :=
  host <- getitem (data entry) CONF_HOST ;;
  model <- getitem (data entry) (CONF_MODEL K) ;;
  name <- getitem (data entry) CONF_NAME ;;
  device_id <- getitem (data entry) (CONF_DEVICE_ID K) ;;
  mac <- async_get_mac_address_from_host a host ;;
  client <- try_except (CoAPClient_create_within a host 25)
              any_exception
              (fun _ => raise ConfigEntryNotReady) ;;
  let device_information :=
    {| di_host := host; di_mac := mac; di_model := model; di_name := name;
       di_device_id := device_id |} in
  made <-
    (if negb (dict_has (data entry) (CONF_STATUS K)) then
       coordinator <- Coordinator_init client host PNone ;;
       coordinator <- async_first_refresh coordinator (first_refresh a) ;;
       let status := status coordinator in
       let new_data := dict_set (data entry) (CONF_STATUS K) status in
       async_update_entry entry new_data ;;;
       ret (coordinator, status)
     else
       status <- getitem (data entry) (CONF_STATUS K) ;;
       coordinator <- Coordinator_init client host status ;;
       ret (coordinator, status)) ;;
  let config_entry_data :=
    {| device_information := device_information;
       coordinator := fst made;
       latest_status := snd made;
       ced_client := client |} in
  domain_data_store (entry_id entry) config_entry_data ;;;
  emit (ForwardEntrySetups (entry_id entry) PLATFORMS) ;;;
  try_except (async_setup_services (services_call a))
    any_exception
    (fun _ => ret tt) ;;;
  emit (CreateTask "_schedule_health_check") ;;;
  ret true.

(** [async_unload_entry].  The Coordinator that is shut down leaves the
    registry with its ConfigEntryData in the next statement. *)
Definition async_unload_entry (entry : ConfigEntry) : M Hass bool :=
  for_each PLATFORMS (fun p => emit (ForwardEntryUnload (entry_id entry) p)) ;;;
  config_entry_data <- domain_data_lookup (entry_id entry) ;;
  shutdown (coordinator config_entry_data) ;;;
  domain_data_pop (entry_id entry) ;;;
  empty <- domain_data_is_empty ;;
  (if empty then
     try_except async_unload_services any_exception (fun _ => ret tt)
   else ret tt) ;;;
  ret true.

End WithConstants.

(* --------------------------------------------------------------------- *)
(** *** diagnostics.py                                                    *)
(* --------------------------------------------------------------------- *)

Definition TO_REDACT : list string :=
  ["device_id"; "DeviceId"; "device_serial"; "serial_number"; "mac";
   "ip_address"; "host"; "ssid"; "wifi_ssid"; "network_name"; "bssid";
   "wifi_password"; "password"; "token"; "api_key"; "unique_id"; "id";
   "entry_id"; "config_entry_id"].

Definition REDACTED : string := "**REDACTED**".

Definition in_set (key : string) (keys : list string) : bool :=
  existsb (String.eqb key) keys.

(** Home Assistant's [async_redact_data]: a list is redacted item by item;
    in a copy of a mapping, a value that is [None] or the empty string is
    kept, a value under a key of [to_redact] is replaced, and a mapping or a
    list under another key is redacted in turn; any other value is kept. *)
Fixpoint async_redact_data (to_redact : list string) (data : pyval) : pyval :=
  match data with
  | PList l => PList (map (async_redact_data to_redact) l)
  | PDict d =>
      PDict (map (fun kv =>
        match kv with
        | (key, value) =>
            match value with
            | PNone => (key, value)
            | PStr EmptyString => (key, value)
            | _ =>
                if in_set key to_redact then (key, PStr REDACTED)
                else
                  match value with
                  | PDict _ => (key, async_redact_data to_redact value)
                  | PList items =>
                      (key, PList (map (async_redact_data to_redact) items))
                  | _ => (key, value)
                  end
            end
        end) d)
  | _ => data
  end.



(** [x or {}]. *)
Definition or_empty_dict (x : pyval) : pyval :=
  if truthy x then x else PDict [].

(** [v == s] for a str [s]. *)
Definition eq_str (v : pyval) (s : string) : bool :=
  match v with PStr s' => String.eqb s' s | _ => false end.

(** [v == n] for an int [n]; a bool is an int. *)
Definition eq_int (v : pyval) (n : Z) : bool :=
  match v with
  | PInt z => z =? n
  | PBool b => (if b then 1 else 0) =? n
  | _ => false
  end.

(** [len(v)]. *)
Definition py_len {W} (v : pyval) : M W Z :=
  match v with
  | PStr s => ret (Z.of_nat (String.length s))
  | PList l | PTuple l | PSet l => ret (Z.of_nat (List.length l))
  | PDict d => ret (Z.of_nat (List.length d))
  | _ => raise TypeError
  end.

Definition is_substring (s t : string) : bool :=
  match String.index 0 s t with Some _ => true | None => false end.

(** [key in v] for a str [key]. *)
Definition py_contains {W} (key : string) (v : pyval) : M W bool :=
  match v with
  | PDict d => ret (dict_has d key)
  | PList l | PTuple l | PSet l => ret (existsb (fun x => eq_str x key) l)
  | PStr s => ret (is_substring key s)
  | _ => raise TypeError
  end.

(** [v[key]] for a str [key]. *)
Definition py_getitem {W} (v : pyval) (key : string) : M W pyval :=
  match v with
  | PDict d => getitem d key
  | _ => raise TypeError
  end.

(** The mapping behind [v.get(...)] and [v.keys()]. *)
Definition mapping {W} (v : pyval) : M W pydict :=
  match v with
  | PDict d => ret d
  | _ => raise AttributeError
  end.

(** The operand of an ordering comparison with an int. *)
Definition ordered_int {W} (v : pyval) : M W Z :=
  match v with
  | PInt z => ret z
  | PBool b => ret (if b then 1 else 0)
  | _ => raise TypeError
  end.

Definition opt_pyval (o : option pyval) : pyval :=
  match o with Some v => v | None => PNone end.

Definition startswith_any (key : string) (prefixes : list string) : bool :=
  existsb (fun p => String.prefix p key) prefixes.

Section Diagnostics.
Variable K : Const.
(** Python's [str()], which renders a value inside an f-string. *)
Variable py_str : pyval -> string.

(** [hass.config.version]: AttributeError when [hass.config] has no
    attribute [version]. *)
Definition config_version : M Hass string :=
  fun h => match ha_version h with
           | Some version => (Ok version, h)
           | None => (Raise AttributeError, h)
           end.

Definition _get_system_info (entry : ConfigEntry) : M Hass pyval :=
  home_assistant_version <- config_version ;;
  python_version <- reads sys_version ;;
  timestamp <- reads utcnow ;;
  ret (PDict
    [("home_assistant_version", PStr home_assistant_version);
     ("python_version", PStr python_version);
     ("integration_version", PStr "0.26.0");
     ("domain", PStr (DOMAIN K));
     ("entry_id", PStr (entry_id entry));
     ("entry_title", PStr (title entry));
     ("entry_version", PInt (version entry));
     ("timestamp", PStr timestamp)]).

(** [task is not None and not task.done() if task else False]. *)
Definition task_alive (t : option Task) : bool :=
  match t with
  | Some task => negb (done task)
  | None => false
  end.

Definition is_Some_b {A} (o : option A) : bool :=
  match o with Some _ => true | None => false end.

Definition _get_integration_info (entry : ConfigEntry)
    (config_entry_data : ConfigEntryData) : M Hass pyval :=
  let coordinator := coordinator config_entry_data in
  let device_info := device_information config_entry_data in
  ret (PDict
    [("integration_domain", PStr (DOMAIN K));
     ("integration_name", PStr "Philips AirPurifier");
     ("device_model", di_model device_info);
     ("device_name", di_name device_info);
     ("device_host", di_host device_info);
     ("coordinator_status", PDict
        [("is_connected", PBool (is_Some_b (client coordinator)));
         ("timeout_setting",
            match _timeout coordinator with
            | Some t => t
            | None => PStr "unknown"
            end);
         ("has_listeners",
            PBool (0 <? Z.of_nat (List.length (_listeners coordinator))));
         ("task_running", PBool (task_alive (_task coordinator)))]);
     ("client_info", PDict
        [("client_type",
            if is_Some_b (client coordinator) then PStr "CoAPClient" else PNone);
         ("client_available", PBool (is_Some_b (client coordinator)))])]).

Definition _get_device_info (entry : ConfigEntry)
    (config_entry_data : ConfigEntryData) (device_entry : option DeviceEntry)
    : M Hass pyval :=
  let device_info := device_information config_entry_data in
  let status := or_empty_dict (latest_status config_entry_data) in
  let device_data :=
    [("device_model", di_model device_info);
     ("device_name", di_name device_info);
     ("device_host", di_host device_info);
     ("device_mac", di_mac device_info);
     ("device_id_from_config", di_device_id device_info)] in
  let device_data :=
    match device_entry with
    | Some device_entry =>
        dict_update device_data
          [("device_registry_id", PStr (dev_id device_entry));
           ("device_manufacturer", dev_manufacturer device_entry);
           ("device_model_registry", dev_model device_entry);
           ("device_name_registry", dev_name device_entry);
           ("device_sw_version", dev_sw_version device_entry);
           ("device_hw_version", dev_hw_version device_entry);
           ("device_connections", PSet (dev_connections device_entry));
           ("device_identifiers", PSet (dev_identifiers device_entry));
           ("device_config_entries",
              PList (map PStr (dev_config_entries device_entry)))]
    | None => device_data
    end in
  if truthy status then
    d <- mapping status ;;
    ret (PDict (dict_update device_data
      [("device_status_keys", PList (map PStr (dict_keys d)));
       ("device_status_count", PInt (Z.of_nat (List.length d)));
       ("has_error_code", PBool (dict_has d "err"));
       ("error_code_value", dict_get_default d "err" (PStr "N/A"));
       ("has_wifi_version", PBool (dict_has d "WifiVersion"));
       ("wifi_version", dict_get_default d "WifiVersion" (PStr "N/A"));
       ("has_software_version", PBool (dict_has d "swversion"));
       ("software_version", dict_get_default d "swversion" (PStr "N/A"));
       ("has_model_id", PBool (dict_has d "modelid"));
       ("model_id", dict_get_default d "modelid" (PStr "N/A"));
       ("has_product_id", PBool (dict_has d "ProductId"));
       ("product_id", dict_get_default d "ProductId" (PStr "N/A"))]))
  else ret (PDict device_data).

Definition _get_signal_quality {W} (rssi : pyval) : M W pyval :=
  r <- ordered_int rssi ;;
  if -50 <=? r then ret (PStr "excellent")
  else if -60 <=? r then ret (PStr "good")
  else if -70 <=? r then ret (PStr "fair")
  else ret (PStr "poor").

Definition _get_connectivity_info (config_entry_data : ConfigEntryData)
    : M Hass pyval :=
  let coordinator := coordinator config_entry_data in
  let device_info := device_information config_entry_data in
  let status := or_empty_dict (latest_status config_entry_data) in
  n <- py_len status ;;
  let connectivity_data :=
    [("host", di_host device_info);
     ("connection_status",
        PStr (if is_Some_b (client coordinator) then "connected" else "disconnected"));
     ("coordinator_available", PBool true);
     ("has_status_data", PBool (0 <? n));
     ("status_data_age", PStr "unknown")] in
  has_rssi <- py_contains "rssi" status ;;
  connectivity_data <-
    (if has_rssi then
       rssi_value <- py_getitem status "rssi" ;;
       quality <- _get_signal_quality rssi_value ;;
       ret (dict_update connectivity_data
              [("signal_strength_dbm", rssi_value); ("signal_quality", quality)])
     else ret connectivity_data) ;;
  ret (PDict (dict_set connectivity_data "client_status"
    (PStr (if is_Some_b (client coordinator) then "available" else "unavailable")))).

Definition _get_performance_metrics (config_entry_data : ConfigEntryData)
    : M Hass pyval :=
  let coordinator := coordinator config_entry_data in
  ret (PDict
    [("coordinator_listeners", PInt (Z.of_nat (List.length (_listeners coordinator))));
     ("update_method",
        PStr (if is_Some_b (_task coordinator) then "push" else "unknown"));
     ("reconnect_task_active", PBool (task_alive (_reconnect_task coordinator)));
     ("timer_disconnected_active",
        match _timer_disconnected coordinator with
        | None => PBool false
        | Some None => PStr "unknown"
        | Some (Some running) => PBool running
        end);
     ("memory_usage", PStr "not_tracked");
     ("api_call_count", PStr "not_tracked");
     ("cache_hit_rate", PStr "not_applicable")]).

(** [er.async_entries_for_config_entry(entity_registry, entry_id)]. *)
Definition async_entries_for_config_entry (id : string) : M Hass (list EntityEntry) :=
  reads (fun h => List.filter (fun e => String.eqb (ent_config_entry_id e) id)
                    (entities h)).

Definition is_not_None (v : pyval) : bool :=
  match v with PNone => false | _ => true end.

(** [entity_counts[platform] = entity_counts.get(platform, 0) + 1]. *)
Definition count_platform (entity_counts : pydict) (platform : string) : pydict :=
  dict_set entity_counts platform
    (match dict_get entity_counts platform with
     | Some (PInt n) => PInt (n + 1)
     | _ => PInt 1
     end).

Definition entity_detail (entity : EntityEntry) : pyval :=
  PDict
    [("entity_id", PStr (ent_entity_id entity));
     ("platform", PStr (ent_platform entity));
     ("device_class", ent_device_class entity);
     ("entity_category", ent_entity_category entity);
     ("disabled", PBool (is_not_None (ent_disabled_by entity)));
     ("hidden", PBool (is_not_None (ent_hidden_by entity)));
     ("has_entity_name", PBool (ent_has_entity_name entity));
     ("translation_key", ent_translation_key entity)].

Definition _get_entity_info (entry : ConfigEntry) : M Hass pyval :=
  entities <- async_entries_for_config_entry (entry_id entry) ;;
  let entity_counts :=
    fold_left (fun counts entity => count_platform counts (ent_platform entity))
      entities [] in
  let entity_details := map entity_detail entities in
  ret (PDict
    [("total_entities", PInt (Z.of_nat (List.length entities)));
     ("entity_counts_by_platform", PDict entity_counts);
     ("entity_details", PList entity_details)]).

Definition _get_configuration_data (entry : ConfigEntry) : M Hass pyval :=
  n <- py_len (dict_get_default (data entry) (CONF_STATUS K) (PDict [])) ;;
  ret (PDict
    [("config_entry_data", PDict
        [("host", opt_pyval (dict_get (data entry) CONF_HOST));
         ("model", opt_pyval (dict_get (data entry) (CONF_MODEL K)));
         ("name", opt_pyval (dict_get (data entry) CONF_NAME));
         ("has_device_id", PBool (dict_has (data entry) (CONF_DEVICE_ID K)));
         ("has_status", PBool (dict_has (data entry) (CONF_STATUS K)));
         ("status_keys_count", PInt n)]);
     ("config_entry_options", PDict (options entry));
     ("config_entry_source", PStr (source entry));
     ("config_entry_state", PStr (entry_state entry))]).

Definition _get_error_tracking (config_entry_data : ConfigEntryData)
    : M Hass pyval :=
  let status := or_empty_dict (latest_status config_entry_data) in
  d <- mapping status ;;
  ret (PDict
    [("device_error_code", dict_get_default d "err" (PInt 0));
     ("device_error_description",
        if eq_int (dict_get_default d "err" (PInt 0)) 0
        then PStr "Normal Operation"
        else PStr ("Error Code: " ++
                   py_str (dict_get_default d "err" (PStr "unknown"))));
     ("recent_exceptions", PStr "not_tracked");
     ("connection_failures", PStr "not_tracked");
     ("api_timeouts", PStr "not_tracked")]).

Definition _get_device_status (config_entry_data : ConfigEntryData)
    : M Hass pyval :=
  let status := or_empty_dict (latest_status config_entry_data) in
  if negb (truthy status) then
    ret (PDict [("status", PStr "no_data_available")])
  else
    d <- mapping status ;;
    let get key := dict_get_default d key (PStr "unknown") in
    let filter_keys :=
      List.filter (fun key => startswith_any key ["flt"; "wick"; "D05"])
        (dict_keys d) in
    let filters :=
      fold_left (fun acc key => dict_set acc key (opt_pyval (dict_get d key)))
        filter_keys [] in
    ret (PDict
      [("power_status",
          PStr (if eq_str (opt_pyval (dict_get d "pwr")) "1" then "on" else "off"));
       ("mode", get "mode");
       ("fan_speed", get "om");
       ("air_quality", PDict
          [("pm25", get "pm25");
           ("indoor_allergen_index", get "iaql");
           ("gas_level",
              if dict_has d "gas" then get "gas" else PStr "not_available")]);
       ("environmental", PDict
          [("temperature", get "temp"); ("humidity", get "rh")]);
       ("filters", PDict filters);
       ("settings", PDict
          [("child_lock",
              PStr (if eq_int (opt_pyval (dict_get d "cl")) 1 then "on" else "off"));
           ("display_backlight", get "uil");
           ("preferred_index", get "ddp")]);
       ("device_info", PDict
          [("runtime", get "Runtime");
           ("wifi_version", get "WifiVersion");
           ("software_version", get "swversion");
           ("model_id", get "modelid");
           ("product_id", get "ProductId")])]).

(** The first device of the registry that lists the entry. *)
Definition find_device_entry (id : string) : M Hass (option DeviceEntry) :=
  reads (fun h => List.find (fun device => in_set id (dev_config_entries device))
                    (devices h)).

Definition async_get_config_entry_diagnostics (entry : ConfigEntry)
    : M Hass pyval :=
  config_entry_data <- domain_data_lookup K (entry_id entry) ;;
  device_entry <- find_device_entry (entry_id entry) ;;
  system_info <- _get_system_info entry ;;
  integration_info <- _get_integration_info entry config_entry_data ;;
  device_info <- _get_device_info entry config_entry_data device_entry ;;
  connectivity_info <- _get_connectivity_info config_entry_data ;;
  performance_metrics <- _get_performance_metrics config_entry_data ;;
  entity_info <- _get_entity_info entry ;;
  configuration_data <- _get_configuration_data entry ;;
  error_tracking <- _get_error_tracking config_entry_data ;;
  device_status <- _get_device_status config_entry_data ;;
  let diagnostics_data :=
    PDict
      [("system_info", system_info);
       ("integration_info", integration_info);
       ("device_info", device_info);
       ("connectivity_info", connectivity_info);
       ("performance_metrics", performance_metrics);
       ("entity_info", entity_info);
       ("configuration_data", configuration_data);
       ("error_tracking", error_tracking);
       ("device_status", device_status)] in
  ret (async_redact_data TO_REDACT diagnostics_data).

End Diagnostics.

End Integration.

(* ===================================================================== *)
(** ** A purifier in the bedroom                                          *)
(* ===================================================================== *)

Module Example.

Import Integration.

Definition K0 : Const :=
  {| DOMAIN := "philips_airpurifier_coap"; CONF_MODEL := "model";
     CONF_DEVICE_ID := "device_id"; CONF_STATUS := "status" |}.

Definition py_str0 (v : pyval) : string :=
  match v with
  | PStr s => s
  | PInt z => Sensor.str_of_Z z
  | PBool true => "True"
  | PBool false => "False"
  | _ => "None"
  end.

Definition status0 : pyval :=
  PDict [("pwr", PStr "1"); ("rssi", PInt (-55)); ("fltsts1", PInt 2400);
         ("flttotal1", PInt 4800); ("DeviceId", PStr "abc123")].

Definition status1 : pyval :=
  PDict [("pwr", PStr "0"); ("rssi", PInt (-71))].

Definition entry_at (host : string) (persisted : option pyval) : ConfigEntry :=
  {| entry_id := "entry1"; title := "Bedroom"; version := 1;
     data := ([("host", PStr host); ("model", PStr "AC4220/12");
               ("name", PStr "Bedroom"); ("device_id", PStr "abc123")]
              ++ match persisted with
                 | Some st => [("status", st)]
                 | None => []
                 end)%list;
     options := []; source := "user"; entry_state := "loaded" |}.

Definition entry_with_status : ConfigEntry := entry_at "192.168.1.20" (Some status0).
Definition entry_without_status : ConfigEntry := entry_at "192.168.1.20" None.

Definition hass0 : Hass :=
  {| domain_data := None; services := ∅;
     config_entries := {[ "entry1" := entry_without_status ]};
     devices := []; entities := [];
     ha_version := None; sys_version := "3.13.1";
     utcnow := "2025-01-01T00:00:00+00:00"; calls := [] |}.

Definition answers_ok : Answers :=
  {| get_mac_address := Some "aa:bb:cc:dd:ee:ff"; format_mac := fun s => s;
     CoAPClient_create := Ok "client1"; first_refresh := Ok status1;
     services_call := 1 |}.

Definition answers_timeout : Answers :=
  {| get_mac_address := Some "aa:bb:cc:dd:ee:ff"; format_mac := fun s => s;
     CoAPClient_create := Raise TimeoutError; first_refresh := Ok status1;
     services_call := 1 |}.

(** The connection is established, and the first refresh does not reach
    the device. *)
Definition answers_unreached : Answers :=
  {| get_mac_address := Some "aa:bb:cc:dd:ee:ff"; format_mac := fun s => s;
     CoAPClient_create := Ok "client1";
     first_refresh := Raise ConfigEntryNotReady;
     services_call := 1 |}.

(** The instance after the bedroom purifier has been set up, at one
    address and at another. *)
Definition hass_at (host : string) : Hass :=
  snd (async_setup_entry K0 (entry_at host (Some status0)) answers_ok hass0).

Definition hass1 : Hass := hass_at "192.168.1.20".

(** An instance whose [config] answers [version], as a test double does. *)
Definition answering_version (h : Hass) : Hass :=
  {| domain_data := domain_data h; services := services h;
     config_entries := config_entries h; devices := devices h;
     entities := entities h; ha_version := Some "2025.1.0";
     sys_version := sys_version h; utcnow := utcnow h; calls := calls h |}.

End Example.

(* ===================================================================== *)
(** ** select.py: the entity's option, and the platform setup             *)
(* ===================================================================== *)

Module SelectPlatform.

Import Select.
Import Sensor (rbind).

(** The values that can be the key of a dict. *)
Fixpoint hashable (v : pyval) : bool :=
  match v with
  | PNone | PBool _ | PInt _ | PStr _ => true
  | PTuple l => forallb hashable l
  | PList _ | PSet _ | PDict _ => false
  end.

(** [a == b] on hashable values; a bool is the int 0 or 1. *)
Fixpoint key_eqb (a b : pyval) : bool :=
  match a, b with
  | PNone, PNone => true
  | PBool x, PBool y => Bool.eqb x y
  | PBool x, PInt z | PInt z, PBool x => (if x then 1 else 0) =? z
  | PInt x, PInt y => x =? y
  | PStr s, PStr t => String.eqb s t
  | PTuple l, PTuple m =>
      (fix all (l m : list pyval) : bool :=
         match l, m with
         | [], [] => true
         | x :: l', y :: m' => key_eqb x y && all l' m'
         | _, _ => false
         end) l m
  | _, _ => false
  end.

(** [self._options.get(option)] for a hashable [option]. *)
Fixpoint options_get (options : list (pyval * string)) (option : pyval)
    : Datatypes.option string :=
  match options with
  | [] => None
  | (key, value) :: rest =>
      if key_eqb key option then Some value else options_get rest option
  end.

(** [current_option]: the label of the device value in the status, and
    [str(None)] when the status has no such value or the value no label.
    A value that cannot be hashed makes the lookup raise TypeError. *)
Definition current_option (self : PhilipsSelect) (_device_status : gmap string pyval)
    : result string :=
  let option := default PNone (_device_status !! kind self) in
  if hashable option then
    Ok (match options_get (_options self) option with
        | Some label => label
        | None => "None"
        end)
  else Raise TypeError.

(** The invariant of a Python dict, on [_options]: its keys can be hashed
    and no two of them are equal. *)
Definition is_dict (options : list (pyval * string)) : Prop :=
  Forall (fun entry => hashable (fst entry) = true) options
  /\ forall i j ki li kj lj,
       options !! i = Some (ki, li) ->
       options !! j = Some (kj, lj) ->
       key_eqb ki kj = true -> i = j.

(** The loop of [async_setup_entry] over [reversed(available_selects)]:
    [seen] is the set, [unique_selects] the list it fills. *)
Fixpoint unique_loop (seen : gset string) (unique_selects : list string)
    (selects : list string) : list string :=
  match selects with
  | [] => unique_selects
  | select :: rest =>
      if decide (select ∈ seen) then unique_loop seen unique_selects rest
      else unique_loop ({[select]} ∪ seen) (unique_selects ++ [select]) rest
  end.

(** [available_selects] after the removal of duplicates. *)
Definition unique_selects (available_selects : list string) : list string :=
  rev (unique_loop ∅ [] (rev available_selects)).

(** [select.partition("#")[0]]; the character ["#"] has code 35. *)
Fixpoint before_hash (s : string) : string :=
  match s with
  | EmptyString => EmptyString
  | String c s' =>
      if Ascii.eqb c (Ascii.ascii_of_nat 35) then EmptyString
      else String c (before_hash s')
  end.

(** The name [PhilipsApi] is used by [async_setup_entry] and is not
    imported by [select.py]: reading it raises NameError. *)
Definition NameError (name : string) : exn :=
  OtherError ("NameError: name '" ++ name ++ "' is not defined").

Section Platform.
(** [SELECT_TYPES] of [const.py]: the select names in the order of the
    dict, each with the [OPTIONS] of its description, if it has any. *)
Variable SELECT_TYPES : list (string * option (list (pyval * string))).

Fixpoint description (types : list (string * option (list (pyval * string))))
    (select : string) : option (option (list (pyval * string))) :=
  match types with
  | [] => None
  | (name, options) :: rest =>
      if String.eqb name select then Some options else description rest select
  end.

(** [PhilipsSelect(hass, entry, config_entry_data, select)], as far as the
    fields [kind] and [_options] go; [list(self._options.values())] raises
    AttributeError when the description has no options. *)
Definition PhilipsSelect_init (select : string) : result PhilipsSelect :=
  match description SELECT_TYPES select with
  | None => Raise (KeyError select)
  | Some None => Raise AttributeError
  | Some (Some options) =>
      Ok {| kind := before_hash select; _options := options |}
  end.

(** The loop that fills [filtered_selects].  For the model AC4220/12 the
    condition goes on to read [PhilipsApi]. *)
Fixpoint filtered_selects (model : string) (available_selects : list string)
    (types : list string) : result (list string) :=
  match types with
  | [] => Ok []
  | select :: rest =>
      if decide (select ∈ available_selects) then
        if String.eqb model "AC4220/12" then Raise (NameError "PhilipsApi")
        else rbind (filtered_selects model available_selects rest)
                   (fun filtered => Ok (select :: filtered))
      else filtered_selects model available_selects rest
  end.

(** [[PhilipsSelect(...) for select in filtered_selects]]. *)
Fixpoint new_selects (selects : list string) : result (list PhilipsSelect) :=
  match selects with
  | [] => Ok []
  | select :: rest =>
      rbind (PhilipsSelect_init select) (fun entity =>
      rbind (new_selects rest) (fun entities => Ok (entity :: entities)))
  end.

(** [async_setup_entry] of the select platform.  [model_class] is
    [model_to_class.get(model)], given by what
    [getattr(cls, "AVAILABLE_SELECTS", [])] is for each class of
    [reversed(model_class.__mro__)].  The result is the list handed to
    [async_add_entities], [None] when nothing is added.  (The removal of
    the duplicate entity of an AC4220/12 acts on the entity registry alone
    and keeps its exceptions to itself.) *)
Definition async_setup_entry (model : string)
    (model_class : option (list (list string)))
    : result (option (list PhilipsSelect)) :=
  match model_class with
  | Some mro =>
      let available_selects := concat mro in
      let available_selects := unique_selects available_selects in
      rbind (filtered_selects model available_selects (map fst SELECT_TYPES))
        (fun filtered =>
      rbind (new_selects filtered) (fun selects => Ok (Some selects)))
  | None => Ok None
  end.

End Platform.

(** Two selects of [const.py]'s kind, for the examples. *)
Definition select_types0 : list (string * option (list (pyval * string))) :=
  [("ddp#1", Some [(PStr "0", "indoor_allergen_index"); (PStr "1", "pm25")]);
   ("uil", Some [(PStr "0", "off"); (PStr "1", "on")])].

End SelectPlatform.

(* ===================================================================== *)
(** ** sensor.py: the attributes and the icon of a filter sensor          *)
(* ===================================================================== *)

Module SensorAttributes.

Import Sensor.

(** ['s' if b else '']. *)
Definition plural (b : bool) : string := if b then "s" else "".

Definition _format_filter_time_remaining (hours : Z) : string :=
  if hours <=? 0 then "Replace immediately"
  else
    let days := hours / 24 in
    let remaining_hours := hours mod 24 in
    if 365 <=? days then
      let years := days / 365 in
      let remaining_days := days mod 365 in
      if (years =? 1) && (remaining_days =? 0) then "1 year remaining"
      else if remaining_days =? 0 then str_of_Z years ++ " years remaining"
      else str_of_Z years ++ " year" ++ plural (1 <? years) ++ ", "
           ++ str_of_Z remaining_days ++ " day"
           ++ plural (negb (remaining_days =? 1)) ++ " remaining"
    else if 30 <=? days then
      let months := days / 30 in
      let remaining_days := days mod 30 in
      if (months =? 1) && (remaining_days =? 0) then "1 month remaining"
      else if remaining_days =? 0 then str_of_Z months ++ " months remaining"
      else str_of_Z months ++ " month" ++ plural (1 <? months) ++ ", "
           ++ str_of_Z remaining_days ++ " day"
           ++ plural (negb (remaining_days =? 1)) ++ " remaining"
    else if 7 <=? days then
      let weeks := days / 7 in
      let remaining_days := days mod 7 in
      if (weeks =? 1) && (remaining_days =? 0) then "1 week remaining"
      else if remaining_days =? 0 then str_of_Z weeks ++ " weeks remaining"
      else str_of_Z weeks ++ " week" ++ plural (1 <? weeks) ++ ", "
           ++ str_of_Z remaining_days ++ " day"
           ++ plural (negb (remaining_days =? 1)) ++ " remaining"
    else if 0 <? days then
      if (days =? 1) && (remaining_hours =? 0) then "1 day remaining"
      else if remaining_hours =? 0 then str_of_Z days ++ " days remaining"
      else str_of_Z days ++ " day" ++ plural (negb (days =? 1)) ++ ", "
           ++ str_of_Z remaining_hours ++ " hour"
           ++ plural (negb (remaining_hours =? 1)) ++ " remaining"
    else
      if hours =? 1 then "1 hour remaining"
      else str_of_Z hours ++ " hours remaining".

Definition _format_filter_total_capacity (hours : Z) : string :=
  let days := hours / 24 in
  if 365 <=? days then
    let years := days / 365 in
    let remaining_days := days mod 365 in
    if remaining_days =? 0 then
      str_of_Z years ++ " year" ++ plural (negb (years =? 1)) ++ " capacity"
    else
      str_of_Z years ++ " year" ++ plural (negb (years =? 1)) ++ ", "
      ++ str_of_Z remaining_days ++ " day"
      ++ plural (negb (remaining_days =? 1)) ++ " capacity"
  else if 30 <=? days then
    let months := days / 30 in
    let remaining_days := days mod 30 in
    if remaining_days =? 0 then
      str_of_Z months ++ " month" ++ plural (negb (months =? 1)) ++ " capacity"
    else
      str_of_Z months ++ " month" ++ plural (negb (months =? 1)) ++ ", "
      ++ str_of_Z remaining_days ++ " day"
      ++ plural (negb (remaining_days =? 1)) ++ " capacity"
  else
    str_of_Z days ++ " day" ++ plural (negb (days =? 1)) ++ " capacity".

(** The replacement recommendation of a filter with a total capacity. *)
Definition status_by_percentage (percentage : Z) : string :=
  if percentage <=? 5 then "Replace immediately"
  else if percentage <=? 15 then "Replace soon"
  else if percentage <=? 30 then "Monitor closely"
  else "Good condition".

(** The replacement recommendation of a filter without a total capacity. *)
Definition status_by_hours (remaining_hours : Z) : string :=
  if remaining_hours <=? 24 then "Replace immediately"
  else if remaining_hours <=? 72 then "Replace soon"
  else if remaining_hours <=? 168 then "Monitor closely"
  else "Good condition".

(** [extra_state_attributes] of a [PhilipsFilterSensor]; [_type_key] is
    the key of the filter type.  The values go through [//], [<=], [*] and
    [/], which raise TypeError on what is not a number. *)
Definition extra_state_attributes (self : PhilipsFilterSensor) (_type_key : string)
    (_device_status : gmap string pyval) : result pydict :=
  attrs <~ (if contains _device_status _type_key then
              filter_type <~ getitem _device_status _type_key ;;
              Ok (if truthy filter_type
                  then dict_set [] "Filter Type" filter_type else [])
            else Ok []) ;;
  if _has_total self _device_status then
    total <~ _total self _device_status ;;
    total_hours <~ number total ;;
    let attrs := dict_set attrs "Total Filter Capacity"
                   (PStr (_format_filter_total_capacity total_hours)) in
    value <~ _value self _device_status ;;
    remaining_hours <~ number value ;;
    let attrs := dict_set attrs "Filter Life Remaining"
                   (PStr (_format_filter_time_remaining remaining_hours)) in
    scaled <~ times_100 remaining_hours ;;
    percentage <~ rounded_quotient scaled total_hours ;;
    let attrs := dict_set attrs "Filter Life Percentage"
                   (PStr (str_of_Z percentage ++ "%")) in
    Ok (dict_set attrs "Replacement Status"
          (PStr (status_by_percentage percentage)))
  else
    value <~ _value self _device_status ;;
    remaining_hours <~ number value ;;
    let attrs := dict_set attrs "Filter Life Remaining"
                   (PStr (_format_filter_time_remaining remaining_hours)) in
    Ok (dict_set attrs "Replacement Status"
          (PStr (status_by_hours remaining_hours))).

(** The loop of [icon] over [self._icon_map.items()]. *)
Fixpoint icon_loop (icon : string) (items : list (Z * string)) (value : Z) : string :=
  match items with
  | [] => icon
  | (level_value, level_icon) :: rest =>
      icon_loop (if level_value <=? value then level_icon else icon) rest value
  end.

(** [int(self.native_value)]: the percentage, or the decimal string of the
    hours. *)
Definition int_of_native_value (v : pyval) : result Z :=
  match v with
  | PInt z => Ok z
  | PBool b => Ok (if b then 1 else 0)
  | PStr s =>
      match DecimalString.NilZero.int_of_string s with
      | Some d => Ok (Z.of_int d)
      | None => Raise ValueError
      end
  | _ => Raise TypeError
  end.

(** [icon] of a [PhilipsFilterSensor]: [_icon_map] is the icon map of its
    description, [None] when it has none; [_norm_icon] is the icon of the
    first item of the map. *)
Definition icon (self : PhilipsFilterSensor) (_icon_map : option (list (Z * string)))
    (_device_status : gmap string pyval) : result (option string) :=
  match _icon_map with
  | None | Some [] => Ok None
  | Some ((first_level, _norm_icon) :: rest) =>
      native <~ native_value self _device_status ;;
      value <~ int_of_native_value native ;;
      Ok (Some (icon_loop _norm_icon ((first_level, _norm_icon) :: rest) value))
  end.

(** The last character of a string. *)
Fixpoint last_char (s : string) : option Ascii.ascii :=
  match s with
  | EmptyString => None
  | String c EmptyString => Some c
  | String _ s' => last_char s'
  end.

End SensorAttributes.

(* ===================================================================== *)
(** ** services.py: the handlers and what they write to the device        *)
(* ===================================================================== *)

Module ServiceCalls.

Import Integration.

(** The instance, and the control writes handed to CoAP clients so far:
    the client, the key and the value of each. *)
Record World : Type := {
  hass : Hass;
  written : list (string * string * pyval);
}.

(** [ServiceValidationError] and [HomeAssistantError]; the message is left
    out. *)
Definition ServiceValidationError : exn := OtherError "ServiceValidationError".
Definition HomeAssistantError : exn := OtherError "HomeAssistantError".

(** What lies outside [services.py]:
    - [entry_domain]: the [domain] of the config entry of an id;
    - [DISPLAY_BACKLIGHT], [CHILD_LOCK]: the keys of [PhilipsApi];
    - [net]: what the device answers to a control write of a key and a
      value. *)
Record Outside : Type := {
  entry_domain : string -> string;
  DISPLAY_BACKLIGHT : string;
  CHILD_LOCK : string;
  net : string -> pyval -> result unit;
}.

Section Handlers.
Variable K : Const.
Variable O : Outside.

(** [await client.set_control_value(key, value)]; a client that is [None]
    has no such method. *)
Definition set_control_value (client : option string) (key : string) (value : pyval)
    : M World unit :=
  match client with
  | None => raise AttributeError
  | Some c =>
      fun w =>
        (net O key value,
         {| hass := hass w; written := (written w ++ [(c, key, value)])%list |})
  end.

(** [get_config_entry_data_from_entity_id]. *)
Definition get_config_entry_data_from_entity_id (entity_id : string)
    : M World (option ConfigEntryData) :=
  entity_entry <- reads (fun w =>
    List.find (fun e => String.eqb (ent_entity_id e) entity_id) (entities (hass w))) ;;
  match entity_entry with
  | None => ret None
  | Some entity_entry =>
      if String.eqb (ent_config_entry_id entity_entry) "" then ret None
      else
        config_entry <- reads (fun w =>
          config_entries (hass w) !! ent_config_entry_id entity_entry) ;;
        match config_entry with
        | None => ret None
        | Some config_entry =>
            if negb (String.eqb (entry_domain O (entry_id config_entry)) (DOMAIN K))
            then ret None
            else
              fun w =>
                match domain_data (hass w) with
                | Some m => (Ok (m !! entry_id config_entry), w)
                | None => (Raise (KeyError (DOMAIN K)), w)
                end
        end
  end.

(** The loop of every handler over the entity ids of the call: an entity
    without config entry data is passed over, and an exception of the
    implementation is raised again as HomeAssistantError. *)
Definition for_each_entity (entity_ids : list string)
    (implementation : ConfigEntryData -> M World unit) : M World unit :=
  for_each entity_ids (fun entity_id =>
    config_entry_data <- get_config_entry_data_from_entity_id entity_id ;;
    match config_entry_data with
    | None => ret tt
    | Some config_entry_data =>
        try_except (implementation config_entry_data)
          any_exception
          (fun _ => raise HomeAssistantError)
    end).

Definition filter_mappings : list (string * (string * string)) :=
  [("pre_filter", ("fltsts0", "flttotal0"));
   ("hepa_filter", ("fltsts1", "flttotal1"));
   ("active_carbon_filter", ("fltsts2", "flttotal2"));
   ("nanoprotect_filter", ("D05-14", "D05-08"))].

Fixpoint filter_mapping (mappings : list (string * (string * string)))
    (filter_type : string) : option (string * string) :=
  match mappings with
  | [] => None
  | (name, keys) :: rest =>
      if String.eqb name filter_type then Some keys
      else filter_mapping rest filter_type
  end.

(** The body of the loop of [_reset_filter_counters] for one filter; its
    [except] raises the exception again. *)
Definition reset_filter (config_entry_data : ConfigEntryData)
    (keys : string * string) : M World unit :=
  let client := client (coordinator config_entry_data) in
  let '(status_key, total_key) := keys in
  status <- mapping (status (coordinator config_entry_data)) ;;
  let total_capacity := dict_get_default status total_key (PInt 0) in
  t <- ordered_int total_capacity ;;
  if 0 <? t then set_control_value client status_key total_capacity
  else ret tt.

Definition _reset_filter_counters (config_entry_data : ConfigEntryData)
    (filter_type : string) (reset_maintenance : bool) : M World unit :=
  filters_to_reset <-
    (if String.eqb filter_type "all" then ret (map snd filter_mappings)
     else match filter_mapping filter_mappings filter_type with
          | None => raise ServiceValidationError
          | Some keys => ret [keys]
          end) ;;
  for_each filters_to_reset (reset_filter config_entry_data).

(** [int(brightness_level * 255 / 100)]: the quotient cut towards zero.
    (The float quotient is cut to the same integer for every
    [|brightness_level| < 2^44].) *)
Definition device_brightness (brightness_level : Z) : Z :=
  Z.quot (brightness_level * 255) 100.

Definition _set_display_brightness (config_entry_data : ConfigEntryData)
    (brightness_level : Z) (auto_dim night_mode : bool) : M World unit :=
  let client := client (coordinator config_entry_data) in
  set_control_value client (DISPLAY_BACKLIGHT O)
    (PStr (Sensor.str_of_Z (device_brightness brightness_level))).

Definition _set_child_lock (config_entry_data : ConfigEntryData) (enabled : bool)
    : M World unit :=
  let client := client (coordinator config_entry_data) in
  set_control_value client (CHILD_LOCK O) (PBool enabled).

Definition sensor_mappings : list string := ["pm25"; "allergen_index"; "gas"; "tvoc"].

(** [_calibrate_sensors]: it checks the sensor type, logs what a
    calibration would do, and sleeps. *)
Definition _calibrate_sensors (config_entry_data : ConfigEntryData)
    (sensor_type calibration_mode : string) (reference_value : option Z)
    : M World unit :=
  if String.eqb sensor_type "all" then ret tt
  else if in_set sensor_type sensor_mappings then ret tt
  else raise ServiceValidationError.

(** [_set_timer]: it converts the hours to minutes, [int(duration_hours *
    60)], logs the timer, disabled when the minutes are zero, and sends
    nothing; what the conversion raises is logged and raised again. *)
Definition _set_timer (config_entry_data : ConfigEntryData)
    (duration_hours : Float.float) (action_after_timer : string)
    : M World unit :=
  duration_minutes <-
    lift_result
      (Float.int_of_float (Float.float_mul duration_hours (Float.Finite 60 0))) ;;
  if duration_minutes =? 0 then ret tt else ret tt.

(** [_reset_device]: it logs the reset, and sleeps. *)
Definition _reset_device (config_entry_data : ConfigEntryData)
    (reset_type : string) : M World unit :=
  ret tt.

(** The handlers, on the entity ids that [async_extract_entity_ids] gives
    and on the data of the call. *)
Definition async_filter_reset (entity_ids : list string) (filter_type : string)
    (reset_maintenance : bool) : M World unit :=
  for_each_entity entity_ids (fun config_entry_data =>
    _reset_filter_counters config_entry_data filter_type reset_maintenance).

Definition async_calibrate_sensors (entity_ids : list string)
    (sensor_type calibration_mode : string) (reference_value : option Z)
    : M World unit :=
  if String.eqb calibration_mode "manual"
     && match reference_value with None => true | Some _ => false end
  then raise ServiceValidationError
  else
    for_each_entity entity_ids (fun config_entry_data =>
      _calibrate_sensors config_entry_data sensor_type calibration_mode
        reference_value).

Definition async_set_display_brightness (entity_ids : list string)
    (brightness_level : Z) (auto_dim night_mode : bool) : M World unit :=
  for_each_entity entity_ids (fun config_entry_data =>
    _set_display_brightness config_entry_data brightness_level auto_dim night_mode).

Definition async_set_child_lock (entity_ids : list string) (enabled : bool)
    : M World unit :=
  for_each_entity entity_ids (fun config_entry_data =>
    _set_child_lock config_entry_data enabled).

Definition async_set_timer (entity_ids : list string)
    (duration_hours : Float.float) (action_after_timer : string)
    : M World unit :=
  for_each_entity entity_ids (fun config_entry_data =>
    _set_timer config_entry_data duration_hours action_after_timer).

Definition async_reset_device (entity_ids : list string) (reset_type : string)
    (confirm_reset : bool) : M World unit :=
  if negb confirm_reset then raise ServiceValidationError
  else
    for_each_entity entity_ids (fun config_entry_data =>
      _reset_device config_entry_data reset_type).

End Handlers.

(** A write of [reset_filter]: to the entity's client, of a positive total
    capacity of the cached status, under the status key of that total. *)
Definition resets_to_total (config_entry_data : ConfigEntryData)
    (filters : list (string * string)) (write : string * string * pyval) : Prop :=
  let '(c, key, value) := write in
  client (coordinator config_entry_data) = Some c
  /\ exists total_key d t,
       In (key, total_key) filters
       /\ status (coordinator config_entry_data) = PDict d
       /\ dict_get d total_key = Some value
       /\ Sensor.number value = Ok t /\ 0 < t.

(** The bedroom purifier with its filters, and a device that takes every
    write. *)
Definition outside0 : Outside :=
  {| entry_domain := fun _ => "philips_airpurifier_coap";
     DISPLAY_BACKLIGHT := "uil"; CHILD_LOCK := "cl";
     net := fun _ _ => Ok tt |}.

Definition bedroom : ConfigEntryData :=
  {| device_information :=
       {| di_host := PStr "192.168.1.20"; di_mac := PNone;
          di_model := PStr "AC4220/12"; di_name := PStr "Bedroom";
          di_device_id := PStr "abc123" |};
     coordinator :=
       {| host := PStr "192.168.1.20"; client := Some "client1";
          status := PDict [("fltsts0", PInt 10); ("flttotal0", PInt 360);
                           ("fltsts1", PInt 2400); ("flttotal1", PInt 4800);
                           ("flttotal2", PInt 0)];
          _timeout := None; _listeners := []; _task := None;
          _reconnect_task := None; _timer_disconnected := None |};
     latest_status := PNone;
     ced_client := "client1" |}.

Definition world0 : World := {| hass := Example.hass1; written := [] |}.

End ServiceCalls.

(* ===================================================================== *)
(** ** repairs.py: the health check                                       *)
(* ===================================================================== *)

Module Repairs.

Import Integration.

(** An issue of the issue registry, under [DOMAIN] and its issue id. *)
Record Issue : Type := {
  severity : string;
  translation_key : string;
  is_fixable : bool;
}.

(** An entry of the entity registry; [device_id] may be [None]. *)
Record RegistryEntry : Type := {
  reg_entity_id : string;
  reg_config_entry_id : string;
  reg_device_id : option string;
  reg_unique_id : string;
}.

(** What the health check works on: the issues of [DOMAIN], the entity
    registry in its order, the ids of the devices of the device registry,
    and the ids of [hass.config_entries.async_entries(DOMAIN)]. *)
Record World : Type := {
  issues : gmap string Issue;
  entity_registry : list RegistryEntry;
  device_registry : gset string;
  domain_entries : list string;
}.

Definition set_issues (f : gmap string Issue -> gmap string Issue) (w : World)
    : World :=
  {| issues := f (issues w); entity_registry := entity_registry w;
     device_registry := device_registry w; domain_entries := domain_entries w |}.

(** [async_create_issue(hass, issue_id, translation_key, severity)]. *)
Definition async_create_issue (issue_id translation_key severity : string)
    : M World unit :=
  modify (set_issues (fun m =>
    <[issue_id := {| severity := severity; translation_key := translation_key;
                     is_fixable := true |}]> m)).

(** [async_delete_issue(hass, issue_id)]. *)
Definition async_delete_issue (issue_id : string) : M World unit :=
  modify (set_issues (fun m => delete issue_id m)).

(** [percentage <= 15] for [percentage = (remaining / total) * 100] on
    ints: the int quotient is a float, which is multiplied by 100 and
    compared with 15. *)
Definition at_most_15_percent (remaining total : Z) : result bool :=
  Sensor.rbind (Float.int_truediv remaining total) (fun q =>
    Ok (Float.float_le_int (Float.float_mul q (Float.Finite 100 0)) 15)).

(** The filter loop of [async_check_integration_health] on a status of any
    kind: the value of [filter_warning_needed] when the loop ends. *)
Fixpoint filter_warning_needed {W} (status : pyval) (keys : list (string * string))
    : M W bool :=
  match keys with
  | [] => ret false
  | (status_key, total_key) :: rest =>
      has_status <- py_contains status_key status ;;
      has_total <- (if has_status then py_contains total_key status else ret false) ;;
      if has_total then
        remaining <- py_getitem status status_key ;;
        total <- py_getitem status total_key ;;
        t <- ordered_int total ;;
        if 0 <? t then
          r <- ordered_int remaining ;;
          low <- lift_result (at_most_15_percent r t) ;;
          if low then ret true
          else filter_warning_needed status rest
        else filter_warning_needed status rest
      else filter_warning_needed status rest
  end.

(** A filter of the status with a positive total of which at most 15
    percent are left. *)
Definition nearly_used_up (d : pydict) (keys : string * string) : Prop :=
  exists remaining total r t,
    dict_get d (fst keys) = Some remaining
    /\ dict_get d (snd keys) = Some total
    /\ Sensor.number remaining = Ok r
    /\ Sensor.number total = Ok t
    /\ 0 < t /\ 100 * r <= 15 * t.

(** The values of one filter, where the dictionary has both its keys, are
    ints below [2^52]. *)
Definition small_values (d : pydict) (status_key total_key : string) : Prop :=
  forall remaining total,
    dict_get d status_key = Some remaining -> dict_get d total_key = Some total ->
    exists r t,
      Sensor.number remaining = Ok r /\ Sensor.number total = Ok t
      /\ Z.abs r < 2 ^ 52 /\ Z.abs t < 2 ^ 52.

(** A status in which the values of every filter, where it has both its
    keys, are ints below [2^52]; the other values are of any kind. *)
Definition filter_values_small (d : pydict) : Prop :=
  forall status_key total_key,
    In (status_key, total_key) Sensor.filter_keys ->
    small_values d status_key total_key.

(** [er.async_entries_for_config_entry(entity_registry, entry_id)]. *)
Definition entries_for (registry : list RegistryEntry) (entry_id : string)
    : list RegistryEntry :=
  List.filter (fun e => String.eqb (reg_config_entry_id e) entry_id) registry.

(** The entities of [entities] whose device is not in the device
    registry. *)
Definition orphaned_in (devices : gset string) (entities : list RegistryEntry)
    : list string :=
  omap (fun e =>
          match reg_device_id e with
          | Some device_id =>
              if negb (String.eqb device_id "")
                 && negb (bool_decide (device_id ∈ devices))
              then Some (reg_entity_id e) else None
          | None => None
          end) entities.

(** The loop over [entities] that fills [unique_ids] and
    [duplicate_entities]. *)
Fixpoint duplicates_in (unique_ids : gmap string string)
    (entities : list RegistryEntry) : list string :=
  match entities with
  | [] => []
  | entity :: rest =>
      if negb (String.eqb (reg_unique_id entity) "") then
        match unique_ids !! reg_unique_id entity with
        | Some _ => reg_entity_id entity :: duplicates_in unique_ids rest
        | None =>
            duplicates_in
              (<[reg_unique_id entity := reg_entity_id entity]> unique_ids) rest
        end
      else duplicates_in unique_ids rest
  end.

(** [orphaned_entities] and [duplicate_entities] after the loop over the
    config entries. *)
Definition orphaned_entities (w : World) : list string :=
  concat (map (fun entry_id =>
                 orphaned_in (device_registry w) (entries_for (entity_registry w) entry_id))
            (domain_entries w)).

Definition duplicate_entities (w : World) : list string :=
  concat (map (fun entry_id =>
                 duplicates_in ∅ (entries_for (entity_registry w) entry_id))
            (domain_entries w)).

(** The unique ids of [entities] that are not empty, in their order. *)
Definition nonempty_unique_ids (entities : list RegistryEntry) : list string :=
  List.filter (fun u => negb (String.eqb u "")) (map reg_unique_id entities).

(** An entity whose device is not in the device registry. *)
Definition is_orphaned (devices : gset string) (e : RegistryEntry) : Prop :=
  exists device_id,
    reg_device_id e = Some device_id /\ device_id <> "" /\ device_id ∉ devices.

Definition is_empty_list {A} (l : list A) : bool :=
  match l with [] => true | _ => false end.

Definition async_check_integration_health (config_entry_data : ConfigEntryData)
    : M World unit :=
  (if negb (is_Some_b (client (coordinator config_entry_data))) then
     async_create_issue "connectivity_issue" "connectivity_issue" "error"
   else async_delete_issue "connectivity_issue") ;;;
  let status := or_empty_dict (latest_status config_entry_data) in
  filter_warning <- filter_warning_needed status Sensor.filter_keys ;;
  (if filter_warning then
     async_create_issue "filter_replacement_warning" "filter_replacement_warning"
       "warning"
   else async_delete_issue "filter_replacement_warning") ;;;
  orphaned <- reads orphaned_entities ;;
  duplicate <- reads duplicate_entities ;;
  if negb (is_empty_list orphaned) || negb (is_empty_list duplicate) then
    async_create_issue "entity_registry_cleanup" "entity_registry_cleanup" "warning"
  else async_delete_issue "entity_registry_cleanup".

(** The bedroom purifier with its pre-filter nearly used up, and a
    registry with an entity of a device that is gone. *)
Definition worn_filter : ConfigEntryData :=
  {| device_information := device_information ServiceCalls.bedroom;
     coordinator := coordinator ServiceCalls.bedroom;
     latest_status := status (coordinator ServiceCalls.bedroom);
     ced_client := "client1" |}.

(** The bedroom purifier with a filter whose total capacity is zero. *)
Definition zero_total : ConfigEntryData :=
  {| device_information := device_information ServiceCalls.bedroom;
     coordinator := coordinator ServiceCalls.bedroom;
     latest_status := PDict [("fltsts1", PInt 0); ("flttotal1", PInt 0)];
     ced_client := "client1" |}.

Definition worn_status : pydict :=
  [("fltsts0", PInt 10); ("flttotal0", PInt 360);
   ("fltsts1", PInt 2400); ("flttotal1", PInt 4800); ("flttotal2", PInt 0)].

Definition clean_world : World :=
  {| issues := {[ "connectivity_issue" :=
                    {| severity := "error"; translation_key := "connectivity_issue";
                       is_fixable := true |} ]};
     entity_registry :=
       [ {| reg_entity_id := "sensor.bedroom_pm25"; reg_config_entry_id := "entry1";
            reg_device_id := Some "dev1"; reg_unique_id := "AC4220/12-abc123-pm25" |};
         {| reg_entity_id := "select.bedroom_ddp"; reg_config_entry_id := "entry1";
            reg_device_id := Some "dev1"; reg_unique_id := "AC4220/12-abc123-ddp" |} ];
     device_registry := {[ "dev1" ]};
     domain_entries := ["entry1"] |}.

End Repairs.

(* ===================================================================== *)
(** * Theorems                                                            *)
(* ===================================================================== *)

(** ** Ordered dicts *)

Module PyFacts.

Lemma dict_get_set d k x : dict_get (dict_set d k x) k = Some x.
Proof.
  induction d as [|[k' x'] d IH]; cbn [dict_set dict_get].
  - rewrite String.eqb_refl. reflexivity.
  - destruct (String.eqb_spec k' k) as [->|Hne]; cbn [dict_get].
    + rewrite String.eqb_refl. reflexivity.
    + destruct (String.eqb_spec k' k); [contradiction | apply IH].
Qed.

Lemma dict_get_set_ne d k x k0 :
  k <> k0 -> dict_get (dict_set d k x) k0 = dict_get d k0.
Proof.
  intros Hne. induction d as [|[k' x'] d IH]; cbn [dict_set dict_get].
  - destruct (String.eqb_spec k k0); [contradiction | reflexivity].
  - destruct (String.eqb_spec k' k) as [->|Hne']; cbn [dict_get].
    + destruct (String.eqb_spec k k0); [contradiction | reflexivity].
    + destruct (String.eqb_spec k' k0); [reflexivity | apply IH].
Qed.

Lemma dict_get_set_other d k x k0 y :
  k0 <> k -> dict_get (dict_set (dict_set d k x) k0 y) k = Some x.
Proof. intros Hne. rewrite dict_get_set_ne by exact Hne. apply dict_get_set. Qed.

End PyFacts.

(** ** Python floats *)

Module FloatFacts.

Import Float.

Lemma round_half_even_spec n d :
  0 < d ->
  - d <= 2 * (round_half_even n d * d - n) <= d
  /\ (Z.abs (2 * (round_half_even n d * d - n)) = d ->
      Z.even (round_half_even n d) = true).
Proof.
  intros Hd. unfold round_half_even.
  pose proof (Z.div_mod n d ltac:(lia)) as Hn.
  pose proof (Z.mod_pos_bound n d Hd) as Hr.
  set (q := n / d) in *. set (r := n mod d) in *.
  destruct (Z.compare_spec (2 * r) d) as [He|Hl|Hg].
  - destruct (Z.even q) eqn:Hq.
    + split; [nia|]. intros _. exact Hq.
    + split; [nia|]. intros _. rewrite Z.even_add, Hq. reflexivity.
  - split; [nia|]. intros Habs. exfalso. nia.
  - split; [nia|]. intros Habs. exfalso. nia.
Qed.

Lemma round_half_even_unique n d p :
  0 < d ->
  - d <= 2 * (p * d - n) <= d ->
  (Z.abs (2 * (p * d - n)) = d -> Z.even p = true) ->
  p = round_half_even n d.
Proof.
  intros Hd Hp Heven.
  destruct (round_half_even_spec n d Hd) as [Hq Hqeven].
  set (q := round_half_even n d) in *.
  assert (p = q \/ p = q + 1 \/ q = p + 1) as [H|[H|H]] by nia; [exact H| |].
  - exfalso.
    assert (Z.abs (2 * (p * d - n)) = d) as Hp1 by nia.
    assert (Z.abs (2 * (q * d - n)) = d) as Hq1 by nia.
    apply Heven in Hp1. apply Hqeven in Hq1.
    rewrite H, Z.even_add, Hq1 in Hp1. discriminate.
  - exfalso.
    assert (Z.abs (2 * (p * d - n)) = d) as Hp1 by nia.
    assert (Z.abs (2 * (q * d - n)) = d) as Hq1 by nia.
    apply Heven in Hp1. apply Hqeven in Hq1.
    rewrite H, Z.even_add, Hp1 in Hq1. discriminate.
Qed.

Lemma round_half_even_scale n d c :
  0 < c -> 0 < d -> round_half_even (n * c) (d * c) = round_half_even n d.
Proof.
  intros Hc Hd. symmetry. apply round_half_even_unique; [nia| |].
  - destruct (round_half_even_spec n d Hd) as [H _]. nia.
  - destruct (round_half_even_spec n d Hd) as [_ H]. intros Habs. apply H. nia.
Qed.

Lemma round_half_even_exact w d : 0 < d -> round_half_even (w * d) d = w.
Proof.
  intros Hd. symmetry. apply round_half_even_unique; [exact Hd|lia|].
  intros Habs. exfalso. lia.
Qed.

Lemma double_round n d k :
  0 < d -> 0 <= k -> d < 2 ^ k ->
  round_half_even (round_half_even (n * 2 ^ k) d) (2 ^ k) = round_half_even n d.
Proof.
  intros Hd Hk Hlt.
  assert (exists h, 2 ^ k = 2 * h /\ 0 < h) as (h & Hh & Hhpos).
  { destruct (Z.eq_dec k 0) as [->|Hk0]; [cbn in Hlt; lia|].
    exists (2 ^ (k - 1)). split; [|apply Z.pow_pos_nonneg; lia].
    replace k with (1 + (k - 1)) at 1 by lia.
    rewrite Z.pow_add_r by lia. reflexivity. }
  set (P := 2 ^ k) in *.
  destruct (round_half_even_spec (n * P) d Hd) as [Hm _].
  set (m := round_half_even (n * P) d) in *.
  assert (0 < P) as HP by lia.
  destruct (round_half_even_spec m P HP) as [Hp Hpeven].
  set (p := round_half_even m P) in *.
  apply round_half_even_unique; [exact Hd| |].
  - nia.
  - intros Habs. apply Hpeven.
    assert (Z.abs (2 * (p * P - m)) = P \/ Z.abs (2 * (p * P - m)) = P - 1) as [H|H]
      by nia; [exact H|].
    exfalso. lia.
Qed.

Lemma ilog2_quot_multiple w d :
  w <> 0 -> 0 < d -> ilog2_quot (w * d) d = Z.log2 (Z.abs w).
Proof.
  intros Hw Hd. unfold ilog2_quot. rewrite Z.abs_mul, (Z.abs_eq d) by lia.
  destruct (Z.leb_spec d (Z.abs w * d)) as [_|H]; [|nia].
  rewrite Z.div_mul by lia. reflexivity.
Qed.

Lemma round_integer w d :
  0 < d -> w <> 0 -> Z.abs w < 2 ^ 53 ->
  round_to_float (w * d) d
  = Finite (w * 2 ^ (52 - Z.log2 (Z.abs w))) (- (52 - Z.log2 (Z.abs w))).
Proof.
  intros Hd Hw Hlt. unfold round_to_float.
  destruct (Z.eqb_spec (w * d) 0) as [H0|_]; [nia|].
  rewrite (ilog2_quot_multiple w d Hw Hd).
  assert (0 <= Z.log2 (Z.abs w) < 53) as Hlog.
  { split; [apply Z.log2_nonneg|]. apply Z.log2_lt_pow2; lia. }
  set (k := 52 - Z.log2 (Z.abs w)).
  assert (0 <= k) as Hk by lia.
  replace (Z.max (Z.log2 (Z.abs w) - 52) (-1074)) with (- k) by lia.
  assert ((if 0 <=? - k then round_half_even (w * d) (d * 2 ^ (- k))
           else round_half_even (w * d * 2 ^ (- - k)) d) = w * 2 ^ k) as ->.
  { destruct (Z.leb_spec 0 (- k)).
    - assert (k = 0) as -> by lia. cbn [Z.opp Z.pow]. rewrite !Z.mul_1_r.
      apply round_half_even_exact. exact Hd.
    - rewrite Z.opp_involutive.
      replace (w * d * 2 ^ k) with (w * 2 ^ k * d) by ring.
      apply round_half_even_exact. exact Hd. }
  assert (Z.log2 (Z.abs (w * 2 ^ k)) = k + Z.log2 (Z.abs w)) as ->.
  { rewrite Z.abs_mul, (Z.abs_eq (2 ^ k)) by (apply Z.pow_nonneg; lia).
    apply Z.log2_mul_pow2; lia. }
  destruct (Z.leb_spec 1024 (k + Z.log2 (Z.abs w) + - k)); [lia | reflexivity].
Qed.

Lemma ilog2_quot_scale n d c :
  0 < c -> 0 < d -> ilog2_quot (n * c) (d * c) = ilog2_quot n d.
Proof.
  intros Hc Hd. unfold ilog2_quot.
  rewrite Z.abs_mul, (Z.abs_eq c) by lia.
  destruct (Z.leb_spec d (Z.abs n)); destruct (Z.leb_spec (d * c) (Z.abs n * c));
    try nia.
  - rewrite Z.div_mul_cancel_r by lia. reflexivity.
  - replace (- (d * c)) with (- d * c) by ring.
    destruct (Z.eq_dec n 0) as [->|Hn].
    + cbn [Z.abs]. rewrite Z.mul_0_l, !Z.div_0_r. reflexivity.
    + rewrite Z.div_mul_cancel_r by lia. reflexivity.
Qed.

Lemma round_scale n d c :
  0 < c -> 0 < d -> round_to_float (n * c) (d * c) = round_to_float n d.
Proof.
  intros Hc Hd. unfold round_to_float.
  rewrite (ilog2_quot_scale n d c Hc Hd).
  destruct (Z.eqb_spec n 0) as [->|Hn].
  - reflexivity.
  - destruct (Z.eqb_spec (n * c) 0) as [H0|_]; [nia|].
    set (e := Z.max (ilog2_quot n d - 52) (-1074)).
    assert ((if 0 <=? e then round_half_even (n * c) (d * c * 2 ^ e)
             else round_half_even (n * c * 2 ^ (- e)) (d * c))
            = (if 0 <=? e then round_half_even n (d * 2 ^ e)
               else round_half_even (n * 2 ^ (- e)) d)) as ->.
    { destruct (Z.leb_spec 0 e).
      - replace (d * c * 2 ^ e) with (d * 2 ^ e * c) by ring.
        apply round_half_even_scale; [exact Hc|].
        apply Z.mul_pos_pos; [exact Hd | apply Z.pow_pos_nonneg; lia].
      - replace (n * c * 2 ^ (- e)) with (n * 2 ^ (- e) * c) by ring.
        apply round_half_even_scale; assumption. }
    replace (n * c <? 0) with (n <? 0); [reflexivity|].
    destruct (Z.ltb_spec n 0); destruct (Z.ltb_spec (n * c) 0); try reflexivity; nia.
Qed.

Lemma num_scaled w k : 0 <= k -> num (w * 2 ^ k) (- k) = w * 2 ^ k.
Proof. intros Hk. unfold num. rewrite Z.max_r by lia. cbn [Z.pow]. ring. Qed.

Lemma den_scaled k : 0 <= k -> den (- k) = 2 ^ k.
Proof. intros Hk. unfold den. rewrite Z.opp_involutive, Z.max_l by lia. reflexivity. Qed.

Lemma float_of_int_exact w :
  Z.abs w < 2 ^ 53 ->
  exists k, 0 <= k /\ float_of_int w = Ok (Finite (w * 2 ^ k) (- k)).
Proof.
  intros Hw. unfold float_of_int. destruct (Z.eq_dec w 0) as [->|Hne].
  - exists 0. split; [lia | reflexivity].
  - exists (52 - Z.log2 (Z.abs w)).
    assert (Z.log2 (Z.abs w) < 53) by (apply Z.log2_lt_pow2; lia).
    split; [lia|].
    rewrite <- (Z.mul_1_r w) at 1. rewrite (round_integer w 1) by lia.
    reflexivity.
Qed.

Lemma float_mul_exact a ka b kb :
  0 <= ka -> 0 <= kb -> Z.abs (a * b) < 2 ^ 53 ->
  exists k, 0 <= k
    /\ float_mul (Finite (a * 2 ^ ka) (- ka)) (Finite (b * 2 ^ kb) (- kb))
       = Finite (a * b * 2 ^ k) (- k).
Proof.
  intros Hka Hkb Hab. unfold float_mul.
  rewrite !num_scaled, !den_scaled by assumption.
  assert (0 < 2 ^ ka * 2 ^ kb) as Hc
    by (apply Z.mul_pos_pos; apply Z.pow_pos_nonneg; lia).
  replace (a * 2 ^ ka * (b * 2 ^ kb)) with (a * b * (2 ^ ka * 2 ^ kb)) by ring.
  destruct (Z.eq_dec (a * b) 0) as [H0|Hne].
  - exists 0. split; [lia|]. rewrite H0. reflexivity.
  - exists (52 - Z.log2 (Z.abs (a * b))).
    assert (Z.log2 (Z.abs (a * b)) < 53) by (apply Z.log2_lt_pow2; lia).
    split; [lia|]. apply round_integer; assumption.
Qed.

Lemma float_div_round a ka t kt :
  0 <= ka -> 0 <= kt -> t <> 0 ->
  float_div (Finite (a * 2 ^ ka) (- ka)) (Finite (t * 2 ^ kt) (- kt))
  = Ok (round_to_float (a * Z.sgn t) (Z.abs t)).
Proof.
  intros Hka Hkt Ht. unfold float_div.
  assert (0 < 2 ^ ka) as Hpa by (apply Z.pow_pos_nonneg; lia).
  assert (0 < 2 ^ kt) as Hpt by (apply Z.pow_pos_nonneg; lia).
  destruct (Z.eqb_spec (t * 2 ^ kt) 0) as [H0|_]; [nia|].
  rewrite !num_scaled, !den_scaled by assumption. f_equal.
  replace (Z.sgn (t * 2 ^ kt)) with (Z.sgn t)
    by (rewrite Z.sgn_mul, (Z.sgn_pos (2 ^ kt)) by lia; ring).
  rewrite Z.abs_mul, (Z.abs_eq (2 ^ kt)) by lia.
  replace (a * 2 ^ ka * 2 ^ kt * Z.sgn t)
    with (a * Z.sgn t * (2 ^ ka * 2 ^ kt)) by ring.
  replace (2 ^ ka * (Z.abs t * 2 ^ kt)) with (Z.abs t * (2 ^ ka * 2 ^ kt)) by ring.
  apply round_scale; lia.
Qed.

(** The float quotient of an integer below 2^52 by an integer below 2^53
    rounds to the integer that the exact quotient rounds to. *)
Lemma py_round_quotient n d :
  Z.abs n < 2 ^ 52 -> 0 < d < 2 ^ 53 ->
  exists q, round_to_float n d = q /\ py_round q = Ok (round_half_even n d).
Proof.
  intros Hn Hd. eexists. split; [reflexivity|].
  unfold round_to_float. destruct (Z.eqb_spec n 0) as [->|Hne].
  - cbn [py_round]. f_equal. transitivity 0; [vm_compute; reflexivity|].
    apply round_half_even_unique; [lia | lia | intros _; reflexivity].
  - set (j := ilog2_quot n d).
    assert (-53 <= j <= 51 /\ d < 2 ^ (52 - j)) as [Hj Hlt].
    { unfold j, ilog2_quot. destruct (Z.leb_spec d (Z.abs n)) as [Hle|Hgt].
      - assert (0 < Z.abs n / d) as Hpos by (apply Z.div_str_pos; lia).
        assert (Z.abs n / d <= Z.abs n) as Hq by (apply Z.div_le_upper_bound; nia).
        assert (Z.log2 (Z.abs n / d) < 52) as Hlog by (apply Z.log2_lt_pow2; lia).
        pose proof (Z.log2_nonneg (Z.abs n / d)) as Hnn.
        split; [lia|].
        pose proof (Z.log2_spec (Z.abs n / d) Hpos) as [Hlow _].
        pose proof (Z.mul_div_le (Z.abs n) d ltac:(lia)) as Hmul.
        set (l := Z.log2 (Z.abs n / d)) in *.
        assert (2 ^ 52 = 2 ^ l * 2 ^ (52 - l)) as Hsplit
          by (rewrite <- Z.pow_add_r by lia; f_equal; lia).
        assert (0 < 2 ^ l) by (apply Z.pow_pos_nonneg; lia).
        nia.
      - set (c := - (- d / Z.abs n)).
        assert (d <= c * Z.abs n) as Hc.
        { unfold c. pose proof (Z.mul_div_le (- d) (Z.abs n) ltac:(lia)). nia. }
        assert (c <= d) as Hcd.
        { unfold c.
          assert (- d <= - d / Z.abs n)
            by (apply Z.div_le_lower_bound; nia).
          lia. }
        assert (0 < c) as Hcpos by nia.
        pose proof (Z.log2_up_nonneg c) as Hnn.
        assert (Z.log2_up c <= 53) as Hup by (apply Z.log2_up_le_pow2; lia).
        split; [lia|].
        assert (c <= 2 ^ Z.log2_up c) as Hpow.
        { destruct (Z.eq_dec c 1) as [->|Hc1]; [cbn; lia|].
          apply Z.log2_up_spec. lia. }
        replace (52 - - Z.log2_up c) with (Z.log2_up c + 52) by lia.
        rewrite Z.pow_add_r by lia.
        assert (0 < 2 ^ Z.log2_up c) by (apply Z.pow_pos_nonneg; lia).
        nia. }
    replace (Z.max (j - 52) (-1074)) with (- (52 - j)) by lia.
    set (k := 52 - j) in *.
    assert (1 <= k <= 105) as Hk by (unfold k; lia).
    clearbody k.
    destruct (Z.leb_spec 0 (- k)) as [H|_]; [lia|].
    rewrite Z.opp_involutive.
    assert (0 < 2 ^ k) as Hpk by (apply Z.pow_pos_nonneg; lia).
    destruct (round_half_even_spec (n * 2 ^ k) d ltac:(lia)) as [Hm _].
    set (m := round_half_even (n * 2 ^ k) d) in *.
    assert (Z.log2 (Z.abs m) < 53 + k) as Hlog.
    { destruct (Z.eq_dec m 0) as [->|Hm0];
        [replace (Z.log2 (Z.abs 0)) with 0 by reflexivity; lia|].
      apply Z.log2_lt_pow2; [lia|].
      rewrite Z.pow_add_r by lia.
      assert (2 ^ 53 = 2 * 2 ^ 52) as -> by reflexivity. nia. }
    destruct (Z.leb_spec 1024 (Z.log2 (Z.abs m) + - k)) as [H|_]; [lia|].
    cbn [py_round]. f_equal. unfold num, den.
    rewrite Z.max_r, Z.opp_involutive, Z.max_l by lia.
    cbn [Z.pow]. rewrite Z.mul_1_r.
    apply double_round; lia.
Qed.

(** An int quotient whose value is an int below 2^53 is that int. *)
Lemma int_truediv_multiple w c :
  0 < c -> Z.abs w < 2 ^ 53 ->
  exists q, int_truediv (w * c) c = Ok q /\ py_round q = Ok w.
Proof.
  intros Hc Hw. unfold int_truediv.
  destruct (Z.eqb_spec c 0) as [H0|_]; [lia|].
  rewrite Z.sgn_pos, Z.abs_eq, Z.mul_1_r by lia.
  destruct (Z.eq_dec w 0) as [->|Hne].
  - exists (Finite 0 0). split; [reflexivity|]. reflexivity.
  - rewrite (round_integer w c Hc Hne Hw).
    assert (Z.log2 (Z.abs w) < 53) by (apply Z.log2_lt_pow2; lia).
    eexists. split; [reflexivity|]. cbn [py_round].
    rewrite num_scaled, den_scaled by lia. f_equal.
    apply round_half_even_exact. apply Z.pow_pos_nonneg; lia.
Qed.

(** An int quotient raises ZeroDivisionError exactly on a zero divisor. *)
Lemma int_truediv_zero a b :
  int_truediv a b = Raise ZeroDivisionError <-> b = 0.
Proof.
  unfold int_truediv. destruct (Z.eqb_spec b 0) as [->|Hne].
  - split; reflexivity.
  - split; [|contradiction].
    destruct (round_to_float (a * Z.sgn b) (Z.abs b)); discriminate.
Qed.

Lemma round_half_even_below n d k :
  0 < d -> 2 * n < (2 * k + 1) * d -> round_half_even n d <= k.
Proof.
  intros Hd Hn. destruct (round_half_even_spec n d Hd) as [H _]. nia.
Qed.

Lemma round_half_even_above n d k :
  0 < d -> (2 * k - 1) * d < 2 * n -> k <= round_half_even n d.
Proof.
  intros Hd Hn. destruct (round_half_even_spec n d Hd) as [H _]. nia.
Qed.

(** The binary exponent of a positive quotient. *)
Lemma ilog2_quot_spec n d :
  0 < n -> 0 < d ->
  let j := ilog2_quot n d in
  (0 <= j /\ 2 ^ j * d <= n < 2 ^ (j + 1) * d)
  \/ (j < 0 /\ d <= n * 2 ^ (- j) /\ n * 2 ^ (- j - 1) < d).
Proof.
  intros Hn Hd. cbv zeta. unfold ilog2_quot. rewrite (Z.abs_eq n) by lia.
  destruct (Z.leb_spec d n) as [Hle|Hgt].
  - left. assert (0 < n / d) as Hpos by (apply Z.div_str_pos; lia).
    pose proof (Z.log2_spec (n / d) Hpos) as [Hlow Hhigh].
    pose proof (Z.log2_nonneg (n / d)) as Hnn.
    pose proof (Z.mul_div_le n d Hd) as Hmul.
    pose proof (Z.mul_succ_div_gt n d Hd) as Hsucc.
    set (l := Z.log2 (n / d)) in *.
    replace (Z.succ l) with (l + 1) in Hhigh by lia.
    split; [exact Hnn|]. split; nia.
  - right. set (c := - (- d / n)).
    assert (d <= c * n) as Hc.
    { unfold c. pose proof (Z.mul_div_le (- d) n Hn). nia. }
    assert ((c - 1) * n < d) as Hc1.
    { unfold c. pose proof (Z.mul_succ_div_gt (- d) n Hn). nia. }
    assert (1 < c) as Hcpos by nia.
    pose proof (Z.log2_up_spec c Hcpos) as [Hlow Hhigh].
    assert (0 < Z.log2_up c) as Hl by (apply Z.log2_up_pos; lia).
    set (l := Z.log2_up c) in *.
    replace (Z.pred l) with (l - 1) in Hlow by lia.
    rewrite Z.opp_involutive.
    replace (- - l - 1) with (l - 1) by lia.
    split; [lia|]. split; [nia|].
    assert (0 < 2 ^ (l - 1)) by (apply Z.pow_pos_nonneg; lia).
    nia.
Qed.

(** The float nearest to a positive quotient, on the grid of the multiples
    of [2^-1074]: its significand is the integer nearest to the quotient
    in units of [2^(E - 1074)], the spacing of the floats around it. *)
Lemma round_to_float_shape n d :
  0 < n -> 0 < d ->
  exists E,
    0 <= E
    /\ n * 2 ^ 1074 < 2 ^ 53 * (d * 2 ^ E)
    /\ (E = 0 \/ 2 ^ 52 * (d * 2 ^ E) <= n * 2 ^ 1074)
    /\ round_to_float n d
       = (if 1024 <=? Z.log2 (Z.abs (round_half_even (n * 2 ^ 1074) (d * 2 ^ E)))
                      + (E - 1074)
          then Infinity false
          else Finite (round_half_even (n * 2 ^ 1074) (d * 2 ^ E)) (E - 1074)).
Proof.
  intros Hn Hd. unfold round_to_float.
  destruct (Z.eqb_spec n 0) as [H0|_]; [lia|].
  destruct (Z.ltb_spec n 0) as [Hneg|_]; [lia|].
  pose proof (ilog2_quot_spec n d Hn Hd) as Hj. cbv zeta in Hj.
  set (j := ilog2_quot n d) in *.
  set (e := Z.max (j - 52) (-1074)).
  exists (e + 1074).
  assert (0 <= e + 1074) as HE by (unfold e; lia).
  replace (e + 1074 - 1074) with e by lia.
  assert (0 < 2 ^ (e + 1074)) as HpE by (apply Z.pow_pos_nonneg; lia).
  assert ((if 0 <=? e then round_half_even n (d * 2 ^ e)
           else round_half_even (n * 2 ^ (- e)) d)
          = round_half_even (n * 2 ^ 1074) (d * 2 ^ (e + 1074))) as Hm.
  { destruct (Z.leb_spec 0 e) as [Hpos|Hneg].
    - rewrite <- (round_half_even_scale n (d * 2 ^ e) (2 ^ 1074));
        [|lia|apply Z.mul_pos_pos; [lia | apply Z.pow_pos_nonneg; lia]].
      f_equal. rewrite Z.pow_add_r by lia. ring.
    - rewrite <- (round_half_even_scale (n * 2 ^ (- e)) d (2 ^ (e + 1074)))
        by lia.
      f_equal. rewrite <- Z.mul_assoc, <- Z.pow_add_r by lia.
      do 2 f_equal. lia. }
  rewrite Hm. split; [exact HE|]. split; [|split; [|reflexivity]].
  - destruct Hj as [(Hj0 & Hlow & Hhigh)|(Hj0 & Hlow & Hhigh)].
    + assert (e = j - 52) as He by (unfold e; lia).
      rewrite He.
      replace (2 ^ (j - 52 + 1074)) with (2 ^ (j + 1) * 2 ^ 1021)
        by (rewrite <- Z.pow_add_r by lia; f_equal; lia).
      replace (2 ^ 1074) with (2 ^ 53 * 2 ^ 1021)
        by (rewrite <- Z.pow_add_r by lia; reflexivity).
      assert (0 < 2 ^ 53 * 2 ^ 1021) as Hc
        by (apply Z.mul_pos_pos; apply Z.pow_pos_nonneg; lia).
      apply (Z.mul_lt_mono_pos_r _ _ _ Hc) in Hhigh.
      eapply Z.lt_le_trans; [exact Hhigh|]. apply Z.eq_le_incl. ring.
    + destruct (Z.le_gt_cases (-1022) j) as [Hnormal|Hsub].
      * assert (e = j - 52) as He by (unfold e; lia).
        rewrite He.
        replace (j - 52 + 1074) with (j + 1022) by lia.
        replace (2 ^ 1074) with (2 ^ 53 * 2 ^ (- j - 1) * 2 ^ (j + 1022))
          by (rewrite <- !Z.pow_add_r by lia; f_equal; lia).
        assert (0 < 2 ^ 53 * 2 ^ (j + 1022)) as Hc
          by (apply Z.mul_pos_pos; apply Z.pow_pos_nonneg; lia).
        apply (Z.mul_lt_mono_pos_r _ _ _ Hc) in Hhigh.
        eapply Z.le_lt_trans; [|eapply Z.lt_le_trans; [exact Hhigh|]];
          apply Z.eq_le_incl; ring.
      * assert (e = -1074) as He by (unfold e; lia).
        rewrite He. replace (-1074 + 1074) with 0 by lia.
        assert (n * 2 ^ 1022 <= n * 2 ^ (- j - 1)) as Hmono.
        { apply Z.mul_le_mono_nonneg_l; [lia|].
          apply Z.pow_le_mono_r; lia. }
        replace (2 ^ 1074) with (2 ^ 1022 * 2 ^ 52)
          by (rewrite <- Z.pow_add_r by lia; reflexivity).
        assert (n * 2 ^ 1022 < d) as Hlt by lia.
        assert (0 < 2 ^ 52) as Hc by (apply Z.pow_pos_nonneg; lia).
        apply (Z.mul_lt_mono_pos_r _ _ _ Hc) in Hlt.
        rewrite Z.pow_0_r, Z.mul_1_r.
        eapply Z.le_lt_trans; [apply Z.eq_le_incl; apply Z.mul_assoc|].
        eapply Z.lt_le_trans; [exact Hlt|].
        rewrite (Z.mul_comm d). apply Z.mul_le_mono_nonneg_r; [lia|].
        apply Z.pow_le_mono_r; lia.
  - destruct (Z.eq_dec (e + 1074) 0) as [Hzero|Hnz]; [left; exact Hzero | right].
    assert (e = j - 52) as He by (unfold e in *; lia).
    rewrite He. replace (j - 52 + 1074) with (j + 1022) by lia.
    assert (0 <= j + 1022) as Hnormal by lia.
    destruct Hj as [(Hj0 & Hlow & Hhigh)|(Hj0 & Hlow & Hhigh)].
    + replace (2 ^ (j + 1022)) with (2 ^ j * 2 ^ 1022)
        by (rewrite <- Z.pow_add_r by lia; reflexivity).
      replace (2 ^ 1074) with (2 ^ 52 * 2 ^ 1022)
        by (rewrite <- Z.pow_add_r by lia; reflexivity).
      assert (0 <= 2 ^ 52 * 2 ^ 1022) as Hc
        by (apply Z.mul_nonneg_nonneg; apply Z.pow_nonneg; lia).
      apply (Z.mul_le_mono_nonneg_r _ _ _ Hc) in Hlow.
      eapply Z.le_trans; [|eapply Z.le_trans; [exact Hlow|]];
        apply Z.eq_le_incl; ring.
    + replace (2 ^ 1074) with (2 ^ 52 * 2 ^ (- j) * 2 ^ (j + 1022))
        by (rewrite <- !Z.pow_add_r by lia; f_equal; lia).
      assert (0 <= 2 ^ 52 * 2 ^ (j + 1022)) as Hc
        by (apply Z.mul_nonneg_nonneg; apply Z.pow_nonneg; lia).
      apply (Z.mul_le_mono_nonneg_r _ _ _ Hc) in Hlow.
      eapply Z.le_trans; [|eapply Z.le_trans; [exact Hlow|]];
        apply Z.eq_le_incl; ring.
Qed.

Lemma log2_scaled_below m E b :
  0 < m -> 0 <= E -> m * 2 ^ E < 2 ^ b -> Z.log2 m + E < b.
Proof.
  intros Hm HE Hlt.
  pose proof (Z.log2_spec m Hm) as [Hlow _].
  pose proof (Z.log2_nonneg m) as Hnn.
  assert (2 ^ (Z.log2 m + E) < 2 ^ b) as Hpow.
  { rewrite Z.pow_add_r by lia.
    eapply Z.le_lt_trans; [|exact Hlt].
    apply Z.mul_le_mono_nonneg_r; [apply Z.pow_nonneg; lia | exact Hlow]. }
  destruct (Z.le_gt_cases 0 b) as [Hb|Hb].
  - apply Z.pow_lt_mono_r_iff in Hpow; lia.
  - rewrite (Z.pow_neg_r 2 b Hb) in Hpow.
    assert (0 < 2 ^ (Z.log2 m + E)) by (apply Z.pow_pos_nonneg; lia). lia.
Qed.

(** A positive quotient below the middle between a float and the next one
    rounds to that float at most. *)
Lemma round_to_float_at_most n d mc Ec :
  0 < n -> 0 < d -> 2 ^ 52 <= mc < 2 ^ 53 -> 0 <= Ec <= 2045 ->
  2 * (n * 2 ^ 1074) < (2 * mc + 1) * (d * 2 ^ Ec) ->
  exists m E,
    round_to_float n d = Finite m (E - 1074)
    /\ 0 <= E /\ 0 <= m /\ m * 2 ^ E <= mc * 2 ^ Ec.
Proof.
  intros Hn Hd Hmc HEc Hbelow.
  destruct (round_to_float_shape n d Hn Hd) as (E & HE & Hhigh & Hlow & ->).
  set (N := n * 2 ^ 1074) in *.
  assert (0 < N) as HN by (apply Z.mul_pos_pos; [lia | apply Z.pow_pos_nonneg; lia]).
  assert (0 < 2 ^ E) as HpE by (apply Z.pow_pos_nonneg; lia).
  assert (0 < 2 ^ Ec) as HpEc by (apply Z.pow_pos_nonneg; lia).
  assert (0 < d * 2 ^ E) as HD by (apply Z.mul_pos_pos; lia).
  set (m := round_half_even N (d * 2 ^ E)).
  assert (0 <= m) as Hm0 by (apply round_half_even_above; lia).
  assert (m * 2 ^ E <= mc * 2 ^ Ec) as Hle.
  { destruct (Z.lt_trichotomy E Ec) as [Hlt|[Heq|Hgt]].
    - replace (2 ^ Ec) with (2 ^ (Ec - E) * 2 ^ E) in *
        by (rewrite <- Z.pow_add_r by lia; f_equal; lia).
      assert (0 < 2 ^ (Ec - E)) as Hpk by (apply Z.pow_pos_nonneg; lia).
      assert (2 * 2 ^ (Ec - E - 1) = 2 ^ (Ec - E)) as Hhalf.
      { replace (Ec - E) with (1 + (Ec - E - 1)) at 2 by lia.
        rewrite Z.pow_add_r by lia. reflexivity. }
      assert (0 < 2 ^ (Ec - E - 1)) as Hph by (apply Z.pow_pos_nonneg; lia).
      set (K := 2 ^ (Ec - E)) in *. set (H := 2 ^ (Ec - E - 1)) in *.
      set (P := 2 ^ E) in *. clearbody K H P N.
      assert (m <= mc * K) as Hm.
      { apply round_half_even_below; [exact HD|].
        assert (2 ^ 53 = 2 * 2 ^ 52) as Hp by reflexivity.
        set (T := 2 ^ 52) in *. clearbody T.
        nia. }
      rewrite Z.mul_assoc. apply Z.mul_le_mono_nonneg_r; [lia | exact Hm].
    - subst Ec. apply Z.mul_le_mono_nonneg_r; [lia|].
      apply round_half_even_below; [exact HD|].
      eapply Z.lt_le_trans; [exact Hbelow|]. apply Z.eq_le_incl. ring.
    - exfalso. destruct Hlow as [->|Hlow]; [lia|].
      replace (2 ^ E) with (2 ^ (E - Ec) * 2 ^ Ec) in *
        by (rewrite <- Z.pow_add_r by lia; f_equal; lia).
      assert (2 * 2 ^ (E - Ec - 1) = 2 ^ (E - Ec)) as Hhalf.
      { replace (E - Ec) with (1 + (E - Ec - 1)) at 2 by lia.
        rewrite Z.pow_add_r by lia. reflexivity. }
      assert (0 < 2 ^ (E - Ec - 1)) as Hph by (apply Z.pow_pos_nonneg; lia).
      assert (2 ^ 53 = 2 * 2 ^ 52) as Hp by reflexivity.
      set (K := 2 ^ (E - Ec)) in *. set (H := 2 ^ (E - Ec - 1)) in *.
      set (P := 2 ^ Ec) in *. set (T := 2 ^ 52) in *. clearbody K H P N T.
      nia. }
  exists m, E.
  assert (Z.log2 (Z.abs m) + (E - 1074) < 1024) as Hfinite.
  { rewrite Z.abs_eq by exact Hm0.
    destruct (Z.eq_dec m 0) as [Hz|Hnz].
    - rewrite Hz. replace (Z.log2 0) with 0 by reflexivity.
      destruct Hlow as [->|Hlow]; [lia|]. exfalso.
      assert (N < d * 2 ^ E); [|nia].
      destruct (round_half_even_spec N (d * 2 ^ E) HD) as [Hs _].
      fold m in Hs. rewrite Hz in Hs. lia.
    - assert (Z.log2 m + E < 53 + Ec); [|lia].
      apply log2_scaled_below; [lia | lia |].
      rewrite Z.pow_add_r by lia.
      eapply Z.le_lt_trans; [exact Hle|].
      apply Z.mul_lt_mono_pos_r; lia. }
  destruct (Z.leb_spec 1024 (Z.log2 (Z.abs m) + (E - 1074))); [lia|].
  repeat split; assumption.
Qed.

(** A positive quotient above the middle between a float and the one
    before it rounds to that float at least. *)
Lemma round_to_float_at_least n d mc Ec :
  0 < n -> 0 < d -> 2 ^ 52 < mc < 2 ^ 53 -> 0 <= Ec ->
  (2 * mc - 1) * (d * 2 ^ Ec) < 2 * (n * 2 ^ 1074) ->
  match round_to_float n d with
  | Finite m e => exists E, e = E - 1074 /\ 0 <= E /\ mc * 2 ^ Ec <= m * 2 ^ E
  | Infinity negative => negative = false
  | NaN => False
  end.
Proof.
  intros Hn Hd Hmc HEc Habove.
  destruct (round_to_float_shape n d Hn Hd) as (E & HE & Hhigh & Hlow & ->).
  destruct (1024 <=? _); [reflexivity|].
  exists E. split; [reflexivity|]. split; [exact HE|].
  set (N := n * 2 ^ 1074) in *.
  assert (0 < 2 ^ E) as HpE by (apply Z.pow_pos_nonneg; lia).
  assert (0 < 2 ^ Ec) as HpEc by (apply Z.pow_pos_nonneg; lia).
  assert (0 < d * 2 ^ E) as HD by (apply Z.mul_pos_pos; lia).
  set (m := round_half_even N (d * 2 ^ E)).
  assert (2 ^ 53 = 2 * 2 ^ 52) as Hp by reflexivity.
  destruct (Z.lt_trichotomy E Ec) as [Hlt|[Heq|Hgt]].
  - exfalso.
    replace (2 ^ Ec) with (2 ^ (Ec - E) * 2 ^ E) in *
      by (rewrite <- Z.pow_add_r by lia; f_equal; lia).
    assert (2 * 2 ^ (Ec - E - 1) = 2 ^ (Ec - E)) as Hhalf.
    { replace (Ec - E) with (1 + (Ec - E - 1)) at 2 by lia.
      rewrite Z.pow_add_r by lia. reflexivity. }
    assert (0 < 2 ^ (Ec - E - 1)) as Hph by (apply Z.pow_pos_nonneg; lia).
    set (K := 2 ^ (Ec - E)) in *. set (H := 2 ^ (Ec - E - 1)) in *.
    set (P := 2 ^ E) in *. set (T := 2 ^ 52) in *. clearbody K H P N T.
    nia.
  - subst Ec. apply Z.mul_le_mono_nonneg_r; [lia|].
    apply round_half_even_above; [exact HD|].
    eapply Z.le_lt_trans; [|exact Habove]. apply Z.eq_le_incl. ring.
  - destruct Hlow as [->|Hlow]; [lia|].
    assert (2 ^ 52 <= m) as Hm.
    { apply round_half_even_above; [exact HD|].
      set (T := 2 ^ 52) in *. set (D := d * 2 ^ E) in *. clearbody T D N. nia. }
    replace (2 ^ E) with (2 ^ (E - Ec) * 2 ^ Ec)
      by (rewrite <- Z.pow_add_r by lia; f_equal; lia).
    assert (2 * 2 ^ (E - Ec - 1) = 2 ^ (E - Ec)) as Hhalf.
    { replace (E - Ec) with (1 + (E - Ec - 1)) at 2 by lia.
      rewrite Z.pow_add_r by lia. reflexivity. }
    assert (0 < 2 ^ (E - Ec - 1)) as Hph by (apply Z.pow_pos_nonneg; lia).
    rewrite Z.mul_assoc. apply Z.mul_le_mono_nonneg_r; [lia|].
    set (K := 2 ^ (E - Ec)) in *. set (H := 2 ^ (E - Ec - 1)) in *.
    set (T := 2 ^ 52) in *. clearbody K H T. clear Hhigh Hlow Habove. nia.
Qed.

(** The value of a float on the grid of the multiples of [2^-1074]. *)
Lemma num_on_grid m E :
  0 <= E -> num m (E - 1074) * 2 ^ 1074 = m * 2 ^ E * den (E - 1074).
Proof.
  intros HE. unfold num, den.
  destruct (Z.le_gt_cases 1074 E) as [Hpos|Hneg].
  - rewrite Z.max_l, Z.max_r by lia. rewrite Z.pow_0_r, Z.mul_1_r.
    rewrite <- Z.mul_assoc, <- Z.pow_add_r by lia. do 2 f_equal. lia.
  - rewrite Z.max_r, Z.max_l by lia. rewrite Z.pow_0_r, Z.mul_1_r.
    rewrite <- Z.mul_assoc, <- Z.pow_add_r by lia. do 2 f_equal. lia.
Qed.

Lemma den_pos e : 0 < den e.
Proof. unfold den. apply Z.pow_pos_nonneg; lia. Qed.

Lemma float_le_int_on_grid m E k :
  0 <= E ->
  float_le_int (Finite m (E - 1074)) k = (m * 2 ^ E <=? k * 2 ^ 1074).
Proof.
  intros HE. cbn [float_le_int].
  pose proof (num_on_grid m E HE) as Hgrid.
  pose proof (den_pos (E - 1074)) as Hden.
  assert (0 < 2 ^ 1074) as HB by (apply Z.pow_pos_nonneg; lia).
  set (B := 2 ^ 1074) in *. set (D := den (E - 1074)) in *.
  set (V := m * 2 ^ E) in *. set (U := num m (E - 1074)) in *.
  clearbody B D V U.
  destruct (Z.leb_spec U (k * D)); destruct (Z.leb_spec V (k * B));
    try reflexivity; exfalso; nia.
Qed.

(** A quotient that is not positive rounds to a float that is not. *)
Lemma round_to_float_nonpositive n d k :
  n <= 0 -> 0 < d -> 0 <= k ->
  float_le_int (round_to_float n d) k = true
  /\ match round_to_float n d with
     | Finite m e => m <= 0
     | Infinity negative => negative = true
     | NaN => False
     end.
Proof.
  intros Hn Hd Hk. unfold round_to_float.
  destruct (Z.eqb_spec n 0) as [->|Hne].
  - split; [|lia]. cbn [float_le_int]. unfold num, den. cbn.
    destruct k; [reflexivity | reflexivity | lia].
  - destruct (Z.ltb_spec n 0) as [_|H]; [|lia].
    set (e := Z.max (ilog2_quot n d - 52) (-1074)).
    assert ((if 0 <=? e then round_half_even n (d * 2 ^ e)
             else round_half_even (n * 2 ^ (- e)) d) <= 0) as Hm.
    { destruct (Z.leb_spec 0 e).
      - assert (0 < 2 ^ e) by (apply Z.pow_pos_nonneg; lia).
        apply round_half_even_below; [nia|]. nia.
      - assert (0 < 2 ^ (- e)) by (apply Z.pow_pos_nonneg; lia).
        apply round_half_even_below; [lia|]. nia. }
    destruct (1024 <=? _); [split; reflexivity|].
    split; [|exact Hm]. cbn [float_le_int].
    apply Z.leb_le. pose proof (den_pos e) as Hden. unfold num.
    assert (0 < 2 ^ Z.max e 0) by (apply Z.pow_pos_nonneg; lia).
    nia.
Qed.

End FloatFacts.

(** ** select.py *)

Module SelectFacts.

Import Select.

(** The body of the [try], run with a key already found. *)
Lemma select_body_run self key net w :
  (set_control_value (kind self) key net ;;;
   device_status_set (kind self) key ;;;
   _handle_coordinator_update) w
  = match net with
    | Ok _ =>
        (Ok tt,
         {| status := <[kind self := key]> (status w);
            calls := (calls w ++ [SetControlValue (kind self) key
                                    (status w !! kind self)])
                     ++ [CoordinatorUpdate] |})
    | Raise e =>
        (Raise e,
         {| status := status w;
            calls := calls w ++ [SetControlValue (kind self) key
                                   (status w !! kind self)] |})
    end.
Proof. unfold bind, set_control_value. destruct net as [[]|e]; reflexivity. Qed.

Lemma async_select_option_run self opt key net w :
  opt <> "" ->
  next_option_key (_options self) opt = Ok key ->
  snd (async_select_option self (Some opt) net w)
  = match net with
    | Ok _ =>
        {| status := <[kind self := key]> (status w);
           calls := (calls w ++ [SetControlValue (kind self) key
                                   (status w !! kind self)])
                    ++ [CoordinatorUpdate] |}
    | Raise e =>
        {| status := status w;
           calls := calls w ++ [SetControlValue (kind self) key
                                  (status w !! kind self)] |}
    end.
Proof.
  intros Hne Hkey. unfold async_select_option.
  destruct opt as [|a opt']; [congruence|]. cbn [String.length Nat.eqb].
  unfold try_except. unfold bind at 1. unfold lift_result at 1. rewrite Hkey.
  rewrite select_body_run. destruct net as [[]|e]; [reflexivity|].
  cbn. destruct (is_KeyError e || is_ValueError e); reflexivity.
Qed.

(** Whatever the option and the answer of the network, the cache after
    [async_select_option] is the cache before, or the cache before with the
    entity's key set. *)
Lemma async_select_option_status self option net w :
  status (snd (async_select_option self option net w)) = status w
  \/ exists key,
       status (snd (async_select_option self option net w))
       = <[kind self := key]> (status w).
Proof.
  destruct option as [opt|]; [|left; reflexivity].
  destruct (String.eqb_spec opt "") as [->|Hne]; [left; reflexivity|].
  destruct (next_option_key (_options self) opt) as [key|e] eqn:Hkey.
  - rewrite (async_select_option_run self opt key net w Hne Hkey).
    destruct net; [right; exists key; reflexivity | left; reflexivity].
  - left. unfold async_select_option.
    destruct opt as [|a opt']; [congruence|]. cbn [String.length Nat.eqb].
    unfold try_except, bind, lift_result. rewrite Hkey.
    destruct (is_KeyError e || is_ValueError e); reflexivity.
Qed.

(** C1, as the code has it: with a valid option, [async_select_option]
    hands the control write to the client first, while the cache entry of
    the key still holds what it held before; when the write returns, the
    cache entry is set to the option's device value and the entity state is
    written; when the write raises, the cache is left as it was. *)
Theorem select_option_writes_then_caches self opt key net w :
  opt <> "" ->
  next_option_key (_options self) opt = Ok key ->
  let w' := snd (async_select_option self (Some opt) net w) in
  calls w' = (calls w
              ++ SetControlValue (kind self) key (status w !! kind self)
              :: match net with Ok _ => [CoordinatorUpdate] | Raise _ => [] end)%list
  /\ status w' = match net with
                 | Ok _ => <[kind self := key]> (status w)
                 | Raise _ => status w
                 end.
Proof.
  intros Hne Hkey. cbv zeta.
  rewrite (async_select_option_run self opt key net w Hne Hkey).
  destruct net; cbn [status calls]; split; try reflexivity.
  rewrite <- app_assoc. reflexivity.
Qed.

Lemma select_option_writes_then_caches_witness :
  let w' := snd (async_select_option preferred_index (Some "pm25") (Ok tt) world0) in
  calls w' = [SetControlValue "ddp" (PStr "1") (Some (PStr "0")); CoordinatorUpdate]
  /\ status w' = <["ddp" := PStr "1"]> (status world0).
Proof.
  apply (select_option_writes_then_caches preferred_index "pm25" (PStr "1")
           (Ok tt) world0).
  - discriminate.
  - reflexivity.
Defined.

(** C1, as stated, fails: the write for ["pm25"] (device value ["1"]) is
    issued while the cache still holds ["0"], and when that write raises the
    cache holds ["0"] afterwards, not ["1"]. *)
Lemma select_option_not_optimistic :
  let w' := snd (async_select_option preferred_index (Some "pm25")
                   (Raise (OtherError "write failed")) world0) in
  calls w' = [SetControlValue "ddp" (PStr "1") (Some (PStr "0"))]
  /\ status w' !! "ddp" = Some (PStr "0")
  /\ status w' !! "ddp" <> Some (PStr "1").
Proof.
  cbv zeta.
  rewrite (async_select_option_run preferred_index "pm25" (PStr "1"));
    [|discriminate|reflexivity].
  cbn [status calls world0 preferred_index kind app].
  rewrite lookup_singleton_eq. repeat split. discriminate.
Qed.

End SelectFacts.

(** ** The status cache *)

Module StatusCacheFacts.

Import Select StatusCache.

Lemma merge_lookup (cache delta : gmap string pyval) k :
  merge cache delta !! k
  = match delta !! k with Some v => Some v | None => cache !! k end.
Proof.
  unfold merge. rewrite lookup_union.
  destruct (delta !! k), (cache !! k); reflexivity.
Qed.

(** C3: merging the same delta twice gives the cache that merging it once
    gives; merge is union with right-bias: on a key of the delta the
    delta's value is read, on any other key the cache's entry is read. *)
Theorem merge_idempotent (c delta : gmap string pyval) :
  merge (merge c delta) delta = merge c delta
  /\ forall k, merge c delta !! k
               = match delta !! k with Some v => Some v | None => c !! k end.
Proof.
  split; [|intros k; apply merge_lookup].
  apply map_eq. intros k. rewrite !merge_lookup.
  destruct (delta !! k); reflexivity.
Qed.

Lemma merge_dom (c delta : gmap string pyval) : dom c ⊆ dom (merge c delta).
Proof. unfold merge. rewrite dom_union. set_solver. Qed.

Lemma step_dom c o : dom (cache c) ⊆ dom (cache (step c o)).
Proof.
  unfold step. destruct (state c) eqn:Hs; try reflexivity;
    destruct o; cbn [cache with_state]; try reflexivity;
    try (destruct reached; reflexivity);
    try (destruct fetched; cbn [cache with_state];
         [apply merge_dom | reflexivity]);
    try apply merge_dom;
    try (rewrite dom_insert; set_solver).
  all: destruct (SelectFacts.async_select_option_status entity option net
                   {| Select.status := cache c; Select.calls := [] |})
         as [Heq | [key Heq]];
       rewrite Heq; cbn [Select.status];
       [reflexivity | apply dom_insert_subseteq].
Qed.

(** C4: the key set of the cache never shrinks; after any sequence of
    operations on a Coordinator, every key of the cache is still a key of
    the cache. *)
Theorem cache_keys_never_shrink c ops :
  dom (cache c) ⊆ dom (cache (run c ops)).
Proof.
  unfold run. revert c. induction ops as [|o ops IH]; intros c; [reflexivity|].
  cbn [fold_left]. etransitivity; [apply step_dom | apply IH].
Qed.

End StatusCacheFacts.

(** ** sensor.py and the filter check of repairs.py *)

Module SensorFacts.

Import Sensor.

(** [100.0 * v] is exact for an int whose product with 100 is below
    2^53. *)
Lemma times_100_exact v :
  Z.abs (100 * v) < 2 ^ 53 ->
  exists k, 0 <= k
    /\ times_100 v = Ok (Float.Finite (100 * v * 2 ^ k) (- k)).
Proof.
  intros Hv. unfold times_100.
  destruct (FloatFacts.float_of_int_exact v ltac:(lia)) as (kv & Hkv & ->).
  cbn [rbind].
  change (Float.Finite 100 0) with (Float.Finite (100 * 2 ^ 0) (- 0)).
  destruct (FloatFacts.float_mul_exact 100 0 v kv ltac:(lia) Hkv Hv)
    as (k & Hk & ->).
  exists k. split; [exact Hk | reflexivity].
Qed.

(** The quotient of an exact float below 2^52 by a non-zero int below 2^53
    rounds to the integer nearest to the exact quotient. *)
Lemma rounded_quotient_exact a k t :
  0 <= k -> Z.abs a < 2 ^ 52 -> t <> 0 -> Z.abs t < 2 ^ 53 ->
  rounded_quotient (Float.Finite (a * 2 ^ k) (- k)) t
  = Ok (Float.round_half_even (a * Z.sgn t) (Z.abs t)).
Proof.
  intros Hk Ha Ht Hlt. unfold rounded_quotient.
  destruct (FloatFacts.float_of_int_exact t Hlt) as (kt & Hkt & ->).
  cbn [rbind]. rewrite (FloatFacts.float_div_round a k t kt Hk Hkt Ht).
  cbn [rbind].
  destruct (FloatFacts.py_round_quotient (a * Z.sgn t) (Z.abs t))
    as (q & <- & Hq); [|lia|exact Hq].
  destruct (Z.lt_trichotomy t 0) as [Hneg|[H0|Hpos]]; [|contradiction|].
  - rewrite (Z.sgn_neg t) by lia. lia.
  - rewrite (Z.sgn_pos t) by lia. lia.
Qed.

(** A zero divisor: ZeroDivisionError, whatever the dividend. *)
Lemma rounded_quotient_zero scaled :
  rounded_quotient scaled 0 = Raise ZeroDivisionError.
Proof. reflexivity. Qed.

Lemma native_value_with_total self st v t :
  st !! _value_key self = Some (PInt v) ->
  st !! _total_key self = Some (PInt t) ->
  native_value self st
  = (scaled <~ times_100 v ;;
     percentage <~ rounded_quotient scaled t ;;
     Ok (PInt percentage)).
Proof.
  intros Hv Ht.
  unfold native_value, _has_total, contains, _percentage, _value, _total, getitem.
  rewrite Hv, Ht. reflexivity.
Qed.

(** [round(100.0 * v / t)] where the floats are exact enough: the integer
    nearest to [100 * v / t], a tie going to the even one. *)
Lemma nearest_percentage v t :
  Z.abs (100 * v) < 2 ^ 52 ->
  Z.abs t < 2 ^ 53 ->
  exists scaled,
    times_100 v = Ok scaled
    /\ (t = 0 -> rounded_quotient scaled t = Raise ZeroDivisionError)
    /\ (t <> 0 ->
        exists percentage,
          rounded_quotient scaled t = Ok percentage
          /\ Z.abs (2 * (percentage * t - 100 * v)) <= Z.abs t
          /\ (Z.abs (2 * (percentage * t - 100 * v)) = Z.abs t ->
              Z.even percentage = true)).
Proof.
  intros Hsmall Htotal.
  destruct (times_100_exact v ltac:(lia)) as (k & Hk & ->).
  eexists. split; [reflexivity|]. split.
  - intros ->. reflexivity.
  - intros Hne. rewrite (rounded_quotient_exact (100 * v) k t Hk Hsmall Hne Htotal).
    eexists. split; [reflexivity|].
    destruct (FloatFacts.round_half_even_spec (100 * v * Z.sgn t) (Z.abs t)
                ltac:(lia)) as [Hnear Heven].
    set (p := Float.round_half_even (100 * v * Z.sgn t) (Z.abs t)) in *.
    assert (Z.abs (2 * (p * Z.abs t - 100 * v * Z.sgn t))
            = Z.abs (2 * (p * t - 100 * v))) as Habs.
    { destruct (Z.lt_trichotomy t 0) as [Hneg|[H0|Hpos]]; [|contradiction|].
      - rewrite (Z.sgn_neg t), (Z.abs_neq t) by lia. lia.
      - rewrite (Z.sgn_pos t), (Z.abs_eq t) by lia. f_equal. ring. }
    split; [lia|]. intros Htie. apply Heven. lia.
Qed.

(** The quotient of the health check raises ZeroDivisionError exactly on a
    total of zero. *)
Lemma at_most_15_percent_zero remaining total :
  Repairs.at_most_15_percent remaining total = Raise ZeroDivisionError
  <-> total = 0.
Proof.
  unfold Repairs.at_most_15_percent. split.
  - intros H. apply (FloatFacts.int_truediv_zero remaining total).
    destruct (Float.int_truediv remaining total) as [q|e]; cbn [rbind] in H;
      [discriminate | congruence].
  - intros ->. reflexivity.
Qed.

(** The filter loop of the health check never divides by zero, whatever the
    status holds. *)
Lemma filter_loop_never_divides_by_zero {W} status keys (w : W) :
  fst (Repairs.filter_warning_needed status keys w) <> Raise ZeroDivisionError.
Proof.
  induction keys as [|[status_key total_key] rest IH];
    cbn [Repairs.filter_warning_needed].
  - discriminate.
  - unfold bind, Integration.py_contains, Integration.py_getitem,
      Integration.getitem, Integration.ordered_int, ret, raise, lift_result.
    destruct status as [|b|z|s|l|l|l|d]; try discriminate;
      repeat match goal with
             | |- context [if ?c then _ else _] => destruct c eqn:?
             | |- context [match dict_get ?d ?k with _ => _ end] =>
                 destruct (dict_get d k) as [[]|] eqn:?
             | |- context [match Repairs.at_most_15_percent ?r ?t with _ => _ end] =>
                 destruct (Repairs.at_most_15_percent r t) as [[]|[]] eqn:?
             end;
      cbn [fst]; try discriminate; try exact IH;
      match goal with
      | H : Repairs.at_most_15_percent _ _ = Raise ZeroDivisionError |- _ =>
          apply at_most_15_percent_zero in H; lia
      end.
Qed.

(** C8: for a filter sensor whose value and total are ints in the status,
    the value with its hundredfold below 2^52 and the total below 2^53
    (where the floats of the code are exact enough).  With a total of zero
    [native_value] raises ZeroDivisionError.  With another total it
    returns the integer nearest to [100 * value / total], a tie going to
    the even one.  The health check never raises ZeroDivisionError,
    whatever the status holds, although its quotient raises it on a total
    of zero too: it is made only after the check [total > 0]. *)
Theorem filter_percentage_defined_iff_total_nonzero self st v t :
  st !! _value_key self = Some (PInt v) ->
  st !! _total_key self = Some (PInt t) ->
  Z.abs (100 * v) < 2 ^ 52 ->
  Z.abs t < 2 ^ 53 ->
  (t = 0 -> native_value self st = Raise ZeroDivisionError)
  /\ (t <> 0 ->
      exists percentage,
        native_value self st = Ok (PInt percentage)
        /\ Z.abs (2 * (percentage * t - 100 * v)) <= Z.abs t
        /\ (Z.abs (2 * (percentage * t - 100 * v)) = Z.abs t ->
            Z.even percentage = true))
  /\ (forall config_entry_data w,
        fst (Repairs.async_check_integration_health config_entry_data w)
        <> Raise ZeroDivisionError)
  /\ (forall remaining total,
        Repairs.at_most_15_percent remaining total = Raise ZeroDivisionError
        <-> total = 0).
Proof.
  intros Hv Ht Hsmall Htotal.
  rewrite (native_value_with_total self st v t Hv Ht).
  destruct (nearest_percentage v t Hsmall Htotal) as (scaled & -> & Hzero & Hvalue).
  cbn [rbind].
  split; [|split; [|split]].
  - intros H0. rewrite (Hzero H0). reflexivity.
  - intros Hne. destruct (Hvalue Hne) as (percentage & -> & Hnear & Heven).
    exists percentage. cbn [rbind]. repeat split; assumption.
  - intros config_entry_data w. unfold Repairs.async_check_integration_health.
    unfold bind at 1.
    destruct (negb (Integration.is_Some_b
                      (Integration.client
                         (Integration.coordinator config_entry_data))));
      cbn [Repairs.async_create_issue Repairs.async_delete_issue modify].
    all: unfold bind at 1;
      match goal with
      | |- context [Repairs.filter_warning_needed ?status ?keys ?w1] =>
          pose proof (filter_loop_never_divides_by_zero status keys w1) as Hloop;
          destruct (Repairs.filter_warning_needed status keys w1)
            as [[warning|e] w2]
      end;
      [ destruct warning; unfold bind, reads, modify,
          Repairs.async_create_issue, Repairs.async_delete_issue;
        cbn;
        match goal with
        | |- context [if ?c then _ else _] => destruct c
        end; discriminate
      | cbn [fst] in *; congruence ].
  - apply at_most_15_percent_zero.
Qed.

Lemma filter_percentage_defined_iff_total_nonzero_witness :
  native_value hepa status_zero_total = Raise ZeroDivisionError
  /\ native_value hepa status_half_used = Ok (PInt 50)
  /\ fst (Repairs.async_check_integration_health Repairs.zero_total
            Repairs.clean_world) = Ok tt.
Proof.
  split; [|split].
  - apply (filter_percentage_defined_iff_total_nonzero hepa status_zero_total 0 0);
      reflexivity.
  - destruct (filter_percentage_defined_iff_total_nonzero hepa status_half_used
                2400 4800 eq_refl eq_refl eq_refl eq_refl)
      as (_ & Hvalue & _).
    destruct (Hvalue ltac:(discriminate)) as (percentage & -> & Hnear & _).
    do 2 f_equal. lia.
  - vm_compute. reflexivity.
Defined.

(** Without the total key the state of a filter sensor is the text of its
    value, the hours left: the quotient of the two timedeltas is that
    value again.  A value whose timedelta would be beyond 999999999 days
    raises OverflowError. *)
Theorem time_remaining_is_value_text self st v :
  st !! _total_key self = None ->
  st !! _value_key self = Some (PInt v) ->
  (-23999999976 <= v <= 23999999999 ->
   native_value self st = Ok (PStr (str_of_Z v)))
  /\ (v < -23999999976 \/ 23999999999 < v ->
      native_value self st = Raise OverflowError).
Proof.
  intros Htotal Hvalue.
  unfold native_value, _has_total, contains. rewrite Htotal.
  unfold _time_remaining, _value, getitem. rewrite Hvalue. cbn [rbind number].
  unfold timedelta_hours. split.
  - intros Hrange.
    assert (-999999999 <= v / 24) by (apply Z.div_le_lower_bound; lia).
    assert (v / 24 <= 999999999)
      by (apply Z.lt_succ_r, Z.div_lt_upper_bound; lia).
    destruct (Z.leb_spec (-999999999) (v / 24)); [|lia].
    destruct (Z.leb_spec (v / 24) 999999999); [|lia].
    cbn [andb rbind].
    destruct (FloatFacts.int_truediv_multiple v 3600000000) as (q & -> & Hround);
      [lia | |].
    { apply Z.abs_lt. split; [|]; lia. }
    cbn [rbind]. rewrite Hround. reflexivity.
  - intros Hbeyond.
    destruct (Z.leb_spec (-999999999) (v / 24)) as [Hlow|Hlow];
      destruct (Z.leb_spec (v / 24) 999999999) as [Hhigh|Hhigh];
      cbn [andb]; try reflexivity.
    exfalso. destruct Hbeyond as [Hb|Hb].
    + assert (v / 24 < -999999999); [|lia].
      apply Z.div_lt_upper_bound; lia.
    + assert (1000000000 <= v / 24); [|lia].
      apply Z.div_le_lower_bound; lia.
Qed.

Lemma time_remaining_is_value_text_witness :
  native_value {| _value_key := "wicksts"; _total_key := "wicktotal" |}
    {[ "wicksts" := PInt 2400 ]}
  = Ok (PStr "2400").
Proof.
  destruct (time_remaining_is_value_text
              {| _value_key := "wicksts"; _total_key := "wicktotal" |}
              {[ "wicksts" := PInt 2400 ]} 2400) as [Hvalue _].
  - vm_compute. reflexivity.
  - vm_compute. reflexivity.
  - rewrite Hvalue by lia. reflexivity.
Defined.

End SensorFacts.

(** ** services.py *)

Module ServicesFacts.

Import Integration.

Lemma set_services_id h : set_services (fun m => m) h = h.
Proof. destruct h; reflexivity. Qed.

Lemma set_services_compose f g h :
  set_services g (set_services f h) = set_services (fun m => g (f m)) h.
Proof. reflexivity. Qed.

Lemma set_services_ext f g h :
  f (services h) = g (services h) -> set_services f h = set_services g h.
Proof. intros E. unfold set_services. rewrite E. reflexivity. Qed.

Lemma union_insert_present (m r : gmap string Service) n s :
  is_Some (m !! n) -> m ∪ <[n := s]> r = m ∪ r.
Proof.
  intros [x Hx]. apply map_eq. intros k. rewrite !lookup_union.
  destruct (decide (n = k)) as [<-|Hne].
  - rewrite Hx. rewrite lookup_insert_eq. destruct (r !! n); reflexivity.
  - rewrite lookup_insert_ne by done. reflexivity.
Qed.

(** [async_setup_services] adds, to the services there are, those of its
    table whose name is free; it returns normally. *)
Lemma setup_services_loop call table h :
  for_each table (fun entry =>
    let '(service_name, (handler, schema)) := entry in
    registered <- has_service service_name ;;
    if negb registered then
      try_except
        (async_register service_name
           {| handler := handler; closure_of := call; schema := schema |})
        any_exception
        (fun _ => ret tt)
    else ret tt) h
  = (Ok tt, set_services (fun m => m ∪ offered_services call table) h).
Proof.
  revert h. induction table as [|[name [hd sc]] table IH]; intros h.
  - cbn. unfold ret, offered_services. cbn. f_equal.
    rewrite <- (set_services_id h) at 1. apply set_services_ext.
    rewrite (right_id_L ∅ (∪)). reflexivity.
  - cbn [for_each]. unfold bind at 1. unfold bind at 1.
    unfold has_service at 1, reads.
    destruct (services h !! name) as [s|] eqn:Hs; cbn [negb].
    + unfold ret at 1. rewrite IH. f_equal. apply set_services_ext.
      unfold offered_services. cbn [map list_to_map foldr fst snd uncurry].
      symmetry. apply union_insert_present. eauto.
    + unfold try_except, async_register, modify. rewrite IH. f_equal.
      rewrite set_services_compose. apply set_services_ext.
      unfold offered_services. cbn [map list_to_map foldr fst snd uncurry].
      rewrite <- insert_union_r by exact Hs.
      rewrite insert_union_l. reflexivity.
Qed.

Lemma async_setup_services_run call h :
  async_setup_services call h
  = (Ok tt,
     set_services (fun m => m ∪ offered_services call setup_services_table) h).
Proof. unfold async_setup_services. apply setup_services_loop. Qed.

Lemma offered_services_dom call table :
  dom (offered_services call table) = list_to_set (map fst table).
Proof.
  unfold offered_services. rewrite dom_list_to_map_L. f_equal.
  induction table as [|e table IH]; [reflexivity|].
  cbn [map fmap list_fmap fst] in *. f_equal. exact IH.
Qed.

Lemma union_absorb (a r : gmap string Service) : dom r ⊆ dom a -> a ∪ r = a.
Proof.
  intros Hsub. apply map_eq. intros k. rewrite lookup_union.
  destruct (a !! k) as [x|] eqn:Ha.
  - destruct (r !! k); reflexivity.
  - destruct (r !! k) as [y|] eqn:Hr; [|reflexivity].
    assert (k ∈ dom a) as Hin by (apply Hsub, elem_of_dom; eauto).
    apply elem_of_dom in Hin. rewrite Ha in Hin. destruct Hin; discriminate.
Qed.

(** [async_unload_services] removes the services of its list, and returns
    normally. *)
Lemma unload_services_loop names h :
  for_each names (fun service_name =>
    registered <- has_service service_name ;;
    if registered then async_remove service_name else ret tt) h
  = (Ok tt, set_services (fun m => fold_left (fun m n => delete n m) names m) h).
Proof.
  revert h. induction names as [|name names IH]; intros h.
  - cbn. unfold ret. f_equal. symmetry. apply set_services_id.
  - cbn [for_each]. unfold bind at 1. unfold bind at 1.
    unfold has_service at 1, reads.
    destruct (services h !! name) as [s|] eqn:Hs.
    + unfold async_remove, modify. rewrite IH. f_equal.
    + unfold ret at 1. rewrite IH. f_equal. apply set_services_ext.
      cbn [fold_left]. rewrite delete_id by exact Hs. reflexivity.
Qed.

Lemma async_unload_services_run h :
  async_unload_services h
  = (Ok tt,
     set_services
       (fun m => fold_left (fun m n => delete n m) unload_services_list m) h).
Proof. unfold async_unload_services. apply unload_services_loop. Qed.

Lemma fold_delete_lookup names (m : gmap string Service) k :
  fold_left (fun m n => delete n m) names m !! k
  = if in_dec String.string_dec k names then None else m !! k.
Proof.
  revert m. induction names as [|n names IH]; intros m; [reflexivity|].
  cbn [fold_left]. rewrite IH.
  destruct (in_dec String.string_dec k names) as [Hin|Hnin];
    destruct (in_dec String.string_dec k (n :: names)) as [Hin'|Hnin'];
    try reflexivity.
  - exfalso. apply Hnin'. right. exact Hin.
  - destruct Hin' as [->|Hin']; [apply lookup_delete_eq | contradiction].
  - apply lookup_delete_ne. intros ->. apply Hnin'. left. reflexivity.
Qed.

(** C10: service registration is idempotent and round-trips.  A second
    [async_setup_services] leaves the registry of the first; a service that
    was registered before the setup is the one registered after it; after
    the setup each of the seven services filter_reset, calibrate_sensors,
    set_display_brightness, schedule_maintenance, set_child_lock, set_timer
    and reset_device is registered, with the handler of this setup when
    the name was free; every other name is as before; and after
    [async_setup_services] followed by [async_unload_services] none of the
    seven is registered, and every other name is still as before. *)
Theorem services_setup_idempotent_and_round_trip call1 call2 h :
  let h1 := snd (async_setup_services call1 h) in
  let seven :=
    ["filter_reset"; "calibrate_sensors"; "set_display_brightness";
     "schedule_maintenance"; "set_child_lock"; "set_timer"; "reset_device"] in
  fst (async_setup_services call1 h) = Ok tt
  /\ snd (async_setup_services call2 h1) = h1
  /\ (forall name s, services h !! name = Some s -> services h1 !! name = Some s)
  /\ Forall (fun name =>
               exists s, services h1 !! name = Some s
                         /\ (services h !! name = None -> closure_of s = call1))
       seven
  /\ (forall name, ~ In name seven -> services h1 !! name = services h !! name)
  /\ fst (async_unload_services h1) = Ok tt
  /\ Forall (fun name => services (snd (async_unload_services h1)) !! name = None)
       seven
  /\ (forall name, ~ In name seven ->
                   services (snd (async_unload_services h1)) !! name
                   = services h !! name).
Proof.
  cbv zeta. rewrite !async_setup_services_run, async_unload_services_run.
  cbn [fst snd].
  assert (forall name,
            ~ In name (map fst setup_services_table) ->
            offered_services call1 setup_services_table !! name = None) as Hfree.
  { intros name Hnin. apply not_elem_of_dom. rewrite offered_services_dom.
    intros Hin. apply Hnin. apply list_elem_of_In.
    apply elem_of_list_to_set in Hin. exact Hin. }
  split; [reflexivity|]. split; [|split; [|split; [|split; [|split; [|split]]]]].
  - rewrite set_services_compose. apply set_services_ext.
    apply union_absorb. rewrite dom_union_L, !offered_services_dom.
    apply union_subseteq_r.
  - intros name s Hs. cbn [services set_services].
    apply lookup_union_Some_l. exact Hs.
  - cbn [services set_services].
    repeat apply Forall_cons_2; [.. | apply Forall_nil_2];
      rewrite lookup_union;
      (match goal with
       | |- context [services h !! ?name] =>
           destruct (services h !! name) as [s|]
       end;
       [ exists s; split;
         [ destruct (offered_services call1 setup_services_table !! _); reflexivity
         | discriminate ]
       | eexists; split; [vm_compute; reflexivity | reflexivity] ]).
  - intros name Hnin. cbn [services set_services]. rewrite lookup_union.
    rewrite (Hfree name Hnin). destruct (services h !! name); reflexivity.
  - reflexivity.
  - apply Forall_forall. intros name Hin. cbn [services set_services].
    rewrite fold_delete_lookup.
    apply list_elem_of_In in Hin.
    destruct (in_dec String.string_dec name unload_services_list) as [_|Hnin];
      [reflexivity | exact (False_ind _ (Hnin Hin))].
  - intros name Hnin. cbn [services set_services]. rewrite fold_delete_lookup.
    destruct (in_dec String.string_dec name unload_services_list) as [Hin|_];
      [exact (False_ind _ (Hnin Hin))|].
    rewrite lookup_union.
    rewrite (Hfree name Hnin). destruct (services h !! name); reflexivity.
Qed.

End ServicesFacts.

(** ** __init__.py *)

Module SetupFacts.

Import Integration.

Ltac run_coroutine :=
  cbn -[async_setup_services async_unload_services offered_services PLATFORMS];
  unfold bind, ret, raise, try_except, emit, modify, lift_result, reads;
  cbn -[async_setup_services async_unload_services offered_services PLATFORMS].

Section Setup.
Variable K : Const.

Lemma setup_run_connect_fails entry a h host model name device_id e :
  has_device_fields K entry host model name device_id ->
  CoAPClient_create a = Raise e ->
  async_setup_entry K entry a h
  = (Raise ConfigEntryNotReady,
     set_calls (fun l => (l ++ [CoAPClientCreate host 25])%list) h).
Proof.
  intros (Hh & Hm & Hn & Hd) Hc.
  unfold async_setup_entry, getitem, dict_has. rewrite Hh, Hm, Hn, Hd.
  run_coroutine. unfold CoAPClient_create_within. run_coroutine.
  rewrite Hc. reflexivity.
Qed.

(** The run with a persisted snapshot. *)
Lemma setup_run_persisted entry a h host model name device_id c st :
  has_device_fields K entry host model name device_id ->
  CoAPClient_create a = Ok c ->
  dict_get (data entry) (CONF_STATUS K) = Some st ->
  let r := async_setup_entry K entry a h in
  fst r = Ok true
  /\ calls (snd r)
     = (calls h ++ [CoAPClientCreate host 25; CoordinatorInit host st;
                    ForwardEntrySetups (entry_id entry) PLATFORMS;
                    CreateTask "_schedule_health_check"])%list
  /\ config_entries (snd r) = config_entries h
  /\ services (snd r)
     = services h ∪ offered_services (services_call a) setup_services_table
  /\ domain_data (snd r)
     = Some (<[entry_id entry :=
                {| device_information :=
                     {| di_host := host; di_mac := formatted_mac_address a;
                        di_model := model; di_name := name;
                        di_device_id := device_id |};
                   coordinator :=
                     {| host := host; client := Some c; status := st;
                        _timeout := None; _listeners := []; _task := None;
                        _reconnect_task := None;
                        _timer_disconnected := Some (Some false) |};
                   latest_status := st;
                   ced_client := c |}]> (default ∅ (domain_data h))).
Proof.
  intros (Hh & Hm & Hn & Hd) Hc Hs. cbv zeta.
  unfold async_setup_entry, getitem, dict_has. rewrite Hh, Hm, Hn, Hd, Hs.
  run_coroutine. unfold CoAPClient_create_within. run_coroutine.
  rewrite Hc. run_coroutine. unfold Coordinator_init. run_coroutine.
  unfold domain_data_store. run_coroutine.
  rewrite ServicesFacts.async_setup_services_run.
  run_coroutine. repeat split. rewrite <- !app_assoc. reflexivity.
Qed.

(** The run without a snapshot, the device answering the first refresh. *)
Lemma setup_run_fetched entry a h host model name device_id c st :
  has_device_fields K entry host model name device_id ->
  CoAPClient_create a = Ok c ->
  dict_get (data entry) (CONF_STATUS K) = None ->
  first_refresh a = Ok st ->
  let r := async_setup_entry K entry a h in
  fst r = Ok true
  /\ calls (snd r)
     = (calls h ++ [CoAPClientCreate host 25; CoordinatorInit host PNone;
                    AsyncFirstRefresh host;
                    ForwardEntrySetups (entry_id entry) PLATFORMS;
                    CreateTask "_schedule_health_check"])%list
  /\ config_entries (snd r)
     = <[entry_id entry :=
           with_data entry (dict_set (data entry) (CONF_STATUS K) st)]>
         (config_entries h)
  /\ services (snd r)
     = services h ∪ offered_services (services_call a) setup_services_table
  /\ domain_data (snd r)
     = Some (<[entry_id entry :=
                {| device_information :=
                     {| di_host := host; di_mac := formatted_mac_address a;
                        di_model := model; di_name := name;
                        di_device_id := device_id |};
                   coordinator :=
                     {| host := host; client := Some c; status := st;
                        _timeout := None; _listeners := [];
                        _task := Some {| done := false |};
                        _reconnect_task := None;
                        _timer_disconnected := Some (Some true) |};
                   latest_status := st;
                   ced_client := c |}]> (default ∅ (domain_data h))).
Proof.
  intros (Hh & Hm & Hn & Hd) Hc Hs Hg. cbv zeta.
  unfold async_setup_entry, getitem, dict_has. rewrite Hh, Hm, Hn, Hd, Hs.
  run_coroutine. unfold CoAPClient_create_within. run_coroutine.
  rewrite Hc. run_coroutine. unfold Coordinator_init. run_coroutine.
  unfold async_first_refresh. rewrite Hg. run_coroutine.
  unfold async_update_entry, domain_data_store. run_coroutine.
  rewrite ServicesFacts.async_setup_services_run.
  run_coroutine. repeat split. rewrite <- !app_assoc. reflexivity.
Qed.

(** The run without a snapshot, the device not reached by the first
    refresh: the exception of the refresh leaves the setup as it is, and
    nothing is stored. *)
Lemma setup_run_fetch_fails entry a h host model name device_id c e :
  has_device_fields K entry host model name device_id ->
  CoAPClient_create a = Ok c ->
  dict_get (data entry) (CONF_STATUS K) = None ->
  first_refresh a = Raise e ->
  async_setup_entry K entry a h
  = (Raise e,
     set_calls (fun l => (((l ++ [CoAPClientCreate host 25])
                           ++ [CoordinatorInit host PNone])
                          ++ [AsyncFirstRefresh host])%list) h).
Proof.
  intros (Hh & Hm & Hn & Hd) Hc Hs Hg.
  unfold async_setup_entry, getitem, dict_has. rewrite Hh, Hm, Hn, Hd, Hs.
  run_coroutine. unfold CoAPClient_create_within. run_coroutine.
  rewrite Hc. run_coroutine. unfold Coordinator_init. run_coroutine.
  unfold async_first_refresh. rewrite Hg. run_coroutine. reflexivity.
Qed.

(** A config entry that lacks one of the four fields: the setup raises
    KeyError before it connects. *)
Lemma setup_run_missing_field entry a h :
  (forall host model name device_id,
     ~ has_device_fields K entry host model name device_id) ->
  exists key, fst (async_setup_entry K entry a h) = Raise (KeyError key).
Proof.
  intros Hnone. unfold async_setup_entry, getitem.
  destruct (dict_get (data entry) CONF_HOST) as [host|] eqn:Hh;
    [|eexists; reflexivity].
  destruct (dict_get (data entry) (CONF_MODEL K)) as [model|] eqn:Hm;
    [|eexists; reflexivity].
  destruct (dict_get (data entry) CONF_NAME) as [name|] eqn:Hn;
    [|eexists; reflexivity].
  destruct (dict_get (data entry) (CONF_DEVICE_ID K)) as [device_id|] eqn:Hd;
    [|eexists; reflexivity].
  exfalso. apply (Hnone host model name device_id). repeat split; assumption.
Qed.

Lemma has_device_fields_dec entry :
  (exists host model name device_id,
     has_device_fields K entry host model name device_id)
  \/ (forall host model name device_id,
        ~ has_device_fields K entry host model name device_id).
Proof.
  unfold has_device_fields.
  destruct (dict_get (data entry) CONF_HOST) as [host|];
    [|right; intros ? ? ? ? (? & _); discriminate].
  destruct (dict_get (data entry) (CONF_MODEL K)) as [model|];
    [|right; intros ? ? ? ? (_ & ? & _); discriminate].
  destruct (dict_get (data entry) CONF_NAME) as [name|];
    [|right; intros ? ? ? ? (_ & _ & ? & _); discriminate].
  destruct (dict_get (data entry) (CONF_DEVICE_ID K)) as [device_id|];
    [|right; intros ? ? ? ? (_ & _ & _ & ?); discriminate].
  left. exists host, model, name, device_id. repeat split.
Qed.

(** Once a session is established, no operation leads back to the first
    connect. *)
Lemma established_step c o :
  StatusCache.established c -> StatusCache.established (StatusCache.step c o).
Proof.
  unfold StatusCache.established, StatusCache.step.
  intros [Hinit Hconnecting].
  destruct (StatusCache.state c) eqn:Hstate; try contradiction;
    destruct o as [[first|]| | |[|]| |key value acked|entity option net|];
    cbn [StatusCache.state StatusCache.with_state]; rewrite ?Hstate;
    split; discriminate.
Qed.

Lemma established_run ops : forall c,
  StatusCache.established c -> StatusCache.established (StatusCache.run c ops).
Proof.
  induction ops as [|o ops IH]; intros c Hc; [exact Hc|].
  apply (IH (StatusCache.step c o)). apply established_step. exact Hc.
Qed.

(** C2: for a config entry with its four fields.  When the connection
    attempt of [async_setup_entry] raises or times out within its 25
    seconds, the setup raises ConfigEntryNotReady right after the attempt,
    and the registry of per-entry data, the config entries and the services
    are as before.  When the connection is established and the first
    refresh does not reach the device, what the refresh raises leaves the
    setup unchanged, and again nothing is stored.  In every other case the
    setup returns True; so the setup raises ConfigEntryNotReady only when
    the connection attempt failed or the first refresh raised it.  And in
    the Coordinator of the spec, once a session is established, no
    operation of any lifetime surfaces "not ready": link errors, failed
    reconnects and staleness are absorbed. *)
Theorem setup_not_ready_when_first_connect_fails entry a h host model name device_id :
  has_device_fields K entry host model name device_id ->
  let r := async_setup_entry K entry a h in
  let nothing_stored :=
    domain_data (snd r) = domain_data h
    /\ config_entries (snd r) = config_entries h
    /\ services (snd r) = services h in
  (forall e,
     CoAPClient_create a = Raise e ->
     fst r = Raise ConfigEntryNotReady
     /\ calls (snd r) = (calls h ++ [CoAPClientCreate host 25])%list
     /\ nothing_stored)
  /\ (forall c e,
        CoAPClient_create a = Ok c ->
        dict_get (data entry) (CONF_STATUS K) = None ->
        first_refresh a = Raise e ->
        fst r = Raise e
        /\ calls (snd r)
           = (calls h ++ [CoAPClientCreate host 25; CoordinatorInit host PNone;
                          AsyncFirstRefresh host])%list
        /\ nothing_stored)
  /\ (forall c,
        CoAPClient_create a = Ok c ->
        (dict_get (data entry) (CONF_STATUS K) = None ->
         exists st, first_refresh a = Ok st) ->
        fst r = Ok true)
  /\ (fst r = Raise ConfigEntryNotReady ->
      (exists e, CoAPClient_create a = Raise e)
      \/ (dict_get (data entry) (CONF_STATUS K) = None
          /\ first_refresh a = Raise ConfigEntryNotReady))
  /\ (forall coordinator ops o,
        StatusCache.established coordinator ->
        StatusCache.surfaced (StatusCache.run coordinator ops) o
        <> Some StatusCache.NotReady).
Proof.
  intros Hf. cbv zeta.
  assert (forall c st, CoAPClient_create a = Ok c ->
                       dict_get (data entry) (CONF_STATUS K) = Some st ->
                       fst (async_setup_entry K entry a h) = Ok true) as Hpersisted.
  { intros c st Hc Hs.
    apply (setup_run_persisted entry a h host model name device_id c st Hf Hc Hs). }
  assert (forall c st, CoAPClient_create a = Ok c ->
                       dict_get (data entry) (CONF_STATUS K) = None ->
                       first_refresh a = Ok st ->
                       fst (async_setup_entry K entry a h) = Ok true) as Hfetched.
  { intros c st Hc Hs Hg.
    apply (setup_run_fetched entry a h host model name device_id c st Hf Hc Hs Hg). }
  split; [|split; [|split; [|split]]].
  - intros e Hc.
    rewrite (setup_run_connect_fails entry a h host model name device_id e Hf Hc).
    repeat split.
  - intros c e Hc Hs Hg.
    rewrite (setup_run_fetch_fails entry a h host model name device_id c e
               Hf Hc Hs Hg).
    cbn [fst snd calls set_calls domain_data config_entries services].
    repeat split. rewrite <- !app_assoc. reflexivity.
  - intros c Hc Hrefresh.
    destruct (dict_get (data entry) (CONF_STATUS K)) as [st|] eqn:Hs.
    + exact (Hpersisted c st Hc eq_refl).
    + destruct (Hrefresh eq_refl) as [st Hg]. exact (Hfetched c st Hc eq_refl Hg).
  - intros Hraise.
    destruct (CoAPClient_create a) as [c|e] eqn:Hc; [|left; eexists; reflexivity].
    right.
    destruct (dict_get (data entry) (CONF_STATUS K)) as [st|] eqn:Hs.
    + rewrite (Hpersisted c st eq_refl eq_refl) in Hraise. discriminate.
    + split; [reflexivity|].
      destruct (first_refresh a) as [st|e] eqn:Hg.
      * rewrite (Hfetched c st eq_refl eq_refl eq_refl) in Hraise. discriminate.
      * rewrite (setup_run_fetch_fails entry a h host model name device_id c e
                   Hf Hc Hs Hg) in Hraise.
        cbn [fst] in Hraise. congruence.
  - intros coordinator ops o Hestablished.
    pose proof (established_run ops coordinator Hestablished) as [Hinit Hconnecting].
    unfold StatusCache.surfaced.
    destruct o as [[first|]| | |reached| |key value acked|entity option net|];
      try discriminate.
    + destruct (StatusCache.state (StatusCache.run coordinator ops));
        try discriminate; contradiction.
    + destruct (StatusCache.state (StatusCache.run coordinator ops));
        try discriminate; destruct acked; discriminate.
    + destruct (fst (Select.async_select_option entity option net _));
        discriminate.
Qed.

(** C5: with a persisted status snapshot in the config entry, the
    Coordinator is constructed with that snapshot, no first refresh is
    made, and the stored entries are as before; without one, the
    Coordinator is constructed without a snapshot, a first refresh is made,
    and the fetched status is written into the stored data of the entry:
    the stored entry holds the fetched status under [CONF_STATUS] and what
    the entry held under every other key, and the other stored entries are
    as before.  Either way the ConfigEntryData of the entry holds that
    status. *)
Theorem setup_prepopulates_from_persistence entry a h host model name device_id c :
  has_device_fields K entry host model name device_id ->
  CoAPClient_create a = Ok c ->
  let r := async_setup_entry K entry a h in
  (forall st,
     dict_get (data entry) (CONF_STATUS K) = Some st ->
     fst r = Ok true
     /\ calls (snd r)
        = (calls h ++ [CoAPClientCreate host 25; CoordinatorInit host st;
                       ForwardEntrySetups (entry_id entry) PLATFORMS;
                       CreateTask "_schedule_health_check"])%list
     /\ config_entries (snd r) = config_entries h
     /\ exists config_entry_data,
          domain_data (snd r)
          = Some (<[entry_id entry := config_entry_data]>
                    (default ∅ (domain_data h)))
          /\ status (coordinator config_entry_data) = st
          /\ latest_status config_entry_data = st)
  /\ (forall st,
        dict_get (data entry) (CONF_STATUS K) = None ->
        first_refresh a = Ok st ->
        fst r = Ok true
        /\ calls (snd r)
           = (calls h ++ [CoAPClientCreate host 25; CoordinatorInit host PNone;
                          AsyncFirstRefresh host;
                          ForwardEntrySetups (entry_id entry) PLATFORMS;
                          CreateTask "_schedule_health_check"])%list
        /\ config_entries (snd r)
           = <[entry_id entry :=
                 with_data entry (dict_set (data entry) (CONF_STATUS K) st)]>
               (config_entries h)
        /\ (exists stored,
              config_entries (snd r) !! entry_id entry = Some stored
              /\ dict_get (data stored) (CONF_STATUS K) = Some st
              /\ (forall key, key <> CONF_STATUS K ->
                              dict_get (data stored) key = dict_get (data entry) key)
              /\ entry_id stored = entry_id entry
              /\ title stored = title entry
              /\ options stored = options entry)
        /\ (forall other, other <> entry_id entry ->
                          config_entries (snd r) !! other = config_entries h !! other)
        /\ exists config_entry_data,
             domain_data (snd r)
             = Some (<[entry_id entry := config_entry_data]>
                       (default ∅ (domain_data h)))
             /\ status (coordinator config_entry_data) = st
             /\ latest_status config_entry_data = st).
Proof.
  intros Hf Hc. cbv zeta. split.
  - intros st Hs.
    destruct (setup_run_persisted entry a h host model name device_id c st
                Hf Hc Hs) as (Hr & Hcalls & Hentries & _ & Hdata).
    repeat split; try assumption. eexists. split; [exact Hdata|]. split; reflexivity.
  - intros st Hs Hg.
    destruct (setup_run_fetched entry a h host model name device_id c st
                Hf Hc Hs Hg) as (Hr & Hcalls & Hentries & _ & Hdata).
    split; [exact Hr|]. split; [exact Hcalls|]. split; [exact Hentries|].
    split; [|split].
    + eexists. split; [rewrite Hentries; apply lookup_insert_eq|].
      cbn [data with_data entry_id title options].
      split; [apply PyFacts.dict_get_set|].
      split; [|repeat split].
      intros key Hkey. apply PyFacts.dict_get_set_ne. congruence.
    + intros other Hother. rewrite Hentries. apply lookup_insert_ne. congruence.
    + eexists. split; [exact Hdata|]. split; reflexivity.
Qed.

Lemma set_calls_compose f g h :
  set_calls g (set_calls f h) = set_calls (fun l => g (f l)) h.
Proof. reflexivity. Qed.

Lemma set_calls_ext f g h :
  f (calls h) = g (calls h) -> set_calls f h = set_calls g h.
Proof. intros E. unfold set_calls. rewrite E. reflexivity. Qed.

Lemma set_calls_id h : set_calls (fun l => l) h = h.
Proof. destruct h; reflexivity. Qed.

(** A loop of calls appends them in order. *)
Lemma for_each_emit {A} (f : A -> event) (xs : list A) h :
  for_each xs (fun x => emit (f x)) h
  = (Ok tt, set_calls (fun l => (l ++ map f xs)%list) h).
Proof.
  revert h. induction xs as [|x xs IH]; intros h.
  - cbn. unfold ret. f_equal. rewrite <- (set_calls_id h) at 1.
    apply set_calls_ext. rewrite app_nil_r. reflexivity.
  - cbn [for_each]. unfold bind, emit, modify. rewrite IH. f_equal.
    rewrite set_calls_compose. apply set_calls_ext.
    rewrite <- app_assoc. reflexivity.
Qed.

Lemma unload_run entry h m config_entry_data :
  domain_data h = Some m ->
  m !! entry_id entry = Some config_entry_data ->
  async_unload_entry K entry h
  = (Ok true,
     let h' :=
       set_domain_data (fun _ => Some (delete (entry_id entry) m))
         (set_calls
            (fun l => (l ++ map (ForwardEntryUnload (entry_id entry)) PLATFORMS
                         ++ [CoordinatorShutdown
                               (host (coordinator config_entry_data))])%list) h) in
     match map_to_list (delete (entry_id entry) m) with
     | [] =>
         set_services
           (fun s => fold_left (fun s n => delete n s) unload_services_list s) h'
     | _ => h'
     end).
Proof.
  intros Hm Hced. cbv zeta. unfold async_unload_entry.
  unfold bind at 1. rewrite for_each_emit.
  unfold bind at 1. unfold domain_data_lookup, domain_data_get.
  unfold bind at 1. cbn [domain_data set_calls]. rewrite Hm.
  rewrite Hced. unfold ret at 1.
  unfold bind at 1. unfold shutdown. run_coroutine.
  unfold domain_data_pop, domain_data_get. run_coroutine.
  rewrite Hm, Hced. run_coroutine.
  unfold domain_data_is_empty, domain_data_get. run_coroutine.
  destruct (map_to_list (delete (entry_id entry) m)) as [|kv rest] eqn:Hlist.
  - rewrite ServicesFacts.async_unload_services_run. run_coroutine.
    unfold set_services, set_domain_data, set_calls. cbn -[PLATFORMS].
    rewrite <- app_assoc. reflexivity.
  - run_coroutine. unfold set_domain_data, set_calls. cbn -[PLATFORMS].
    rewrite <- app_assoc. reflexivity.
Qed.

(** C6: unloading a config entry whose data is in the registry shuts the
    entry's Coordinator down exactly once, after the platforms are
    unloaded; removes the entry's ConfigEntryData from the registry; when
    the registry is then empty, none of the seven services filter_reset,
    calibrate_sensors, set_display_brightness, schedule_maintenance,
    set_child_lock, set_timer and reset_device is registered any more, and
    every other service is as before; when another entry remains, the
    services are as they were; and it returns True. *)
Theorem unload_entry_shuts_down_once entry h m config_entry_data :
  domain_data h = Some m ->
  m !! entry_id entry = Some config_entry_data ->
  let r := async_unload_entry K entry h in
  let seven :=
    ["filter_reset"; "calibrate_sensors"; "set_display_brightness";
     "schedule_maintenance"; "set_child_lock"; "set_timer"; "reset_device"] in
  fst r = Ok true
  /\ calls (snd r)
     = (calls h ++ map (ForwardEntryUnload (entry_id entry)) PLATFORMS
                ++ [CoordinatorShutdown (host (coordinator config_entry_data))])%list
  /\ domain_data (snd r) = Some (delete (entry_id entry) m)
  /\ config_entries (snd r) = config_entries h
  /\ (delete (entry_id entry) m = ∅ ->
      Forall (fun name => services (snd r) !! name = None) seven
      /\ forall name, ~ In name seven ->
                      services (snd r) !! name = services h !! name)
  /\ (delete (entry_id entry) m <> ∅ -> services (snd r) = services h).
Proof.
  intros Hm Hced. cbv zeta.
  rewrite (unload_run entry h m config_entry_data Hm Hced). cbn [fst snd].
  destruct (map_to_list (delete (entry_id entry) m)) as [|kv rest] eqn:Hlist.
  - apply map_to_list_empty_iff in Hlist.
    do 4 (split; [reflexivity|]). split; [|intros Hne; contradiction].
    intros _. split.
    + apply Forall_forall. intros name Hin. apply list_elem_of_In in Hin.
      cbn [services set_services set_domain_data set_calls].
      rewrite ServicesFacts.fold_delete_lookup.
      destruct (in_dec String.string_dec name unload_services_list) as [_|Hnin];
        [reflexivity | exact (False_ind _ (Hnin Hin))].
    + intros name Hnin. cbn [services set_services set_domain_data set_calls].
      rewrite ServicesFacts.fold_delete_lookup.
      destruct (in_dec String.string_dec name unload_services_list) as [Hin|_];
        [exact (False_ind _ (Hnin Hin)) | reflexivity].
  - assert (delete (entry_id entry) m <> ∅) as Hne.
    { intros E. apply map_to_list_empty_iff in E. congruence. }
    do 4 (split; [reflexivity|]). split; [intros E; contradiction|].
    intros _. reflexivity.
Qed.

End Setup.

End SetupFacts.

(** ** __init__.py and services.py, on the bedroom purifier *)

Module SetupWitnesses.

Import Integration Example.

Lemma bedroom_fields persisted :
  has_device_fields K0 (entry_at "192.168.1.20" persisted)
    (PStr "192.168.1.20") (PStr "AC4220/12") (PStr "Bedroom") (PStr "abc123").
Proof. repeat split. Defined.

Lemma setup_not_ready_when_first_connect_fails_witness :
  fst (async_setup_entry K0 entry_with_status answers_timeout hass0)
  = Raise ConfigEntryNotReady
  /\ domain_data (snd (async_setup_entry K0 entry_with_status answers_timeout hass0))
     = None
  /\ fst (async_setup_entry K0 entry_without_status answers_unreached hass0)
     = Raise ConfigEntryNotReady
  /\ domain_data
       (snd (async_setup_entry K0 entry_without_status answers_unreached hass0))
     = None
  /\ fst (async_setup_entry K0 entry_with_status answers_ok hass0) = Ok true.
Proof.
  destruct (SetupFacts.setup_not_ready_when_first_connect_fails K0
              entry_with_status answers_timeout hass0 _ _ _ _
              (bedroom_fields (Some status0))) as (Hfail & _).
  destruct (Hfail TimeoutError eq_refl) as (Hr & _ & Hd & _).
  destruct (SetupFacts.setup_not_ready_when_first_connect_fails K0
              entry_without_status answers_unreached hass0 _ _ _ _
              (bedroom_fields None)) as (_ & Hrefresh & _).
  destruct (Hrefresh "client1" ConfigEntryNotReady eq_refl eq_refl eq_refl)
    as (Hr' & _ & Hd' & _).
  destruct (SetupFacts.setup_not_ready_when_first_connect_fails K0
              entry_with_status answers_ok hass0 _ _ _ _
              (bedroom_fields (Some status0))) as (_ & _ & Hok & _).
  split; [exact Hr|]. split; [exact Hd|]. split; [exact Hr'|].
  split; [exact Hd'|]. apply (Hok "client1" eq_refl). discriminate.
Defined.

Lemma setup_prepopulates_from_persistence_witness :
  fst (async_setup_entry K0 entry_with_status answers_ok hass0) = Ok true
  /\ config_entries (snd (async_setup_entry K0 entry_with_status answers_ok hass0))
     = config_entries hass0
  /\ fst (async_setup_entry K0 entry_without_status answers_ok hass0) = Ok true
  /\ exists stored,
       config_entries
         (snd (async_setup_entry K0 entry_without_status answers_ok hass0))
         !! "entry1" = Some stored
       /\ dict_get (data stored) "status" = Some status1
       /\ dict_get (data stored) "host" = Some (PStr "192.168.1.20").
Proof.
  destruct (SetupFacts.setup_prepopulates_from_persistence K0
              entry_with_status answers_ok hass0 _ _ _ _ "client1"
              (bedroom_fields (Some status0)) eq_refl) as [Hwith _].
  destruct (Hwith status0 eq_refl) as (Hr & _ & He & _).
  destruct (SetupFacts.setup_prepopulates_from_persistence K0
              entry_without_status answers_ok hass0 _ _ _ _ "client1"
              (bedroom_fields None) eq_refl) as [_ Hwithout].
  destruct (Hwithout status1 eq_refl eq_refl)
    as (Hr' & _ & _ & (stored & Hstored & Hstatus & Hkeys & _) & _).
  split; [exact Hr|]. split; [exact He|]. split; [exact Hr'|].
  exists stored. split; [exact Hstored|]. split; [exact Hstatus|].
  rewrite (Hkeys "host"); [reflexivity | discriminate].
Defined.

Lemma unload_entry_shuts_down_once_witness :
  fst (async_unload_entry K0 entry_with_status hass1) = Ok true
  /\ domain_data (snd (async_unload_entry K0 entry_with_status hass1))
     = Some (delete "entry1" (default ∅ (domain_data hass1)))
  /\ is_Some (services hass1 !! "filter_reset")
  /\ Forall (fun name =>
               services (snd (async_unload_entry K0 entry_with_status hass1))
                 !! name = None)
       ["filter_reset"; "calibrate_sensors"; "set_display_brightness";
        "schedule_maintenance"; "set_child_lock"; "set_timer"; "reset_device"].
Proof.
  destruct (SetupFacts.setup_run_persisted K0 entry_with_status answers_ok hass0
              _ _ _ _ "client1" status0 (bedroom_fields (Some status0))
              eq_refl eq_refl) as (_ & _ & _ & _ & Hdata).
  change (snd (async_setup_entry K0 entry_with_status answers_ok hass0))
    with hass1 in Hdata.
  destruct (SetupFacts.unload_entry_shuts_down_once K0 entry_with_status hass1
              _ _ Hdata (lookup_insert_eq _ _ _))
    as (Hr & _ & Hd & _ & Hlast & _).
  split; [exact Hr|]. split; [|split].
  - rewrite Hd, Hdata. reflexivity.
  - vm_compute. eexists. reflexivity.
  - apply Hlast. cbn [default domain_data hass0].
    rewrite delete_insert_eq. apply delete_empty.
Defined.

Lemma services_setup_idempotent_and_round_trip_witness :
  services (snd (async_setup_services 7 hass1)) !! "filter_reset"
  = Some {| handler := "async_filter_reset"; closure_of := 1;
            schema := "FILTER_RESET_SCHEMA" |}
  /\ (exists s, services (snd (async_setup_services 7 hass0)) !! "set_timer" = Some s
                /\ closure_of s = 7%nat)
  /\ services (snd (async_unload_services (snd (async_setup_services 7 hass1))))
       !! "filter_reset" = None.
Proof.
  destruct (ServicesFacts.services_setup_idempotent_and_round_trip 7 8 hass1)
    as (_ & _ & Hkept & _ & _ & _ & Hgone & _).
  destruct (ServicesFacts.services_setup_idempotent_and_round_trip 7 8 hass0)
    as (_ & _ & _ & Hnew & _).
  split; [|split].
  - apply Hkept. reflexivity.
  - apply Forall_forall with (x := "set_timer") in Hnew.
    + destruct Hnew as (s & Hs & Hcall). exists s. split; [exact Hs|].
      apply Hcall. reflexivity.
    + repeat first [apply list_elem_of_here | apply list_elem_of_further].
  - apply Forall_forall with (x := "filter_reset") in Hgone; [exact Hgone|].
    apply list_elem_of_here.
Defined.

End SetupWitnesses.

(** ** diagnostics.py *)

Module DiagnosticsFacts.

Import Integration.

Section ReadOnly.
Context {W : Type}.

Lemma read_only_ret {A} (a : A) : read_only (ret a : M W A).
Proof. intros w. reflexivity. Qed.

Lemma read_only_raise {A} e : read_only (raise e : M W A).
Proof. intros w. reflexivity. Qed.

Lemma read_only_reads {A} (f : W -> A) : read_only (reads f).
Proof. intros w. reflexivity. Qed.

Lemma read_only_bind {A B} (m : M W A) (k : A -> M W B) :
  read_only m -> (forall a, read_only (k a)) -> read_only (bind m k).
Proof.
  intros Hm Hk w. unfold bind. specialize (Hm w).
  destruct (m w) as [[a|e] w']; cbn [snd] in *; subst w'; [apply Hk | reflexivity].
Qed.

Lemma read_only_if {A} (b : bool) (m1 m2 : M W A) :
  read_only m1 -> read_only m2 -> read_only (if b then m1 else m2).
Proof. destruct b; auto. Qed.

Lemma read_only_getitem d k : read_only (getitem d k : M W pyval).
Proof. unfold getitem. destruct (dict_get d k); intros w; reflexivity. Qed.

Lemma read_only_py_len v : read_only (py_len v : M W Z).
Proof. destruct v; intros w; reflexivity. Qed.

Lemma read_only_py_contains key v : read_only (py_contains key v : M W bool).
Proof. destruct v; intros w; reflexivity. Qed.

Lemma read_only_py_getitem v key : read_only (py_getitem v key : M W pyval).
Proof. destruct v; try (intros w; reflexivity). apply read_only_getitem. Qed.

Lemma read_only_mapping v : read_only (mapping v : M W pydict).
Proof. destruct v; intros w; reflexivity. Qed.

Lemma read_only_ordered_int v : read_only (ordered_int v : M W Z).
Proof. destruct v; intros w; reflexivity. Qed.

Lemma read_only_signal_quality v :
  read_only (_get_signal_quality v : M W pyval).
Proof.
  unfold _get_signal_quality. apply read_only_bind; [apply read_only_ordered_int|].
  intros r. repeat apply read_only_if; apply read_only_ret.
Qed.

End ReadOnly.

(** Induction on a value and on the values nested in it. *)
Lemma pyval_nested_ind (P : pyval -> Prop) :
  P PNone ->
  (forall b, P (PBool b)) ->
  (forall z, P (PInt z)) ->
  (forall s, P (PStr s)) ->
  (forall l, Forall P l -> P (PList l)) ->
  (forall l, Forall P l -> P (PTuple l)) ->
  (forall l, Forall P l -> P (PSet l)) ->
  (forall d, Forall (fun kv => P (snd kv)) d -> P (PDict d)) ->
  forall v, P v.
Proof.
  intros HNone HBool HInt HStr HList HTuple HSet HDict.
  fix IH 1. intros [ | b | z | s | l | l | l | d].
  - exact HNone.
  - apply HBool.
  - apply HInt.
  - apply HStr.
  - apply HList.
    exact ((fix all (l : list pyval) : Forall P l :=
              match l with
              | [] => @List.Forall_nil _ P
              | x :: l' => @List.Forall_cons _ P x l' (IH x) (all l')
              end) l).
  - apply HTuple.
    exact ((fix all (l : list pyval) : Forall P l :=
              match l with
              | [] => @List.Forall_nil _ P
              | x :: l' => @List.Forall_cons _ P x l' (IH x) (all l')
              end) l).
  - apply HSet.
    exact ((fix all (l : list pyval) : Forall P l :=
              match l with
              | [] => @List.Forall_nil _ P
              | x :: l' => @List.Forall_cons _ P x l' (IH x) (all l')
              end) l).
  - apply HDict.
    exact ((fix all (d : list (string * pyval))
              : Forall (fun kv => P (snd kv)) d :=
              match d with
              | [] => @List.Forall_nil _ _
              | kv :: d' =>
                  @List.Forall_cons _ (fun kv => P (snd kv)) kv d' (IH (snd kv)) (all d')
              end) d).
Qed.



Create HintDb read_only.

#[local] Hint Resolve read_only_ret read_only_raise read_only_reads
  read_only_getitem read_only_py_len read_only_py_contains
  read_only_py_getitem read_only_mapping read_only_ordered_int
  read_only_signal_quality : read_only.

Ltac read_only_step :=
  first
    [ apply read_only_bind; [| intros ?]
    | apply read_only_if
    | solve [auto with read_only] ].

Section Helpers.
Variable K : Const.
Variable py_str : pyval -> string.

Lemma read_only_domain_data_lookup id : read_only (domain_data_lookup K id).
Proof.
  intros h. unfold domain_data_lookup, domain_data_get, bind.
  destruct (domain_data h) as [m|]; [|reflexivity].
  destruct (m !! id); reflexivity.
Qed.

Lemma read_only_config_version : read_only config_version.
Proof. intros h. unfold config_version. destruct (ha_version h); reflexivity. Qed.

Lemma read_only_system_info entry : read_only (_get_system_info K entry).
Proof.
  unfold _get_system_info.
  apply read_only_bind; [apply read_only_config_version | intros ?].
  repeat read_only_step.
Qed.

Lemma read_only_integration_info entry config_entry_data :
  read_only (_get_integration_info K entry config_entry_data).
Proof. unfold _get_integration_info. apply read_only_ret. Qed.

Lemma read_only_device_info entry config_entry_data device_entry :
  read_only (_get_device_info entry config_entry_data device_entry).
Proof. unfold _get_device_info. cbv zeta. repeat read_only_step. Qed.

Lemma read_only_connectivity_info config_entry_data :
  read_only (_get_connectivity_info config_entry_data).
Proof. unfold _get_connectivity_info. cbv zeta. repeat read_only_step. Qed.

Lemma read_only_performance_metrics config_entry_data :
  read_only (_get_performance_metrics config_entry_data).
Proof. unfold _get_performance_metrics. apply read_only_ret. Qed.

Lemma read_only_entity_info entry : read_only (_get_entity_info entry).
Proof.
  unfold _get_entity_info, async_entries_for_config_entry.
  repeat read_only_step.
Qed.

Lemma read_only_configuration_data entry :
  read_only (_get_configuration_data K entry).
Proof. unfold _get_configuration_data. repeat read_only_step. Qed.

Lemma read_only_error_tracking config_entry_data :
  read_only (_get_error_tracking py_str config_entry_data).
Proof. unfold _get_error_tracking. cbv zeta. repeat read_only_step. Qed.

Lemma read_only_device_status config_entry_data :
  read_only (_get_device_status config_entry_data).
Proof. unfold _get_device_status. cbv zeta. repeat read_only_step. Qed.

(** C7: diagnostics collection is read-only.  Whatever the config entry and
    the instance, [async_get_config_entry_diagnostics] leaves the instance
    as it found it: every Coordinator with its client, listeners, tasks,
    timer and status, every stored ConfigEntryData, the services and the
    entries, and it makes no call; so do [_get_integration_info] and
    [_get_performance_metrics], which inspect the Coordinator. *)
Theorem diagnostics_read_only entry h :
  snd (async_get_config_entry_diagnostics K py_str entry h) = h
  /\ (forall config_entry_data,
        snd (_get_integration_info K entry config_entry_data h) = h
        /\ snd (_get_performance_metrics config_entry_data h) = h).
Proof.
  split.
  - revert h. change (read_only (async_get_config_entry_diagnostics K py_str entry)).
    unfold async_get_config_entry_diagnostics, find_device_entry.
    apply read_only_bind; [apply read_only_domain_data_lookup | intros ?].
    apply read_only_bind; [apply read_only_reads | intros ?].
    apply read_only_bind; [apply read_only_system_info | intros ?].
    apply read_only_bind; [apply read_only_integration_info | intros ?].
    apply read_only_bind; [apply read_only_device_info | intros ?].
    apply read_only_bind; [apply read_only_connectivity_info | intros ?].
    apply read_only_bind; [apply read_only_performance_metrics | intros ?].
    apply read_only_bind; [apply read_only_entity_info | intros ?].
    apply read_only_bind; [apply read_only_configuration_data | intros ?].
    apply read_only_bind; [apply read_only_error_tracking | intros ?].
    apply read_only_bind; [apply read_only_device_status | intros ?].
    apply read_only_ret.
  - intros config_entry_data. split.
    + apply read_only_integration_info.
    + apply read_only_performance_metrics.
Qed.

(** On an instance whose [config] has no attribute [version], the
    diagnostics of an entry that is set up raise AttributeError, when the
    system information is collected, and those of an entry that is not set
    up raise KeyError; no dictionary is returned. *)
Lemma diagnostics_run_without_version entry h :
  ha_version h = None ->
  async_get_config_entry_diagnostics K py_str entry h
  = (match domain_data h with
     | Some m =>
         match m !! entry_id entry with
         | Some _ => Raise AttributeError
         | None => Raise (KeyError (entry_id entry))
         end
     | None => Raise (KeyError (DOMAIN K))
     end, h).
Proof.
  intros Hversion.
  unfold async_get_config_entry_diagnostics, domain_data_lookup, domain_data_get.
  unfold bind at 1. unfold bind at 1.
  destruct (domain_data h) as [m|]; [|reflexivity].
  destruct (m !! entry_id entry) as [config_entry_data|]; [|reflexivity].
  unfold ret at 1. unfold bind at 1. unfold find_device_entry, reads.
  unfold bind at 1. unfold _get_system_info. unfold bind at 1.
  unfold config_version. rewrite Hversion. reflexivity.
Qed.


End Helpers.


End DiagnosticsFacts.

(** ** select.py: the entity's option, and the platform setup *)

Module SelectPlatformFacts.

Import Select SelectPlatform.
Import Sensor (rbind).
Local Open Scope list_scope.

Lemma unique_loop_app seen unique selects :
  unique_loop seen unique selects = unique ++ unique_loop seen [] selects.
Proof.
  revert seen unique. induction selects as [|x xs IH]; intros seen unique.
  - cbn. rewrite app_nil_r. reflexivity.
  - cbn [unique_loop]. destruct (decide (x ∈ seen)); [apply IH|].
    rewrite (IH _ (unique ++ [x])), (IH _ ([] ++ [x])).
    rewrite <- app_assoc. reflexivity.
Qed.

Lemma unique_loop_snoc seen xs x :
  unique_loop seen [] (xs ++ [x])
  = unique_loop seen [] xs ++ (if decide (x ∈ seen \/ x ∈ xs) then [] else [x]).
Proof.
  revert seen. induction xs as [|y xs IH]; intros seen.
  - cbn [app unique_loop].
    rewrite (decide_ext (x ∈ seen \/ x ∈ []) (x ∈ seen)); [reflexivity|].
    split; [intros [H|H]; [exact H | apply elem_of_nil in H; destruct H] | auto].
  - cbn [app unique_loop]. destruct (decide (y ∈ seen)) as [Hy|Hy].
    + rewrite IH. f_equal. apply decide_ext.
      split; (intros [H|H]; [left; exact H|]).
      * right. right. exact H.
      * apply elem_of_cons in H as [->|H]; [left | right]; assumption.
    + cbn [app].
      rewrite (unique_loop_app _ [y] (xs ++ [x])), (unique_loop_app _ [y] xs).
      rewrite IH. cbn [app]. f_equal. f_equal. apply decide_ext.
      split; intros [H|H].
      * apply elem_of_union in H as [H|H]; [|left; exact H].
        apply elem_of_singleton in H as ->. right. left.
      * right. right. exact H.
      * left. apply elem_of_union_r. exact H.
      * apply elem_of_cons in H as [->|H]; [left | right; exact H].
        apply elem_of_union_l, elem_of_singleton. reflexivity.
Qed.

Lemma elem_of_rev (x : string) (l : list string) : x ∈ rev l <-> x ∈ l.
Proof. rewrite !list_elem_of_In. symmetry. apply in_rev. Qed.

(** The removal of duplicates keeps, of each select, its last occurrence. *)
Lemma unique_selects_remove_dups l : unique_selects l = remove_dups l.
Proof.
  unfold unique_selects. induction l as [|x l IH]; [reflexivity|].
  cbn [rev remove_dups]. rewrite unique_loop_snoc, rev_app_distr, IH.
  destruct (decide (x ∈ ∅ \/ x ∈ rev l)) as [H1|H1];
    destruct (decide_rel elem_of x l) as [H2|H2]; try reflexivity.
  - exfalso. destruct H1 as [H1|H1]; [set_solver|].
    apply H2. apply elem_of_rev. exact H1.
  - exfalso. apply H1. right. apply elem_of_rev. exact H2.
Qed.

Lemma remove_dups_app (l1 l2 : list string) :
  remove_dups (l1 ++ l2)
  = List.filter (fun x => negb (bool_decide (x ∈ l2))) (remove_dups l1)
    ++ remove_dups l2.
Proof.
  induction l1 as [|x l1 IH]; [reflexivity|].
  cbn [app remove_dups].
  destruct (decide_rel elem_of x (l1 ++ l2)) as [H1|H1];
    destruct (decide_rel elem_of x l1) as [H2|H2].
  - exact IH.
  - cbn [List.filter]. apply elem_of_app in H1 as [H1|H1]; [contradiction|].
    rewrite (bool_decide_eq_true_2 _ H1). exact IH.
  - exfalso. apply H1, elem_of_app. left. exact H2.
  - cbn [List.filter]. rewrite bool_decide_eq_false_2.
    + cbn [negb app]. f_equal. exact IH.
    + intros H3. apply H1, elem_of_app. right. exact H3.
Qed.

(** The deduplication of [available_selects] leaves no select twice, loses
    and adds none, and gives the selects of the child classes, which come
    last, the priority: of a select that occurs again later only the later
    occurrence is kept. *)
Theorem unique_selects_prefers_later (parents children : list string) :
  NoDup (unique_selects parents)
  /\ (forall select, select ∈ unique_selects parents <-> select ∈ parents)
  /\ unique_selects (parents ++ children)
     = List.filter (fun select => negb (bool_decide (select ∈ children)))
         (unique_selects parents)
       ++ unique_selects children.
Proof.
  rewrite !unique_selects_remove_dups. split; [|split].
  - apply NoDup_remove_dups.
  - intros select. apply elem_of_remove_dups.
  - apply remove_dups_app.
Qed.

Section Platform.
Variable SELECT_TYPES : list (string * option (list (pyval * string))).

Lemma filtered_selects_other_model model available types :
  model <> "AC4220/12" ->
  filtered_selects model available types
  = Ok (List.filter (fun select => bool_decide (select ∈ available)) types).
Proof.
  intros Hmodel. induction types as [|select rest IH]; [reflexivity|].
  cbn [filtered_selects List.filter].
  destruct (decide (select ∈ available)) as [Hin|Hnin].
  - rewrite (bool_decide_eq_true_2 _ Hin).
    destruct (String.eqb_spec model "AC4220/12"); [contradiction|].
    rewrite IH. reflexivity.
  - rewrite (bool_decide_eq_false_2 _ Hnin). exact IH.
Qed.

Lemma filter_ext_in_list (f g : string -> bool) (l : list string) :
  (forall x, f x = g x) -> List.filter f l = List.filter g l.
Proof.
  intros E. induction l as [|x l IH]; [reflexivity|].
  cbn [List.filter]. rewrite E, IH. reflexivity.
Qed.

(** For a supported model other than the AC4220/12, the entities handed to
    [async_add_entities] are those of the selects of [SELECT_TYPES], in its
    order, that some class of the model lists as available; the removal of
    duplicates changes nothing in them. *)
Theorem select_setup_adds_available_selects model mro :
  model <> "AC4220/12" ->
  async_setup_entry SELECT_TYPES model (Some mro)
  = rbind (new_selects SELECT_TYPES
             (List.filter (fun select => bool_decide (select ∈ concat mro))
                (map fst SELECT_TYPES)))
          (fun selects => Ok (Some selects)).
Proof.
  intros Hmodel. unfold async_setup_entry. cbv zeta.
  rewrite (filtered_selects_other_model model _ _ Hmodel). cbn [rbind].
  rewrite (filter_ext_in_list _
             (fun select => bool_decide (select ∈ concat mro))); [reflexivity|].
  intros x. apply bool_decide_ext.
  rewrite unique_selects_remove_dups. apply elem_of_remove_dups.
Qed.

End Platform.

Lemma select_setup_adds_available_selects_witness :
  async_setup_entry select_types0 "AC2889/10" (Some [["uil"]; ["ddp#1"; "uil"]])
  = Ok (Some [ {| kind := "ddp";
                  _options := [(PStr "0", "indoor_allergen_index"); (PStr "1", "pm25")] |};
               {| kind := "uil"; _options := [(PStr "0", "off"); (PStr "1", "on")] |} ]).
Proof.
  rewrite (select_setup_adds_available_selects select_types0 "AC2889/10"
             [["uil"]; ["ddp#1"; "uil"]]); [reflexivity | discriminate].
Defined.

Lemma filtered_selects_ac4220 available types :
  (exists select, select ∈ types /\ select ∈ available) ->
  filtered_selects "AC4220/12" available types = Raise (NameError "PhilipsApi").
Proof.
  intros (select & Hin & Havail).
  induction types as [|s rest IH]; [apply elem_of_nil in Hin; destruct Hin|].
  cbn [filtered_selects]. destruct (decide (s ∈ available)) as [_|Hn]; [reflexivity|].
  apply IH. apply elem_of_cons in Hin as [->|Hin]; [contradiction | exact Hin].
Qed.

(** For the model AC4220/12, as soon as one select of [SELECT_TYPES] is
    available for the model, the platform setup raises NameError, because
    it reads [PhilipsApi], and hands no entity to [async_add_entities];
    when no select is available it adds an empty list. *)
Theorem select_setup_ac4220_raises_name_error SELECT_TYPES mro :
  ((exists select, select ∈ map fst SELECT_TYPES /\ select ∈ concat mro) ->
   async_setup_entry SELECT_TYPES "AC4220/12" (Some mro)
   = Raise (NameError "PhilipsApi"))
  /\ ((forall select, select ∈ map fst SELECT_TYPES -> select ∉ concat mro) ->
      async_setup_entry SELECT_TYPES "AC4220/12" (Some mro) = Ok (Some [])).
Proof.
  unfold async_setup_entry. cbv zeta. split.
  - intros (select & Hin & Havail).
    rewrite filtered_selects_ac4220; [reflexivity|].
    exists select. split; [exact Hin|].
    rewrite unique_selects_remove_dups. apply elem_of_remove_dups. exact Havail.
  - intros Hnone.
    assert (forall types,
              (forall select, select ∈ types -> select ∉ concat mro) ->
              filtered_selects "AC4220/12" (unique_selects (concat mro)) types
              = Ok []) as Hloop.
    { induction types as [|s rest IH]; intros Hn; [reflexivity|].
      cbn [filtered_selects].
      destruct (decide (s ∈ unique_selects (concat mro))) as [Hin|_].
      - exfalso. apply (Hn s); [left|].
        rewrite unique_selects_remove_dups, elem_of_remove_dups in Hin.
        exact Hin.
      - apply IH. intros select Hsel. apply Hn. right. exact Hsel. }
    rewrite (Hloop _ Hnone). reflexivity.
Qed.

Lemma select_setup_ac4220_raises_name_error_witness :
  async_setup_entry select_types0 "AC4220/12" (Some [["uil"]; ["ddp#1"; "uil"]])
  = Raise (NameError "PhilipsApi")
  /\ async_setup_entry select_types0 "AC4220/12" (Some [["other"]]) = Ok (Some []).
Proof.
  split.
  - apply (proj1 (select_setup_ac4220_raises_name_error select_types0
                    [["uil"]; ["ddp#1"; "uil"]])).
    exists "uil". split; [right; left | left].
  - apply (proj2 (select_setup_ac4220_raises_name_error select_types0 [["other"]])).
    intros select Hin Hother.
    cbn [concat app] in Hother.
    apply elem_of_cons in Hother as [->|Hother];
      [|apply elem_of_nil in Hother; destruct Hother].
    repeat (apply elem_of_cons in Hin as [Hin|Hin]; [discriminate|]).
    apply elem_of_nil in Hin. exact Hin.
Defined.

Lemma next_option_key_lookup options opt key :
  next_option_key options opt = Ok key ->
  exists i, options !! i = Some (key, opt).
Proof.
  induction options as [|[k l] rest IH]; [discriminate|].
  cbn [next_option_key]. destruct (String.eqb_spec l opt) as [->|Hne].
  - intros [= ->]. exists 0%nat. reflexivity.
  - intros H. destruct (IH H) as [i Hi]. exists (S i). exact Hi.
Qed.

Lemma next_option_key_raises options opt e :
  next_option_key options opt = Raise e -> e = RuntimeError.
Proof.
  induction options as [|[k l] rest IH]; cbn [next_option_key].
  - intros [= <-]. reflexivity.
  - destruct (String.eqb l opt); [discriminate | exact IH].
Qed.

Lemma key_eqb_refl v : hashable v = true -> key_eqb v v = true.
Proof.
  induction v as [ | b | z | s | l IH | l IH | l IH | d IH ]
    using DiagnosticsFacts.pyval_nested_ind; cbn [hashable key_eqb];
    try discriminate; intros Hh.
  - reflexivity.
  - destruct b; reflexivity.
  - apply Z.eqb_refl.
  - apply String.eqb_refl.
  - induction IH as [|x l Hx _ IHl]; [reflexivity|].
    cbn [forallb] in Hh. apply andb_prop in Hh as [Hhx Hhl].
    rewrite (Hx Hhx). cbn [andb]. apply IHl. exact Hhl.
Qed.

Lemma is_dict_tail entry options : is_dict (entry :: options) -> is_dict options.
Proof.
  intros [Hhash Huniq]. split.
  - inversion Hhash; assumption.
  - intros i j ki li kj lj Hi Hj Heq.
    assert (S i = S j) as E by (eapply Huniq; [exact Hi | exact Hj | exact Heq]).
    congruence.
Qed.

(** In a dict, the key found for a label leads back to that label. *)
Lemma options_get_next_option_key options opt key :
  is_dict options ->
  next_option_key options opt = Ok key ->
  options_get options key = Some opt.
Proof.
  induction options as [|[k l] rest IH]; [discriminate|].
  intros Hdict. cbn [next_option_key options_get].
  destruct (String.eqb_spec l opt) as [->|Hne].
  - intros [= ->]. rewrite key_eqb_refl; [reflexivity|].
    destruct Hdict as [Hhash _]. inversion Hhash; assumption.
  - intros Hkey. destruct (key_eqb k key) eqn:Heq.
    + exfalso. destruct (next_option_key_lookup rest opt key Hkey) as [j Hj].
      destruct Hdict as [_ Huniq].
      assert (0%nat = S j) as E
        by (eapply (Huniq 0%nat (S j)); [reflexivity | exact Hj | exact Heq]).
      discriminate.
    + apply IH; [eapply is_dict_tail; exact Hdict | exact Hkey].
Qed.

Lemma next_option_key_hashable options opt key :
  is_dict options -> next_option_key options opt = Ok key -> hashable key = true.
Proof.
  intros [Hhash _] Hkey.
  destruct (next_option_key_lookup options opt key Hkey) as [i Hi].
  rewrite Forall_forall in Hhash.
  apply (Hhash (key, opt)). apply list_elem_of_lookup. exists i. exact Hi.
Qed.

(** Selecting a valid option and reading [current_option] back: when the
    write returns, the entity shows the selected option; when the write
    raises, it shows what it showed before. *)
Theorem select_then_current_option self opt key net w :
  opt <> "" ->
  is_dict (_options self) ->
  next_option_key (_options self) opt = Ok key ->
  current_option self (status (snd (async_select_option self (Some opt) net w)))
  = match net with
    | Ok _ => Ok opt
    | Raise _ => current_option self (status w)
    end.
Proof.
  intros Hne Hdict Hkey.
  rewrite (SelectFacts.async_select_option_run self opt key net w Hne Hkey).
  destruct net as [[]|e]; [|reflexivity].
  unfold current_option. cbn [status]. rewrite lookup_insert_eq.
  cbn [from_option id].
  rewrite (next_option_key_hashable _ _ _ Hdict Hkey).
  rewrite (options_get_next_option_key _ _ _ Hdict Hkey). reflexivity.
Qed.

Lemma preferred_index_is_dict : is_dict (_options preferred_index).
Proof.
  split.
  - repeat constructor.
  - intros [|[|i]] [|[|j]] ki li kj lj Hi Hj Heq; cbn in Hi, Hj;
      try discriminate; try reflexivity;
      injection Hi as <- <-; injection Hj as <- <-; discriminate.
Defined.

Lemma select_then_current_option_witness :
  current_option preferred_index
    (status (snd (async_select_option preferred_index (Some "pm25") (Ok tt) world0)))
  = Ok "pm25".
Proof.
  apply (select_then_current_option preferred_index "pm25" (PStr "1") (Ok tt) world0).
  - discriminate.
  - exact preferred_index_is_dict.
  - reflexivity.
Defined.

(** An option that is [None], empty or no label of the entity: no control
    write is issued and the cache is left as it is; [None] and the empty
    option return, an unknown option raises RuntimeError (the StopIteration
    of [next] inside the coroutine), which the two [except] clauses do not
    catch. *)
Theorem select_invalid_option_writes_nothing self option net w :
  match option with
  | Some opt => opt = "" \/ forall key, next_option_key (_options self) opt <> Ok key
  | None => True
  end ->
  async_select_option self option net w
  = (match option with
     | Some (String _ _) => Raise RuntimeError
     | _ => Ok tt
     end, w).
Proof.
  destruct option as [opt|]; [|reflexivity].
  destruct opt as [|a opt']; [reflexivity|].
  intros [Hempty|Hunknown]; [discriminate|].
  unfold async_select_option. cbn [String.length Nat.eqb].
  unfold try_except, bind, lift_result.
  destruct (next_option_key (_options self) (String a opt')) as [key|e] eqn:Hkey.
  - exfalso. apply (Hunknown key). reflexivity.
  - rewrite (next_option_key_raises _ _ _ Hkey). reflexivity.
Qed.

Lemma select_invalid_option_writes_nothing_witness :
  async_select_option preferred_index (Some "turbo") (Ok tt) world0
  = (Raise RuntimeError, world0).
Proof.
  apply (select_invalid_option_writes_nothing preferred_index (Some "turbo")).
  right. intros key. discriminate.
Defined.

End SelectPlatformFacts.

(** ** sensor.py: the attributes and the icon of a filter sensor *)

Module SensorAttributesFacts.

Import Sensor SensorAttributes.

Lemma last_char_app s t c : last_char t = Some c -> last_char (s ++ t) = Some c.
Proof.
  intros Ht. induction s as [|a s IH]; [exact Ht|].
  change (last_char (String a (s ++ t)) = Some c).
  destruct (s ++ t) as [|b r] eqn:E.
  - cbn in IH. discriminate.
  - exact IH.
Qed.

Lemma time_remaining_ends_with_g hours :
  0 < hours ->
  last_char (_format_filter_time_remaining hours)
  = last_char "remaining".
Proof.
  intros Hpos. unfold _format_filter_time_remaining. cbv zeta.
  destruct (Z.leb_spec hours 0); [lia|].
  repeat match goal with
         | |- context [if ?b then _ else _] => destruct b
         end;
    first [ reflexivity | repeat (apply last_char_app); reflexivity ].
Qed.

(** The remaining time reads "Replace immediately" exactly when no hour is
    left; and from one week on it is given in whole days, the hours of the
    last day left out. *)
Theorem time_remaining_text hours :
  (hours <= 0 <-> _format_filter_time_remaining hours = "Replace immediately")
  /\ (168 <= hours ->
      _format_filter_time_remaining hours
      = _format_filter_time_remaining (24 * (hours / 24))).
Proof.
  split; [split|].
  - intros Hle. unfold _format_filter_time_remaining.
    destruct (Z.leb_spec hours 0); [reflexivity | lia].
  - intros Htext. destruct (Z.le_gt_cases hours 0) as [Hle|Hgt]; [exact Hle|].
    pose proof (time_remaining_ends_with_g hours Hgt) as Hlast.
    rewrite Htext in Hlast. discriminate.
  - intros Hweek.
    assert (7 <= hours / 24) as Hdays by (apply Z.div_le_lower_bound; lia).
    assert (24 * (hours / 24) / 24 = hours / 24) as Hsame
      by (rewrite Z.mul_comm; apply Z.div_mul; lia).
    unfold _format_filter_time_remaining. cbv zeta. rewrite Hsame.
    destruct (Z.leb_spec hours 0); [lia|].
    destruct (Z.leb_spec (24 * (hours / 24)) 0); [lia|].
    destruct (365 <=? hours / 24); [reflexivity|].
    destruct (30 <=? hours / 24); [reflexivity|].
    destruct (Z.leb_spec 7 (hours / 24)); [reflexivity | lia].
Qed.

Lemma time_remaining_text_witness :
  _format_filter_time_remaining 191 = _format_filter_time_remaining 168.
Proof.
  apply (proj2 (time_remaining_text 191)). lia.
Defined.

(** For a filter sensor whose value and total are ints in the status, the
    value with its hundredfold below 2^52 and the total below 2^53: with a
    total that is not zero, the attributes are returned, their percentage
    is the state of the sensor followed by the percent sign, that state
    being the integer nearest to [100 * value / total], and the
    recommendation is the one of that percentage, by the levels 5, 15 and
    30; with a total of zero the attributes raise ZeroDivisionError. *)
Theorem attributes_percentage_is_native_value self type_key st v t :
  st !! _value_key self = Some (PInt v) ->
  st !! _total_key self = Some (PInt t) ->
  Z.abs (100 * v) < 2 ^ 52 ->
  Z.abs t < 2 ^ 53 ->
  (t = 0 -> extra_state_attributes self type_key st = Raise ZeroDivisionError)
  /\ (t <> 0 ->
      exists percentage attrs,
        native_value self st = Ok (PInt percentage)
        /\ Z.abs (2 * (percentage * t - 100 * v)) <= Z.abs t
        /\ (Z.abs (2 * (percentage * t - 100 * v)) = Z.abs t ->
            Z.even percentage = true)
        /\ extra_state_attributes self type_key st = Ok attrs
        /\ dict_get attrs "Filter Life Percentage"
           = Some (PStr (str_of_Z percentage ++ "%"))
        /\ dict_get attrs "Replacement Status"
           = Some (PStr (if percentage <=? 5 then "Replace immediately"
                         else if percentage <=? 15 then "Replace soon"
                         else if percentage <=? 30 then "Monitor closely"
                         else "Good condition"))).
Proof.
  intros Hv Ht Hsmall Htotal.
  rewrite (SensorFacts.native_value_with_total self st v t Hv Ht).
  unfold extra_state_attributes, _has_total, contains, _total, _value, getitem.
  rewrite Hv, Ht. cbv zeta.
  destruct (SensorFacts.nearest_percentage v t Hsmall Htotal)
    as (scaled & Hscaled & Hzero & Hvalue).
  split.
  - intros H0. specialize (Hzero H0).
    destruct (st !! type_key) as [filter_type|]; cbn [rbind number];
      rewrite Hscaled; cbn [rbind]; rewrite Hzero; reflexivity.
  - intros Hne. destruct (Hvalue Hne) as (percentage & Hp & Hnear & Heven).
    exists percentage. rewrite Hscaled. cbn [rbind]. rewrite Hp. cbn [rbind].
    destruct (st !! type_key) as [filter_type|]; cbn [rbind number];
      rewrite Hscaled; cbn [rbind]; rewrite Hp; cbn [rbind];
      eexists; (split; [reflexivity|]); (split; [exact Hnear|]);
      (split; [exact Heven|]); (split; [reflexivity|]);
      split;
      first [ apply PyFacts.dict_get_set_other; discriminate
            | apply PyFacts.dict_get_set ].
Qed.

Lemma attributes_percentage_is_native_value_witness :
  extra_state_attributes hepa "flttype1" status_zero_total = Raise ZeroDivisionError
  /\ exists attrs,
       extra_state_attributes hepa "flttype1" status_half_used = Ok attrs
       /\ dict_get attrs "Filter Life Percentage" = Some (PStr "50%")
       /\ dict_get attrs "Replacement Status" = Some (PStr "Good condition").
Proof.
  split.
  - apply (attributes_percentage_is_native_value hepa "flttype1"
             status_zero_total 0 0); reflexivity.
  - destruct (attributes_percentage_is_native_value hepa "flttype1"
                status_half_used 2400 4800 eq_refl eq_refl eq_refl eq_refl)
      as [_ H].
    destruct H as (p & attrs & _ & Hnear & _ & Ha & H1 & H2); [discriminate|].
    assert (p = 50) as -> by lia.
    exists attrs. repeat split; assumption.
Defined.

Lemma icon_loop_below icon items value :
  Forall (fun item => value < fst item) items ->
  icon_loop icon items value = icon.
Proof.
  intros Hall. revert icon. induction Hall as [|[level ic] items Hlt _ IH]; intros icon.
  - reflexivity.
  - cbn [icon_loop]. cbn [fst] in Hlt.
    destruct (Z.leb_spec level value); [lia | apply IH].
Qed.

Lemma icon_loop_last icon before level ic after value :
  level <= value ->
  Forall (fun item => value < fst item) after ->
  icon_loop icon (before ++ (level, ic) :: after) value = ic.
Proof.
  intros Hle Hafter. revert icon.
  induction before as [|[l i] before IH]; intros icon.
  - cbn [app icon_loop]. destruct (Z.leb_spec level value); [|lia].
    apply icon_loop_below. exact Hafter.
  - cbn [app icon_loop]. apply IH.
Qed.

(** For a filter sensor whose value and total are ints in the status, the
    value with its hundredfold below 2^52 and the total below 2^53, and
    whose icon map is not empty: with a total that is not zero, the icon is
    that of the last item of the map whose level the percentage reaches,
    and that of the first item when the percentage is below every level,
    the percentage being the integer nearest to [100 * value / total];
    with a total of zero the icon raises ZeroDivisionError. *)
Theorem filter_icon_is_last_level_reached self first rest st v t :
  st !! _value_key self = Some (PInt v) ->
  st !! _total_key self = Some (PInt t) ->
  Z.abs (100 * v) < 2 ^ 52 ->
  Z.abs t < 2 ^ 53 ->
  (t = 0 -> icon self (Some (first :: rest)) st = Raise ZeroDivisionError)
  /\ (t <> 0 ->
      exists percentage,
        Z.abs (2 * (percentage * t - 100 * v)) <= Z.abs t
        /\ (Z.abs (2 * (percentage * t - 100 * v)) = Z.abs t ->
            Z.even percentage = true)
        /\ (Forall (fun item => percentage < fst item) (first :: rest) ->
            icon self (Some (first :: rest)) st = Ok (Some (snd first)))
        /\ (forall before level ic after,
              first :: rest = (before ++ (level, ic) :: after)%list ->
              level <= percentage ->
              Forall (fun item => percentage < fst item) after ->
              icon self (Some (first :: rest)) st = Ok (Some ic))).
Proof.
  intros Hv Ht Hsmall Htotal. unfold icon. destruct first as [first_level norm_icon].
  rewrite (SensorFacts.native_value_with_total self st v t Hv Ht).
  destruct (SensorFacts.nearest_percentage v t Hsmall Htotal)
    as (scaled & -> & Hzero & Hvalue).
  cbn [rbind]. split.
  - intros H0. rewrite (Hzero H0). reflexivity.
  - intros Hne. destruct (Hvalue Hne) as (percentage & -> & Hnear & Heven).
    exists percentage. split; [exact Hnear|]. split; [exact Heven|].
    cbn [rbind int_of_native_value snd]. split.
    + intros Hall. rewrite icon_loop_below by exact Hall. reflexivity.
    + intros before level ic after Hitems Hle Hafter.
      rewrite Hitems. rewrite (icon_loop_last _ _ _ _ _ _ Hle Hafter). reflexivity.
Qed.

Lemma filter_icon_is_last_level_reached_witness :
  icon hepa (Some [(0, "mdi:alert"); (16, "mdi:filter-outline"); (31, "mdi:filter")])
    status_half_used
  = Ok (Some "mdi:filter").
Proof.
  destruct (filter_icon_is_last_level_reached hepa (0, "mdi:alert")
              [(16, "mdi:filter-outline"); (31, "mdi:filter")]
              status_half_used 2400 4800 eq_refl eq_refl eq_refl eq_refl)
    as [_ H].
  destruct H as (percentage & Hnear & _ & _ & H); [discriminate|].
  apply (H [(0, "mdi:alert"); (16, "mdi:filter-outline")] 31 "mdi:filter" []).
  - reflexivity.
  - lia.
  - constructor.
Defined.

End SensorAttributesFacts.

(** ** services.py: the handlers and what they write to the device *)

Module ServiceCallsFacts.

Import Integration ServiceCalls.
Import DiagnosticsFacts.
Local Open Scope list_scope.

Section Handlers.
Variable K : Const.
Variable O : Outside.

Lemma read_only_try_except {W A} (body : M W A) handles (handler : exn -> M W A) :
  read_only body -> (forall e, read_only (handler e)) ->
  read_only (try_except body handles handler).
Proof.
  intros Hb Hh w. unfold try_except. specialize (Hb w).
  destruct (body w) as [[a|e] w']; cbn [snd] in *; subst w'; [reflexivity|].
  destruct (handles e); [apply Hh | reflexivity].
Qed.

Lemma read_only_for_each {W A} (xs : list A) (body : A -> M W unit) :
  (forall x, read_only (body x)) -> read_only (for_each xs body).
Proof.
  intros Hb. induction xs as [|x xs IH]; cbn [for_each].
  - apply read_only_ret.
  - apply read_only_bind; [apply Hb | intros _; exact IH].
Qed.

Lemma read_only_get_config_entry_data entity_id :
  read_only (get_config_entry_data_from_entity_id K O entity_id).
Proof.
  unfold get_config_entry_data_from_entity_id.
  apply read_only_bind; [apply read_only_reads | intros [entity_entry|]];
    [|apply read_only_ret].
  apply read_only_if; [apply read_only_ret|].
  apply read_only_bind; [apply read_only_reads | intros [config_entry|]];
    [|apply read_only_ret].
  apply read_only_if; [apply read_only_ret|].
  intros w. destruct (domain_data (hass w)); reflexivity.
Qed.

Lemma read_only_for_each_entity entity_ids implementation :
  (forall d, read_only (implementation d)) ->
  read_only (for_each_entity K O entity_ids implementation).
Proof.
  intros Himpl. unfold for_each_entity. apply read_only_for_each. intros entity_id.
  apply read_only_bind; [apply read_only_get_config_entry_data | intros [d|]];
    [|apply read_only_ret].
  apply read_only_try_except; [apply Himpl | intros e; apply read_only_raise].
Qed.

(** The timer, device-reset and calibration services send nothing to a
    device and change nothing in the instance, whatever the call: after
    each of the three handlers the instance and the list of control writes
    are what they were. *)
Theorem timer_reset_calibrate_write_nothing entity_ids w :
  (forall duration_hours action_after_timer,
     snd (async_set_timer K O entity_ids duration_hours action_after_timer w) = w)
  /\ (forall reset_type confirm_reset,
        snd (async_reset_device K O entity_ids reset_type confirm_reset w) = w)
  /\ (forall sensor_type calibration_mode reference_value,
        snd (async_calibrate_sensors K O entity_ids sensor_type calibration_mode
               reference_value w) = w).
Proof.
  split; [|split].
  - intros duration action. apply read_only_for_each_entity. intros d.
    unfold _set_timer, lift_result. intros w0. unfold bind.
    destruct (Float.int_of_float _); [|reflexivity].
    destruct (_ =? 0); reflexivity.
  - intros reset_type confirm. unfold async_reset_device.
    apply read_only_if; [apply read_only_raise|].
    apply read_only_for_each_entity. intros d. apply read_only_ret.
  - intros sensor_type mode reference. unfold async_calibrate_sensors.
    apply read_only_if; [apply read_only_raise|].
    apply read_only_for_each_entity. intros d. unfold _calibrate_sensors.
    repeat apply read_only_if;
      first [apply read_only_ret | apply read_only_raise].
Qed.

Lemma ordered_int_number {W} v (w : W) : ordered_int v w = (Sensor.number v, w).
Proof. destruct v; reflexivity. Qed.

Lemma resets_to_total_weaken config_entry_data filters filters' write :
  (forall keys, In keys filters -> In keys filters') ->
  resets_to_total config_entry_data filters write ->
  resets_to_total config_entry_data filters' write.
Proof.
  intros Hsub. destruct write as [[c key] value].
  intros (Hc & total_key & d & t & Hin & Hrest).
  split; [exact Hc|]. exists total_key, d, t. split; [apply Hsub; exact Hin | exact Hrest].
Qed.

Lemma reset_filter_run config_entry_data status_key total_key w :
  reset_filter O config_entry_data (status_key, total_key) w
  = match status (coordinator config_entry_data) with
    | PDict d =>
        match Sensor.number (dict_get_default d total_key (PInt 0)) with
        | Ok t =>
            if 0 <? t then
              match client (coordinator config_entry_data) with
              | Some c =>
                  (net O status_key (dict_get_default d total_key (PInt 0)),
                   {| hass := hass w;
                      written := written w
                                 ++ [(c, status_key,
                                      dict_get_default d total_key (PInt 0))] |})
              | None => (Raise AttributeError, w)
              end
            else (Ok tt, w)
        | Raise e => (Raise e, w)
        end
    | _ => (Raise AttributeError, w)
    end.
Proof.
  unfold reset_filter, bind, mapping.
  destruct (status (coordinator config_entry_data)); try reflexivity.
  unfold ret at 1. rewrite ordered_int_number.
  destruct (Sensor.number _) as [t|e]; [|reflexivity].
  destruct (0 <? t); [|reflexivity].
  unfold set_control_value.
  destruct (client (coordinator config_entry_data)); reflexivity.
Qed.

Lemma world_eta (w : World) : w = {| hass := hass w; written := written w ++ [] |}.
Proof. destruct w as [h wr]. cbn. rewrite app_nil_r. reflexivity. Qed.

Lemma reset_filter_step config_entry_data status_key total_key w :
  let r := reset_filter O config_entry_data (status_key, total_key) w in
  exists ws,
    snd r = {| hass := hass w; written := written w ++ ws |}
    /\ Forall (resets_to_total config_entry_data [(status_key, total_key)]) ws
    /\ (fst r = Ok tt ->
        forall c d v t,
          client (coordinator config_entry_data) = Some c ->
          status (coordinator config_entry_data) = PDict d ->
          dict_get d total_key = Some v ->
          Sensor.number v = Ok t -> 0 < t ->
          In (c, status_key, v) ws).
Proof.
  cbv zeta. rewrite reset_filter_run.
  destruct (status (coordinator config_entry_data)) as [ | | | | | | |d] eqn:Hstatus;
    try (exists []; cbn [fst snd]; split; [apply world_eta|];
         split; [apply Forall_nil_2 | discriminate]).
  destruct (Sensor.number (dict_get_default d total_key (PInt 0))) as [t|e] eqn:Ht.
  2:{ exists []. cbn [fst snd]. split; [apply world_eta|].
      split; [apply Forall_nil_2 | discriminate]. }
  destruct (Z.ltb_spec 0 t) as [Hpos|Hle].
  - destruct (client (coordinator config_entry_data)) as [c|] eqn:Hclient.
    + exists [(c, status_key, dict_get_default d total_key (PInt 0))].
      cbn [fst snd]. split; [reflexivity|]. split.
      * apply Forall_cons_2; [|apply Forall_nil_2]. split; [exact Hclient|].
        exists total_key, d, t. split; [left; reflexivity|]. split; [exact Hstatus|].
        split; [|split; assumption].
        unfold dict_get_default in *. destruct (dict_get d total_key); [reflexivity|].
        cbn in Ht. injection Ht as <-. lia.
      * intros _ c' d' v t' Hc' Hd' Hv _ _. left.
        assert (c' = c) as -> by congruence.
        assert (d' = d) as -> by congruence.
        unfold dict_get_default. rewrite Hv. reflexivity.
    + exists []. cbn [fst snd]. split; [apply world_eta|].
      split; [apply Forall_nil_2 | discriminate].
  - exists []. cbn [fst snd]. split; [apply world_eta|].
    split; [apply Forall_nil_2|].
    intros _ c d' v t' _ Hd' Hv Hnum Hpos.
    assert (d' = d) as -> by congruence.
    unfold dict_get_default in Ht. rewrite Hv, Hnum in Ht.
    injection Ht as ->. lia.
Qed.

Lemma reset_filters_loop config_entry_data filters w :
  let r := for_each filters (reset_filter O config_entry_data) w in
  exists ws,
    snd r = {| hass := hass w; written := written w ++ ws |}
    /\ Forall (resets_to_total config_entry_data filters) ws
    /\ (fst r = Ok tt ->
        forall c d status_key total_key v t,
          client (coordinator config_entry_data) = Some c ->
          status (coordinator config_entry_data) = PDict d ->
          In (status_key, total_key) filters ->
          dict_get d total_key = Some v ->
          Sensor.number v = Ok t -> 0 < t ->
          In (c, status_key, v) ws).
Proof.
  cbv zeta. revert w. induction filters as [|[sk tk] filters IH]; intros w.
  - exists []. cbn. destruct w as [h wr]. cbn. rewrite app_nil_r.
    split; [reflexivity|]. split; [constructor|]. intros _ ? ? ? ? ? ? _ _ [].
  - cbn [for_each]. unfold bind.
    destruct (reset_filter_step config_entry_data sk tk w) as (ws1 & Hw1 & Hgood1 & Hall1).
    destruct (reset_filter O config_entry_data (sk, tk) w) as [[[]|e] w1];
      cbn [fst snd] in *; subst w1.
    + destruct (IH {| hass := hass w; written := written w ++ ws1 |})
        as (ws2 & Hw2 & Hgood2 & Hall2).
      exists (ws1 ++ ws2). rewrite Hw2. cbn [hass written]. rewrite <- app_assoc.
      split; [reflexivity|]. split.
      * apply Forall_app. split.
        -- eapply Forall_impl; [exact Hgood1|]. intros write.
           apply resets_to_total_weaken. intros keys [<-|[]]. left. reflexivity.
        -- eapply Forall_impl; [exact Hgood2|]. intros write.
           apply resets_to_total_weaken. intros keys Hin. right. exact Hin.
      * intros Hok c d status_key total_key v t Hc Hd Hin Hv Hnum Hpos.
        apply in_or_app. destruct Hin as [[= <- <-]|Hin].
        -- left. eapply (Hall1 eq_refl); eassumption.
        -- right. eapply (Hall2 Hok); eassumption.
    + exists ws1. split; [reflexivity|]. split; [|discriminate].
      eapply Forall_impl; [exact Hgood1|]. intros write.
      apply resets_to_total_weaken. intros keys [<-|[]]. left. reflexivity.
Qed.

(** Whatever the status and the answers of the device, the filter reset
    changes nothing in the instance and writes nothing but positive total
    capacities of the cached status, each under the status key of its
    filter; when the reset of all filters returns, every filter with a
    positive total has been written; and a filter type that is neither
    "all" nor one of the four raises ServiceValidationError before any
    write. *)
Theorem filter_reset_writes_positive_totals config_entry_data filter_type
    reset_maintenance w :
  let r := _reset_filter_counters O config_entry_data filter_type
             reset_maintenance w in
  (exists ws,
     snd r = {| hass := hass w; written := written w ++ ws |}
     /\ Forall (resets_to_total config_entry_data (map snd filter_mappings)) ws
     /\ (fst r = Ok tt -> filter_type = "all" ->
         forall c d status_key total_key v t,
           client (coordinator config_entry_data) = Some c ->
           status (coordinator config_entry_data) = PDict d ->
           In (status_key, total_key) (map snd filter_mappings) ->
           dict_get d total_key = Some v ->
           Sensor.number v = Ok t -> 0 < t ->
           In (c, status_key, v) ws))
  /\ (filter_type <> "all" ->
      filter_mapping filter_mappings filter_type = None ->
      r = (Raise ServiceValidationError, w)).
Proof.
  cbv zeta. unfold _reset_filter_counters. split.
  - destruct (String.eqb_spec filter_type "all") as [->|Hne].
    + unfold bind at 1, ret at 1.
      destruct (reset_filters_loop config_entry_data (map snd filter_mappings) w)
        as (ws & Hw & Hgood & Hall).
      exists ws. split; [exact Hw|]. split; [exact Hgood|].
      intros Hok _. exact (Hall Hok).
    + destruct (filter_mapping filter_mappings filter_type) as [keys|] eqn:Hmap.
      * unfold bind at 1, ret at 1.
        destruct (reset_filters_loop config_entry_data [keys] w)
          as (ws & Hw & Hgood & _).
        exists ws. split; [exact Hw|]. split; [|intros _ E; contradiction].
        eapply Forall_impl; [exact Hgood|]. intros write.
        apply resets_to_total_weaken. intros keys' [<-|[]].
        clear -Hmap. revert Hmap. unfold filter_mappings.
        cbn [filter_mapping map snd].
        repeat (destruct (String.eqb _ filter_type);
                [intros [= <-]; cbn; tauto|]).
        discriminate.
      * exists []. unfold bind, raise. cbn [fst snd].
        destruct w as [h wr]. cbn. rewrite app_nil_r.
        split; [reflexivity|]. split; [constructor | discriminate].
  - intros Hne Hnone. destruct (String.eqb_spec filter_type "all"); [contradiction|].
    rewrite Hnone. reflexivity.
Qed.

(** For a brightness level of 0 to 100 the display service makes exactly
    one control write, of the decimal string of the level scaled to 255 and
    cut to an integer, which lies between 0 and 255; and what the device
    answers to that write is the outcome. *)
Theorem display_brightness_scaled_to_255 config_entry_data c brightness_level
    auto_dim night_mode w :
  client (coordinator config_entry_data) = Some c ->
  0 <= brightness_level <= 100 ->
  let level := device_brightness brightness_level in
  _set_display_brightness O config_entry_data brightness_level auto_dim night_mode w
  = (net O (DISPLAY_BACKLIGHT O) (PStr (Sensor.str_of_Z level)),
     {| hass := hass w;
        written := written w
                   ++ [(c, DISPLAY_BACKLIGHT O, PStr (Sensor.str_of_Z level))] |})
  /\ 0 <= level <= 255
  /\ 100 * level <= 255 * brightness_level < 100 * (level + 1).
Proof.
  intros Hc Hrange. cbv zeta.
  unfold _set_display_brightness, set_control_value. rewrite Hc.
  split; [reflexivity|].
  unfold device_brightness. rewrite Z.quot_div_nonneg by lia.
  pose proof (Z.div_mod (brightness_level * 255) 100 ltac:(lia)) as Hdm.
  pose proof (Z.mod_pos_bound (brightness_level * 255) 100 ltac:(lia)) as Hmod.
  split; lia.
Qed.

Lemma get_config_entry_data_errors entity_id w :
  (exists found, fst (get_config_entry_data_from_entity_id K O entity_id w) = Ok found)
  \/ fst (get_config_entry_data_from_entity_id K O entity_id w)
     = Raise (KeyError (DOMAIN K)).
Proof.
  unfold get_config_entry_data_from_entity_id, bind, reads, ret.
  destruct (find _ _) as [entity_entry|]; [|left; eexists; reflexivity].
  destruct (String.eqb _ ""); [left; eexists; reflexivity|].
  destruct (config_entries (hass w) !! _) as [config_entry|];
    [|left; eexists; reflexivity].
  destruct (negb _); [left; eexists; reflexivity|].
  destruct (domain_data (hass w)); [left; eexists; reflexivity | right; reflexivity].
Qed.

Lemma for_each_outcome {W A} (P : result unit -> Prop) (xs : list A)
    (body : A -> M W unit) :
  P (Ok tt) ->
  (forall x w, P (fst (body x w))) ->
  forall w, P (fst (for_each xs body w)).
Proof.
  intros Hok Hbody. induction xs as [|x xs IH]; intros w; [exact Hok|].
  cbn [for_each]. unfold bind. specialize (Hbody x w).
  destruct (body x w) as [[[]|e] w']; cbn [fst] in *; [apply IH | exact Hbody].
Qed.

(** Whatever an implementation raises for an entity leaves the handler as
    HomeAssistantError: a handler returns, raises HomeAssistantError, or
    raises the KeyError of [hass.data[DOMAIN]]. *)
Lemma for_each_entity_errors entity_ids implementation w :
  let r := fst (for_each_entity K O entity_ids implementation w) in
  r = Ok tt \/ r = Raise HomeAssistantError \/ r = Raise (KeyError (DOMAIN K)).
Proof.
  cbv zeta. unfold for_each_entity.
  apply (for_each_outcome
           (fun r => r = Ok tt \/ r = Raise HomeAssistantError
                     \/ r = Raise (KeyError (DOMAIN K)))).
  - left. reflexivity.
  - clear w. intros entity_id w. unfold bind.
    destruct (get_config_entry_data_errors entity_id w) as [[found Hf]|Hf];
      destruct (get_config_entry_data_from_entity_id K O entity_id w) as [[d|e] w1];
      cbn [fst] in Hf; try discriminate.
    + destruct d as [d|]; [|left; reflexivity].
      unfold try_except. destruct (implementation d w1) as [[[]|e] w2].
      * left. reflexivity.
      * right. left. reflexivity.
    + injection Hf as ->. right. right. reflexivity.
Qed.

(** Whatever the implementation raises for an entity leaves the three
    writing handlers as HomeAssistantError: each of them returns, raises
    HomeAssistantError, or raises the KeyError of [hass.data[DOMAIN]]. *)
Theorem handlers_raise_home_assistant_error entity_ids w :
  let outcome (r : result unit) :=
    r = Ok tt \/ r = Raise HomeAssistantError \/ r = Raise (KeyError (DOMAIN K)) in
  (forall filter_type reset_maintenance,
     outcome (fst (async_filter_reset K O entity_ids filter_type reset_maintenance w)))
  /\ (forall brightness_level auto_dim night_mode,
        outcome (fst (async_set_display_brightness K O entity_ids brightness_level
                        auto_dim night_mode w)))
  /\ (forall enabled,
        outcome (fst (async_set_child_lock K O entity_ids enabled w))).
Proof.
  cbv zeta. repeat split; intros; apply for_each_entity_errors.
Qed.

End Handlers.

Lemma filter_reset_writes_positive_totals_witness :
  _reset_filter_counters outside0 bedroom "carbon" true world0
  = (Raise ServiceValidationError, world0)
  /\ written (snd (_reset_filter_counters outside0 bedroom "all" true world0))
     = [("client1", "fltsts0", PInt 360); ("client1", "fltsts1", PInt 4800)].
Proof.
  split.
  - apply (proj2 (filter_reset_writes_positive_totals outside0 bedroom "carbon"
                    true world0)); [discriminate | reflexivity].
  - reflexivity.
Defined.

Lemma display_brightness_scaled_to_255_witness :
  written (snd (_set_display_brightness outside0 bedroom 50 false false world0))
  = [("client1", "uil", PStr "127")].
Proof.
  destruct (display_brightness_scaled_to_255 outside0 bedroom "client1" 50
              false false world0 eq_refl ltac:(lia)) as [-> _].
  reflexivity.
Defined.

End ServiceCallsFacts.

(** ** repairs.py: the health check *)

Module RepairsFacts.

Import Integration Repairs.
Import Float.
Local Open Scope list_scope.

(** The test of the health check on small ints is exact: the float
    [(remaining / total) * 100] is at most 15 exactly when
    [100 * remaining <= 15 * total]. *)
Lemma at_most_15_percent_exact r t :
  Z.abs r < 2 ^ 52 -> 0 < t < 2 ^ 52 ->
  at_most_15_percent r t = Ok (100 * r <=? 15 * t).
Proof.
  intros Hr Ht. unfold at_most_15_percent, int_truediv.
  destruct (Z.eqb_spec t 0) as [H0|_]; [lia|].
  rewrite Z.sgn_pos, Z.abs_eq, Z.mul_1_r by lia.
  destruct (FloatFacts.py_round_quotient r t Hr ltac:(lia)) as (q & Hq & Hround).
  assert (forall m e, float_mul (Finite m e) (Finite 100 0)
                      = round_to_float (num m e * 100) (den e)) as Hmul.
  { intros m e. unfold float_mul.
    replace (num 100 0) with 100 by reflexivity.
    replace (den 0) with 1 by reflexivity.
    rewrite Z.mul_1_r. reflexivity. }
  assert (2 ^ 1074 = 2 ^ 55 * 2 ^ 1019) as HB
    by (rewrite <- Z.pow_add_r by lia; reflexivity).
  assert (2 ^ 1025 = 2 ^ 6 * 2 ^ 1019) as HC
    by (rewrite <- Z.pow_add_r by lia; reflexivity).
  assert (0 < 2 ^ 1019) as HP by (apply Z.pow_pos_nonneg; lia).
  destruct (Z.le_gt_cases r 0) as [Hneg|Hpos].
  - destruct (FloatFacts.round_to_float_nonpositive r t 15 Hneg ltac:(lia) ltac:(lia))
      as [_ Hsign].
    rewrite Hq in *. destruct q as [m e|negative|]; [|discriminate..].
    cbn [Sensor.rbind]. rewrite (Hmul m e). f_equal.
    destruct (FloatFacts.round_to_float_nonpositive (num m e * 100) (den e) 15) as [-> _].
    + unfold num. assert (0 < 2 ^ Z.max e 0) by (apply Z.pow_pos_nonneg; lia).
      nia.
    + apply FloatFacts.den_pos.
    + lia.
    + symmetry. apply Z.leb_le. lia.
  - destruct (Z.leb_spec (100 * r) (15 * t)) as [Hlow|Hhigh].
    + destruct (FloatFacts.round_to_float_at_most r t 5404319552844595 1019)
        as (m & E & Hrun & HE & Hm0 & Hle); [lia | lia | lia | lia | |].
      { rewrite HB. set (P := 2 ^ 1019) in *. clearbody P.
        cbn [Z.pow Pos.pow Pos.iter Pos.mul] in *. nia. }
      rewrite Hrun. cbn [Sensor.rbind]. rewrite Hmul. f_equal.
      destruct (Z.eq_dec m 0) as [->|Hnz].
      * destruct (FloatFacts.round_to_float_nonpositive (num 0 (E - 1074) * 100)
                    (den (E - 1074)) 15) as [-> _];
          [unfold num; lia | apply FloatFacts.den_pos | lia | reflexivity].
      * destruct (FloatFacts.round_to_float_at_most (num m (E - 1074) * 100)
                    (den (E - 1074)) 8444249301319680 1025)
          as (m' & E' & Hrun' & HE' & Hm0' & Hle').
        -- unfold num. assert (0 < 2 ^ Z.max (E - 1074) 0)
             by (apply Z.pow_pos_nonneg; lia). nia.
        -- apply FloatFacts.den_pos.
        -- lia.
        -- lia.
        -- replace (num m (E - 1074) * 100 * 2 ^ 1074)
             with (100 * (num m (E - 1074) * 2 ^ 1074)) by ring.
           rewrite FloatFacts.num_on_grid by exact HE. rewrite HC.
           pose proof (FloatFacts.den_pos (E - 1074)) as Hden.
           set (D := den (E - 1074)) in *. set (V := m * 2 ^ E) in *.
           set (P := 2 ^ 1019) in *. clearbody D V P.
           cbn [Z.pow Pos.pow Pos.iter Pos.mul] in *. nia.
        -- rewrite Hrun', FloatFacts.float_le_int_on_grid by exact HE'.
           apply Z.leb_le. rewrite HB.
           eapply Z.le_trans; [exact Hle'|]. rewrite HC.
           apply Z.eq_le_incl. ring.
    + pose proof (FloatFacts.round_to_float_at_least r t 5404319552844596 1019) as Hq1.
      rewrite Hq in Hq1 |- *. destruct q as [m e|negative|]; [|discriminate..].
      destruct Hq1 as (E & -> & HE & Hge); [lia | lia | lia | lia | |].
      { rewrite HB. set (P := 2 ^ 1019) in *. clearbody P.
        cbn [Z.pow Pos.pow Pos.iter Pos.mul] in *. nia. }
      cbn [Sensor.rbind]. rewrite Hmul. f_equal.
      assert (0 < 2 ^ E) as HpE by (apply Z.pow_pos_nonneg; lia).
      assert (0 < m) as Hm by nia.
      pose proof (FloatFacts.round_to_float_at_least (num m (E - 1074) * 100)
                    (den (E - 1074)) 8444249301319681 1025) as Hp1.
      destruct (round_to_float (num m (E - 1074) * 100) (den (E - 1074)))
        as [m' e'|negative|].
      * destruct Hp1 as (E' & -> & HE' & Hge').
        -- unfold num. assert (0 < 2 ^ Z.max (E - 1074) 0)
             by (apply Z.pow_pos_nonneg; lia). nia.
        -- apply FloatFacts.den_pos.
        -- lia.
        -- lia.
        -- replace (num m (E - 1074) * 100 * 2 ^ 1074)
             with (100 * (num m (E - 1074) * 2 ^ 1074)) by ring.
           rewrite FloatFacts.num_on_grid by exact HE. rewrite HC.
           pose proof (FloatFacts.den_pos (E - 1074)) as Hden.
           set (D := den (E - 1074)) in *. set (V := m * 2 ^ E) in *.
           set (P := 2 ^ 1019) in *. clearbody D V P.
           cbn [Z.pow Pos.pow Pos.iter Pos.mul] in *. nia.
        -- rewrite FloatFacts.float_le_int_on_grid by exact HE'.
           apply Z.leb_gt. rewrite HB.
           eapply Z.lt_le_trans; [|exact Hge']. rewrite HC.
           set (P := 2 ^ 1019) in *. clearbody P.
           cbn [Z.pow Pos.pow Pos.iter Pos.mul]. lia.
      * rewrite Hp1; [reflexivity| | | | |].
        -- unfold num. assert (0 < 2 ^ Z.max (E - 1074) 0)
             by (apply Z.pow_pos_nonneg; lia). nia.
        -- apply FloatFacts.den_pos.
        -- lia.
        -- lia.
        -- replace (num m (E - 1074) * 100 * 2 ^ 1074)
             with (100 * (num m (E - 1074) * 2 ^ 1074)) by ring.
           rewrite FloatFacts.num_on_grid by exact HE. rewrite HC.
           pose proof (FloatFacts.den_pos (E - 1074)) as Hden.
           set (D := den (E - 1074)) in *. set (V := m * 2 ^ E) in *.
           set (P := 2 ^ 1019) in *. clearbody D V P.
           cbn [Z.pow Pos.pow Pos.iter Pos.mul] in *. nia.
      * exfalso. apply Hp1.
        -- unfold num. assert (0 < 2 ^ Z.max (E - 1074) 0)
             by (apply Z.pow_pos_nonneg; lia). nia.
        -- apply FloatFacts.den_pos.
        -- lia.
        -- lia.
        -- replace (num m (E - 1074) * 100 * 2 ^ 1074)
             with (100 * (num m (E - 1074) * 2 ^ 1074)) by ring.
           rewrite FloatFacts.num_on_grid by exact HE. rewrite HC.
           pose proof (FloatFacts.den_pos (E - 1074)) as Hden.
           set (D := den (E - 1074)) in *. set (V := m * 2 ^ E) in *.
           set (P := 2 ^ 1019) in *. clearbody D V P.
           cbn [Z.pow Pos.pow Pos.iter Pos.mul] in *. nia.
Qed.

Lemma filter_warning_step {W} d status_key total_key rest (w : W) :
  small_values d status_key total_key ->
  filter_warning_needed (PDict d) ((status_key, total_key) :: rest) w
  = match dict_get d status_key, dict_get d total_key with
    | Some remaining, Some total =>
        match Sensor.number remaining, Sensor.number total with
        | Ok r, Ok t =>
            if (0 <? t) && (100 * r <=? 15 * t) then (Ok true, w)
            else filter_warning_needed (PDict d) rest w
        | _, _ => filter_warning_needed (PDict d) rest w
        end
    | _, _ => filter_warning_needed (PDict d) rest w
    end.
Proof.
  intros Hsmall. cbn [filter_warning_needed].
  unfold bind, py_contains, ret, dict_has.
  destruct (dict_get d status_key) as [remaining|] eqn:Hr; [|reflexivity].
  destruct (dict_get d total_key) as [total|] eqn:Ht; [|reflexivity].
  unfold py_getitem, getitem. rewrite Hr, Ht. unfold ret.
  destruct (Hsmall _ _ Hr Ht) as (r & t & Hnr & Hnt & Hbr & Hbt).
  rewrite !ServiceCallsFacts.ordered_int_number, Hnt, Hnr.
  destruct (Z.ltb_spec 0 t) as [Hpos|Hle]; [|reflexivity]. cbn [andb].
  rewrite ServiceCallsFacts.ordered_int_number, Hnr.
  rewrite (at_most_15_percent_exact r t Hbr) by lia.
  unfold lift_result. destruct (100 * r <=? 15 * t); reflexivity.
Qed.

(** On a status whose filter values are small ints the filter loop
    returns, and its answer is [True] exactly when one of the filters is
    nearly used up. *)
Lemma filter_warning_small {W} d keys (w : W) :
  (forall status_key total_key,
     In (status_key, total_key) keys -> small_values d status_key total_key) ->
  exists warning,
    filter_warning_needed (PDict d) keys w = (Ok warning, w)
    /\ (warning = true <-> exists filter, In filter keys /\ nearly_used_up d filter).
Proof.
  intros Hsmall. induction keys as [|[status_key total_key] rest IH].
  - exists false. split; [reflexivity|]. split; [discriminate|].
    intros (filter & [] & _).
  - rewrite (filter_warning_step d status_key total_key rest w
               (Hsmall _ _ (or_introl eq_refl))).
    destruct IH as (warning & Hrun & Hiff).
    { intros s t Hin. apply Hsmall. right. exact Hin. }
    assert (forall filter, In filter ((status_key, total_key) :: rest) ->
              nearly_used_up d filter ->
              nearly_used_up d (status_key, total_key)
              \/ exists filter, In filter rest /\ nearly_used_up d filter) as Hcases.
    { intros filter [<-|Hin] Hused; [left; exact Hused | right; eauto]. }
    assert (~ nearly_used_up d (status_key, total_key) ->
            exists warning0,
              filter_warning_needed (PDict d) rest w = (Ok warning0, w)
              /\ (warning0 = true <->
                  exists filter, In filter ((status_key, total_key) :: rest)
                                 /\ nearly_used_up d filter)) as Hskip.
    { intros Hnot. exists warning. split; [exact Hrun|]. rewrite Hiff. split.
      - intros (filter & Hin & Hused). exists filter. split; [right|]; assumption.
      - intros (filter & Hin & Hused).
        destruct (Hcases filter Hin Hused) as [H|H]; [contradiction | exact H]. }
    destruct (dict_get d status_key) as [remaining|] eqn:Hr.
    2:{ apply Hskip. intros (? & ? & ? & ? & H & _). cbn [fst] in H. congruence. }
    destruct (dict_get d total_key) as [total|] eqn:Ht.
    2:{ apply Hskip. intros (? & ? & ? & ? & _ & H & _). cbn [snd] in H. congruence. }
    destruct (Hsmall _ _ (or_introl eq_refl) _ _ Hr Ht)
      as (r & t & Hnr & Hnt & _ & _).
    rewrite Hnr, Hnt.
    destruct (Z.ltb_spec 0 t) as [Hpos|Hle]; cbn [andb].
    2:{ apply Hskip. intros (rem' & tot' & r' & t' & H1 & H2 & H3 & H4 & H5 & _).
        cbn [fst snd] in *. assert (t' = t) by congruence. lia. }
    destruct (Z.leb_spec (100 * r) (15 * t)) as [Hlow|Hhigh].
    + exists true. split; [reflexivity|]. split; [|reflexivity]. intros _.
      exists (status_key, total_key). split; [left; reflexivity|].
      exists remaining, total, r, t. cbn [fst snd]. repeat split; assumption.
    + apply Hskip. intros (rem' & tot' & r' & t' & H1 & H2 & H3 & H4 & H5 & H6).
      cbn [fst snd] in *. assert (t' = t) by congruence.
      assert (r' = r) by congruence. lia.
Qed.

Lemma duplicates_in_nil seen entities :
  duplicates_in seen entities = []
  <-> NoDup (nonempty_unique_ids entities)
      /\ forall u, In u (nonempty_unique_ids entities) -> seen !! u = None.
Proof.
  revert seen. induction entities as [|e rest IH]; intros seen.
  - cbn. split; [intros _; split; [constructor | intros u []] | reflexivity].
  - cbn [duplicates_in]. unfold nonempty_unique_ids in *. cbn [map List.filter].
    destruct (negb (String.eqb (reg_unique_id e) "")); [|apply IH].
    destruct (seen !! reg_unique_id e) as [first|] eqn:Hseen.
    + split; [discriminate|]. intros [_ Hnone].
      specialize (Hnone (reg_unique_id e) (or_introl eq_refl)). congruence.
    + rewrite IH. split.
      * intros [Hnodup Hnone]. split.
        -- constructor; [|exact Hnodup]. intros Hin. apply list_elem_of_In in Hin.
           specialize (Hnone _ Hin). rewrite lookup_insert_eq in Hnone. discriminate.
        -- intros u [<-|Hin]; [exact Hseen|].
           specialize (Hnone _ Hin).
           destruct (decide (reg_unique_id e = u)) as [<-|Hne]; [exact Hseen|].
           rewrite lookup_insert_ne in Hnone by exact Hne. exact Hnone.
      * intros [Hnodup Hnone]. apply NoDup_cons in Hnodup as [Hnotin Hnodup].
        split; [exact Hnodup|]. intros u Hin.
        rewrite lookup_insert_ne.
        -- apply Hnone. right. exact Hin.
        -- intros <-. apply Hnotin. apply list_elem_of_In. exact Hin.
Qed.

Lemma orphaned_in_nil devices entities :
  orphaned_in devices entities = []
  <-> forall e, In e entities -> ~ is_orphaned devices e.
Proof.
  unfold orphaned_in, is_orphaned. induction entities as [|e rest IH].
  - cbn. split; [intros _ e [] | reflexivity].
  - cbn [omap list_omap].
    destruct (reg_device_id e) as [device_id|] eqn:Hdev.
    + destruct (String.eqb_spec device_id "") as [->|Hne]; cbn [negb andb].
      * rewrite IH. split.
        -- intros Hrest e' [<-|Hin]; [|apply Hrest; exact Hin].
           intros (dev & Hd & Hn & _). congruence.
        -- intros Hall e' Hin. apply Hall. right. exact Hin.
      * destruct (decide (device_id ∈ devices)) as [Hin|Hnin].
        -- rewrite (bool_decide_eq_true_2 _ Hin). cbn [negb]. rewrite IH. split.
           ++ intros Hrest e' [<-|Hin']; [|apply Hrest; exact Hin'].
              intros (dev & Hd & _ & Hn). assert (dev = device_id) by congruence.
              subst dev. contradiction.
           ++ intros Hall e' Hin'. apply Hall. right. exact Hin'.
        -- rewrite (bool_decide_eq_false_2 _ Hnin). cbn [negb]. split; [discriminate|].
           intros Hall. exfalso. apply (Hall e (or_introl eq_refl)).
           exists device_id. repeat split; assumption.
    + rewrite IH. split.
      * intros Hrest e' [<-|Hin]; [|apply Hrest; exact Hin].
        intros (dev & Hd & _). congruence.
      * intros Hall e' Hin. apply Hall. right. exact Hin.
Qed.

Lemma concat_map_nil {A B} (f : A -> list B) (xs : list A) :
  concat (map f xs) = [] <-> forall x, In x xs -> f x = [].
Proof.
  induction xs as [|x xs IH]; cbn [map concat].
  - split; [intros _ x [] | reflexivity].
  - split.
    + intros H. apply app_eq_nil in H as [Hx Hxs].
      intros y [<-|Hin]; [exact Hx | apply IH; assumption].
    + intros H. rewrite (H x (or_introl eq_refl)). cbn [app].
      apply IH. intros y Hin. apply H. right. exact Hin.
Qed.

(** The health check finds nothing to clean up exactly when, in every
    config entry of the integration, every entity with a device has its
    device in the device registry and no two entities share a unique id
    that is not empty. *)
Theorem nothing_to_clean_up w :
  (orphaned_entities w = [] /\ duplicate_entities w = [])
  <-> forall entry_id,
        In entry_id (domain_entries w) ->
        (forall e, In e (entries_for (entity_registry w) entry_id) ->
                   ~ is_orphaned (device_registry w) e)
        /\ NoDup (nonempty_unique_ids (entries_for (entity_registry w) entry_id)).
Proof.
  unfold orphaned_entities, duplicate_entities. rewrite !concat_map_nil. split.
  - intros [Horphans Hdups] entry_id Hin. split.
    + apply orphaned_in_nil. apply Horphans. exact Hin.
    + apply (duplicates_in_nil ∅). apply Hdups. exact Hin.
  - intros Hall. split; intros entry_id Hin; destruct (Hall entry_id Hin) as [Ho Hd].
    + apply orphaned_in_nil. exact Ho.
    + apply duplicates_in_nil. split; [exact Hd|]. intros u _. apply lookup_empty.
Qed.

Lemma health_check_run config_entry_data d w :
  or_empty_dict (latest_status config_entry_data) = PDict d ->
  filter_values_small d ->
  exists warning,
    (warning = true <->
     exists filter, In filter Sensor.filter_keys /\ nearly_used_up d filter)
    /\ async_check_integration_health config_entry_data w
       = (Ok tt,
          set_issues (fun m =>
            let m := if negb (is_Some_b (client (coordinator config_entry_data)))
                     then <["connectivity_issue" :=
                              {| severity := "error";
                                 translation_key := "connectivity_issue";
                                 is_fixable := true |}]> m
                     else delete "connectivity_issue" m in
            let m := if warning
                     then <["filter_replacement_warning" :=
                              {| severity := "warning";
                                 translation_key := "filter_replacement_warning";
                                 is_fixable := true |}]> m
                     else delete "filter_replacement_warning" m in
            if negb (is_empty_list (orphaned_entities w))
               || negb (is_empty_list (duplicate_entities w))
            then <["entity_registry_cleanup" :=
                     {| severity := "warning";
                        translation_key := "entity_registry_cleanup";
                        is_fixable := true |}]> m
            else delete "entity_registry_cleanup" m) w).
Proof.
  intros Hstatus Hsmall. unfold async_check_integration_health. cbv zeta.
  rewrite Hstatus.
  set (w1 := snd ((if negb (is_Some_b (client (coordinator config_entry_data)))
                   then async_create_issue "connectivity_issue" "connectivity_issue"
                          "error"
                   else async_delete_issue "connectivity_issue") w)).
  destruct (filter_warning_small d Sensor.filter_keys w1 Hsmall)
    as (warning & Hrun & Hiff).
  exists warning. split; [exact Hiff|].
  unfold bind at 1.
  assert ((if negb (is_Some_b (client (coordinator config_entry_data)))
           then async_create_issue "connectivity_issue" "connectivity_issue" "error"
           else async_delete_issue "connectivity_issue") w = (Ok tt, w1)) as ->.
  { subst w1. destruct (negb _); reflexivity. }
  unfold bind at 1. rewrite Hrun.
  subst w1.
  destruct (negb (is_Some_b (client (coordinator config_entry_data))));
    destruct warning;
    unfold bind, reads, async_create_issue, async_delete_issue, modify;
    cbn [snd fst];
    change (orphaned_entities (set_issues _ (set_issues _ w)))
      with (orphaned_entities w);
    change (duplicate_entities (set_issues _ (set_issues _ w)))
      with (duplicate_entities w);
    destruct (negb (is_empty_list (orphaned_entities w))
              || negb (is_empty_list (duplicate_entities w)));
    reflexivity.
Qed.

Lemma lookup_create_or_delete (b : bool) (k : string) (x : Issue)
    (m : gmap string Issue) (j : string) :
  (if b then <[k := x]> m else delete k m) !! j
  = if decide (k = j) then (if b then Some x else None) else m !! j.
Proof.
  destruct b; destruct (decide (k = j)) as [<-|Hne].
  - apply lookup_insert_eq.
  - apply lookup_insert_ne. exact Hne.
  - apply lookup_delete_eq.
  - apply lookup_delete_ne. exact Hne.
Qed.

Lemma bool_eq_iff (a b : bool) (P : Prop) :
  (a = true <-> P) -> (b = true <-> P) -> a = b.
Proof. destruct a, b; intuition congruence. Qed.

Lemma cleanup_needed_spec {A} (orphaned duplicate : list A) :
  negb (is_empty_list orphaned) || negb (is_empty_list duplicate) = true
  <-> ~ (orphaned = [] /\ duplicate = []).
Proof.
  destruct orphaned, duplicate; cbn; split; try tauto; try discriminate;
    try (intros _ [H1 H2]; discriminate).
Qed.

(** The health check on a status whose filter values are ints below 2^52
    (or on no status), the other values being of any kind: it returns, and
    afterwards the connectivity issue is there exactly when the Coordinator
    has no client, the filter warning exactly when a filter with a positive
    total has at most 15 percent left (on such values the float test
    [(remaining / total) * 100 <= 15] of the source is exact), the clean-up
    issue exactly when there is an orphaned or duplicate entity; the other
    issues are as before, whatever issues there were; and a second check
    changes nothing. *)
Theorem health_check_issues_reflect_state config_entry_data d w :
  or_empty_dict (latest_status config_entry_data) = PDict d ->
  filter_values_small d ->
  let r := async_check_integration_health config_entry_data w in
  fst r = Ok tt
  /\ (is_Some (issues (snd r) !! "connectivity_issue")
      <-> client (coordinator config_entry_data) = None)
  /\ (is_Some (issues (snd r) !! "filter_replacement_warning")
      <-> exists filter, In filter Sensor.filter_keys /\ nearly_used_up d filter)
  /\ (is_Some (issues (snd r) !! "entity_registry_cleanup")
      <-> ~ (orphaned_entities w = [] /\ duplicate_entities w = []))
  /\ (forall issue_id,
        issue_id <> "connectivity_issue" ->
        issue_id <> "filter_replacement_warning" ->
        issue_id <> "entity_registry_cleanup" ->
        issues (snd r) !! issue_id = issues w !! issue_id)
  /\ async_check_integration_health config_entry_data (snd r) = (Ok tt, snd r).
Proof.
  intros Hstatus Hnum. cbv zeta.
  destruct (health_check_run config_entry_data d w Hstatus Hnum)
    as (warning & Hwarning & Hrun).
  rewrite Hrun. cbn [fst snd].
  split; [reflexivity|].
  split; [|split; [|split; [|split]]].
  - cbn [issues set_issues]. rewrite !lookup_create_or_delete.
    repeat (destruct (decide _) as [E|_]; [discriminate E|]).
    destruct (decide _) as [_|E]; [|contradiction].
    destruct (client (coordinator config_entry_data)); cbn;
      split; try discriminate; try reflexivity; eauto.
    intros [x Hx]. discriminate.
  - cbn [issues set_issues]. rewrite !lookup_create_or_delete.
    destruct (decide _) as [E|_]; [discriminate E|].
    destruct (decide _) as [_|E]; [|contradiction].
    rewrite <- Hwarning. destruct warning; split; eauto; try discriminate.
    intros [x Hx]. discriminate.
  - cbn [issues set_issues]. rewrite !lookup_create_or_delete.
    destruct (decide _) as [_|E]; [|contradiction].
    rewrite <- cleanup_needed_spec.
    destruct (negb _ || negb _); split; eauto; try discriminate.
    intros [x Hx]. discriminate.
  - intros issue_id H1 H2 H3. cbn [issues set_issues].
    rewrite !lookup_create_or_delete.
    repeat (destruct (decide _) as [E|_]; [congruence|]). reflexivity.
  - destruct (health_check_run config_entry_data d
                (set_issues
                   (fun m =>
                      let m := if negb (is_Some_b (client (coordinator config_entry_data)))
                               then <["connectivity_issue" :=
                                        {| severity := "error";
                                           translation_key := "connectivity_issue";
                                           is_fixable := true |}]> m
                               else delete "connectivity_issue" m in
                      let m := if warning
                               then <["filter_replacement_warning" :=
                                        {| severity := "warning";
                                           translation_key := "filter_replacement_warning";
                                           is_fixable := true |}]> m
                               else delete "filter_replacement_warning" m in
                      if negb (is_empty_list (orphaned_entities w))
                         || negb (is_empty_list (duplicate_entities w))
                      then <["entity_registry_cleanup" :=
                               {| severity := "warning";
                                  translation_key := "entity_registry_cleanup";
                                  is_fixable := true |}]> m
                      else delete "entity_registry_cleanup" m) w)
                Hstatus Hnum) as (warning' & Hwarning' & Hrun').
    etransitivity; [exact Hrun'|]. f_equal.
    assert (warning' = warning) as -> by (eapply bool_eq_iff; eassumption).
    unfold set_issues. cbn [issues entity_registry device_registry domain_entries].
    f_equal. apply map_eq. intros k. cbv zeta.
    change (orphaned_entities {| issues := _; entity_registry := entity_registry w;
                                 device_registry := device_registry w;
                                 domain_entries := domain_entries w |})
      with (orphaned_entities w).
    change (duplicate_entities {| issues := _; entity_registry := entity_registry w;
                                  device_registry := device_registry w;
                                  domain_entries := domain_entries w |})
      with (duplicate_entities w).
    rewrite !lookup_create_or_delete.
    repeat (destruct (decide _)); reflexivity.
Qed.

Lemma worn_status_small : filter_values_small worn_status.
Proof.
  intros status_key total_key Hin remaining total Hr Ht.
  unfold worn_status in Hr, Ht.
  repeat (destruct Hin as [Hin|Hin];
          [injection Hin as <- <-; vm_compute in Hr, Ht;
           first [ discriminate
                 | injection Hr as <-; injection Ht as <-;
                   eexists _, _; repeat split; reflexivity ]|]).
  destruct Hin.
Defined.

(** A status with texts beside the filter values. *)
Lemma half_used_status_small :
  filter_values_small
    [("pwr", PStr "1"); ("rssi", PInt (-55)); ("fltsts1", PInt 2400);
     ("flttotal1", PInt 4800); ("DeviceId", PStr "abc123")].
Proof.
  intros status_key total_key Hin remaining total Hr Ht.
  repeat (destruct Hin as [Hin|Hin];
          [injection Hin as <- <-; vm_compute in Hr, Ht;
           first [ discriminate
                 | injection Hr as <-; injection Ht as <-;
                   eexists _, _; repeat split; reflexivity ]|]).
  destruct Hin.
Defined.

Lemma health_check_issues_reflect_state_witness :
  (fst (async_check_integration_health worn_filter clean_world) = Ok tt
   /\ is_Some (issues (snd (async_check_integration_health worn_filter clean_world))
                 !! "filter_replacement_warning")
   /\ issues (snd (async_check_integration_health worn_filter clean_world))
        !! "connectivity_issue" = None)
  /\ fst (async_check_integration_health
            {| device_information := device_information ServiceCalls.bedroom;
               coordinator := coordinator ServiceCalls.bedroom;
               latest_status := Example.status0;
               ced_client := "client1" |} clean_world) = Ok tt.
Proof.
  split.
  - destruct (health_check_issues_reflect_state worn_filter worn_status clean_world
                eq_refl worn_status_small) as (Hr & _ & Hfilter & _).
    split; [exact Hr|]. split.
    + apply Hfilter. exists ("fltsts0", "flttotal0"). split; [left; reflexivity|].
      exists (PInt 10), (PInt 360), 10, 360.
      repeat split; try reflexivity; try lia.
    + reflexivity.
  - apply (health_check_issues_reflect_state
             {| device_information := device_information ServiceCalls.bedroom;
                coordinator := coordinator ServiceCalls.bedroom;
                latest_status := Example.status0;
                ced_client := "client1" |} _ clean_world eq_refl
             half_used_status_small).
Defined.

Lemma nothing_to_clean_up_witness :
  orphaned_entities clean_world = [] /\ duplicate_entities clean_world = [].
Proof.
  apply (proj2 (nothing_to_clean_up clean_world)).
  intros entry_id [<-|[]]. split.
  - intros e [<-|[<-|[]]] (dev & Hdev & _ & Hnot);
      injection Hdev as <-; contradict Hnot; cbn [device_registry clean_world];
      apply elem_of_singleton_2; reflexivity.
  - repeat constructor; cbn; intros H;
      repeat (apply elem_of_cons in H as [H|H]; [discriminate|]);
      apply elem_of_nil in H; exact H.
Defined.

End RepairsFacts.


(** ** __init__.py: a config entry from setup to unload *)

Module LifecycleFacts.

Import Integration.
Local Open Scope list_scope.

Section Lifecycle.
Variable K : Const.

(** A config entry that lacks the host, the model, the name or the device
    id makes the setup raise KeyError for the first field that is missing,
    in the order host, model, name, device id, before the device is
    addressed: the instance is as it was. *)
Theorem setup_missing_field_changes_nothing entry a h before key after :
  [CONF_HOST; CONF_MODEL K; CONF_NAME; CONF_DEVICE_ID K] = before ++ key :: after ->
  Forall (fun present => dict_get (data entry) present <> None) before ->
  dict_get (data entry) key = None ->
  async_setup_entry K entry a h = (Raise (KeyError key), h).
Proof.
  intros Hfields Hbefore Hmissing. unfold async_setup_entry, getitem.
  destruct before as [|k1 before].
  { injection Hfields as <- _. rewrite Hmissing. reflexivity. }
  injection Hfields as <- Hfields. apply Forall_cons in Hbefore as [H1 Hbefore].
  destruct (dict_get (data entry) CONF_HOST) as [host|]; [|contradiction].
  destruct before as [|k2 before].
  { injection Hfields as <- _. rewrite Hmissing. reflexivity. }
  injection Hfields as <- Hfields. apply Forall_cons in Hbefore as [H2 Hbefore].
  destruct (dict_get (data entry) (CONF_MODEL K)) as [model|]; [|contradiction].
  destruct before as [|k3 before].
  { injection Hfields as <- _. rewrite Hmissing. reflexivity. }
  injection Hfields as <- Hfields. apply Forall_cons in Hbefore as [H3 Hbefore].
  destruct (dict_get (data entry) CONF_NAME) as [name|]; [|contradiction].
  destruct before as [|k4 before].
  { injection Hfields as <- _. rewrite Hmissing. reflexivity. }
  injection Hfields as _ Hfields. destruct before; discriminate Hfields.
Qed.

(** Unloading a config entry that is not in the registry raises KeyError
    for its id; by then every platform of the entry has been unloaded, and
    nothing else has happened: no Coordinator is shut down, and the
    registry and the services are as before. *)
Theorem unload_unknown_entry_raises_key_error entry h m :
  domain_data h = Some m ->
  m !! entry_id entry = None ->
  async_unload_entry K entry h
  = (Raise (KeyError (entry_id entry)),
     set_calls
       (fun l => l ++ map (ForwardEntryUnload (entry_id entry)) PLATFORMS) h).
Proof.
  intros Hm Hnone. unfold async_unload_entry.
  unfold bind at 1. rewrite SetupFacts.for_each_emit.
  unfold bind at 1. unfold domain_data_lookup, domain_data_get.
  unfold bind at 1. cbn [domain_data set_calls]. rewrite Hm, Hnone.
  reflexivity.
Qed.

(** The state of the instance after a setup that found a persisted
    snapshot or fetched one. *)
Lemma setup_run_stored entry a h host model name device_id c :
  has_device_fields K entry host model name device_id ->
  CoAPClient_create a = Ok c ->
  (dict_has (data entry) (CONF_STATUS K) = false ->
   exists fetched, first_refresh a = Ok fetched) ->
  let r := async_setup_entry K entry a h in
  fst r = Ok true
  /\ services (snd r)
     = services h ∪ offered_services (services_call a) setup_services_table
  /\ exists config_entry_data,
       domain_data (snd r)
       = Some (<[entry_id entry := config_entry_data]> (default ∅ (domain_data h)))
       /\ Integration.host (coordinator config_entry_data) = host
       /\ ced_client config_entry_data = c.
Proof.
  intros Hfields Hc Hst. cbv zeta. unfold dict_has in Hst.
  destruct (dict_get (data entry) (CONF_STATUS K)) as [st|] eqn:Hs.
  - destruct (SetupFacts.setup_run_persisted K entry a h host model name
                device_id c st Hfields Hc Hs) as (Hr & _ & _ & Hsv & Hd).
    split; [exact Hr|]. split; [exact Hsv|].
    eexists. split; [exact Hd|]. split; reflexivity.
  - destruct (Hst eq_refl) as [st Hg].
    destruct (SetupFacts.setup_run_fetched K entry a h host model name
                device_id c st Hfields Hc Hs Hg) as (Hr & _ & _ & Hsv & Hd).
    split; [exact Hr|]. split; [exact Hsv|].
    eexists. split; [exact Hd|]. split; reflexivity.
Qed.

(** Setting a config entry up and unloading it again gives the registry
    of per-entry data back as it was before the setup, shuts down the
    Coordinator of the entry's host as the last call, and keeps the config
    entries as the setup left them.  When no other entry was set up, none
    of the seven services is registered afterwards; when another entry is
    still set up, the services of the setup stay. *)
Theorem setup_then_unload_restores_registry entry a h host model name device_id c :
  has_device_fields K entry host model name device_id ->
  CoAPClient_create a = Ok c ->
  (dict_has (data entry) (CONF_STATUS K) = false ->
   exists fetched, first_refresh a = Ok fetched) ->
  default ∅ (domain_data h) !! entry_id entry = None ->
  let h1 := snd (async_setup_entry K entry a h) in
  let r := async_unload_entry K entry h1 in
  fst (async_setup_entry K entry a h) = Ok true
  /\ fst r = Ok true
  /\ domain_data (snd r) = Some (default ∅ (domain_data h))
  /\ config_entries (snd r) = config_entries h1
  /\ calls (snd r)
     = calls h1 ++ map (ForwardEntryUnload (entry_id entry)) PLATFORMS
                ++ [CoordinatorShutdown host]
  /\ (default ∅ (domain_data h) = ∅ ->
      Forall (fun service => services (snd r) !! service = None)
        ["filter_reset"; "calibrate_sensors"; "set_display_brightness";
         "schedule_maintenance"; "set_child_lock"; "set_timer"; "reset_device"])
  /\ (default ∅ (domain_data h) <> ∅ ->
      services (snd r)
      = services h ∪ offered_services (services_call a) setup_services_table).
Proof.
  intros Hfields Hc Hst Hfresh. cbv zeta.
  destruct (setup_run_stored entry a h host model name device_id c Hfields Hc Hst)
    as (Hr & Hsv & config_entry_data & Hd & Hhost & _).
  split; [exact Hr|].
  rewrite (SetupFacts.unload_run K entry _ _ config_entry_data Hd
             (lookup_insert_eq _ _ _)).
  rewrite delete_insert_id by exact Hfresh. rewrite Hhost. cbn [fst snd].
  destruct (map_to_list (default ∅ (domain_data h))) as [|kv rest] eqn:Hlist.
  - apply map_to_list_empty_iff in Hlist.
    do 4 (split; [reflexivity|]). split; [|intros Hne; contradiction].
    intros _. cbn [services set_services set_domain_data set_calls].
    repeat apply Forall_cons_2; [.. | apply Forall_nil_2];
      rewrite ServicesFacts.fold_delete_lookup; reflexivity.
  - assert (default ∅ (domain_data h) <> ∅) as Hne.
    { intros E. apply map_to_list_empty_iff in E. congruence. }
    do 4 (split; [reflexivity|]). split; [intros E; contradiction|].
    intros _. exact Hsv.
Qed.

End Lifecycle.

Lemma setup_missing_field_changes_nothing_witness :
  async_setup_entry Example.K0
    {| entry_id := "entry2"; title := "Hall"; version := 1;
       data := [("host", PStr "192.168.1.21"); ("model", PStr "AC3858/51")];
       options := []; source := "user"; entry_state := "loaded" |}
    Example.answers_ok Example.hass0
  = (Raise (KeyError "name"), Example.hass0).
Proof.
  apply (setup_missing_field_changes_nothing Example.K0
           {| entry_id := "entry2"; title := "Hall"; version := 1;
              data := [("host", PStr "192.168.1.21");
                       ("model", PStr "AC3858/51")];
              options := []; source := "user"; entry_state := "loaded" |}
           Example.answers_ok Example.hass0
           [CONF_HOST; CONF_MODEL Example.K0] CONF_NAME
           [CONF_DEVICE_ID Example.K0]).
  - reflexivity.
  - repeat constructor; discriminate.
  - reflexivity.
Defined.

Lemma unload_unknown_entry_raises_key_error_witness :
  fst (async_unload_entry Example.K0 (Example.entry_at "192.168.1.21" None)
         (snd (async_unload_entry Example.K0 Example.entry_with_status
                 Example.hass1)))
  = Raise (KeyError "entry1").
Proof.
  rewrite (unload_unknown_entry_raises_key_error Example.K0
             (Example.entry_at "192.168.1.21" None) _ ∅); reflexivity.
Defined.

Lemma setup_then_unload_restores_registry_witness :
  domain_data
    (snd (async_unload_entry Example.K0 Example.entry_without_status
            (snd (async_setup_entry Example.K0 Example.entry_without_status
                    Example.answers_ok Example.hass0))))
  = Some ∅.
Proof.
  destruct (setup_then_unload_restores_registry Example.K0
              Example.entry_without_status Example.answers_ok Example.hass0
              (PStr "192.168.1.20") (PStr "AC4220/12") (PStr "Bedroom")
              (PStr "abc123") "client1") as (_ & _ & Hd & _).
  - repeat split.
  - reflexivity.
  - intros _. eexists. reflexivity.
  - reflexivity.
  - exact Hd.
Defined.

End LifecycleFacts.


(** ** diagnostics.py: when the collection succeeds, and what it counts *)

Module DiagnosticsContentFacts.

Import Integration.
Local Open Scope list_scope.

Lemma bind_ok {W A B} (m : M W A) (k : A -> M W B) w a w' :
  m w = (Ok a, w') -> bind m k w = k a w'.
Proof. intros E. unfold bind. rewrite E. reflexivity. Qed.

Lemma bind_raise {W A B} (m : M W A) (k : A -> M W B) w e w' :
  m w = (Raise e, w') -> bind m k w = (Raise e, w').
Proof. intros E. unfold bind. rewrite E. reflexivity. Qed.

(** The loop of [_get_entity_info] keeps, for every platform, the number
    of entities seen so far. *)
Lemma count_platform_loop (entities : list EntityEntry) :
  forall (counts : pydict) (seen : string -> nat),
    (forall platform,
       dict_get counts platform
       = match seen platform with
         | O => None
         | S n => Some (PInt (Z.of_nat (S n)))
         end) ->
    forall platform,
      dict_get
        (fold_left (fun counts entity => count_platform counts (ent_platform entity))
           entities counts) platform
      = match (seen platform
               + count_occ String.string_dec (map ent_platform entities) platform)%nat with
        | O => None
        | S n => Some (PInt (Z.of_nat (S n)))
        end.
Proof.
  induction entities as [|entity entities IH]; intros counts seen Hseen platform.
  - cbn [fold_left map count_occ]. rewrite Nat.add_0_r. apply Hseen.
  - cbn [fold_left map count_occ].
    rewrite (IH _ (fun p => if String.string_dec (ent_platform entity) p
                            then S (seen p) else seen p)).
    + destruct (String.string_dec (ent_platform entity) platform);
        [rewrite Nat.add_succ_r|]; reflexivity.
    + intros p. unfold count_platform.
      destruct (String.string_dec (ent_platform entity) p) as [<-|Hne].
      * rewrite PyFacts.dict_get_set, Hseen.
        destruct (seen (ent_platform entity)) as [|n]; [reflexivity|].
        do 2 f_equal. lia.
      * rewrite PyFacts.dict_get_set_ne by exact Hne. apply Hseen.
Qed.

(** The entity section of the diagnostics lists the entities of the config
    entry, and counts them by platform: a platform is a key of the counts
    exactly when the entry has an entity on it, and then its count is the
    number of those entities; the total is the number of all of them. *)
Theorem entity_counts_by_platform_count_entities entry h :
  let own := List.filter (fun e => String.eqb (ent_config_entry_id e) (entry_id entry))
               (entities h) in
  exists counts,
    _get_entity_info entry h
    = (Ok (PDict [("total_entities", PInt (Z.of_nat (List.length own)));
                  ("entity_counts_by_platform", PDict counts);
                  ("entity_details", PList (map entity_detail own))]), h)
    /\ forall platform,
         dict_get counts platform
         = match count_occ String.string_dec (map ent_platform own) platform with
           | O => None
           | S n => Some (PInt (Z.of_nat (S n)))
           end.
Proof.
  cbv zeta. eexists. split; [reflexivity|].
  intros platform.
  apply (count_platform_loop _ [] (fun _ => O)). reflexivity.
Qed.

(** A loop of item assignments: a key assigned in the loop holds its
    value, any other key is as before. *)
Lemma fold_dict_set_lookup (f : string -> pyval) (keys : list string) :
  forall acc key,
    dict_get (fold_left (fun acc k => dict_set acc k (f k)) keys acc) key
    = if in_dec String.string_dec key keys then Some (f key) else dict_get acc key.
Proof.
  induction keys as [|k keys IH]; intros acc key; [reflexivity|].
  cbn [fold_left]. rewrite IH.
  destruct (in_dec String.string_dec key keys) as [Hin|Hnin];
    destruct (in_dec String.string_dec key (k :: keys)) as [Hin'|Hnin'];
    try reflexivity.
  - exfalso. apply Hnin'. right. exact Hin.
  - destruct Hin' as [->|Hin']; [|contradiction].
    apply PyFacts.dict_get_set.
  - apply PyFacts.dict_get_set_ne. intros ->. apply Hnin'. left.
    reflexivity.
Qed.

Lemma dict_get_keys d key :
  In key (dict_keys d) <-> dict_get d key <> None.
Proof.
  unfold dict_keys. induction d as [|[k v] d IH]; cbn [map dict_get In fst].
  - split; [intros [] | intros H; apply H; reflexivity].
  - destruct (String.eqb_spec k key) as [->|Hne].
    + split; [discriminate | left; reflexivity].
    + rewrite <- IH. split; [intros [E|H]; [contradiction | exact H] | right; assumption].
Qed.

(** With a status at hand, the filter section of the device status holds
    the status keys that start with flt, wick or D05, each with the value
    the status has for it, and no other key. *)
Theorem device_status_filters_are_prefixed_keys config_entry_data d h :
  latest_status config_entry_data = PDict d ->
  d <> [] ->
  exists out filters,
    _get_device_status config_entry_data h = (Ok (PDict out), h)
    /\ dict_get out "filters" = Some (PDict filters)
    /\ forall key,
         dict_get filters key
         = if startswith_any key ["flt"; "wick"; "D05"] then dict_get d key
           else None.
Proof.
  intros Hstatus Hne. unfold _get_device_status. rewrite Hstatus.
  destruct d as [|kv d']; [contradiction|]. cbn [or_empty_dict truthy negb mapping].
  unfold bind, ret. do 2 eexists. split; [reflexivity|].
  split; [reflexivity|]. intros key.
  rewrite fold_dict_set_lookup. set (d := kv :: d') in *.
  destruct (in_dec String.string_dec key _) as [Hin|Hnin].
  - apply filter_In in Hin as [Hkey ->]. apply dict_get_keys in Hkey.
    destruct (dict_get d key); [reflexivity | contradiction].
  - destruct (startswith_any key ["flt"; "wick"; "D05"]) eqn:Hprefix;
      [|reflexivity].
    destruct (dict_get d key) eqn:Hget; [|reflexivity].
    exfalso. apply Hnin. apply filter_In. split; [|exact Hprefix].
    apply dict_get_keys. congruence.
Qed.

Lemma device_status_filters_are_prefixed_keys_witness :
  exists out filters,
    _get_device_status
      {| device_information := device_information ServiceCalls.bedroom;
         coordinator := coordinator ServiceCalls.bedroom;
         latest_status := Example.status0;
         ced_client := "client1" |} Example.hass1
    = (Ok (PDict out), Example.hass1)
    /\ dict_get out "filters" = Some (PDict filters)
    /\ dict_get filters "fltsts1" = Some (PInt 2400)
    /\ dict_get filters "rssi" = None.
Proof.
  destruct (device_status_filters_are_prefixed_keys
              {| device_information := device_information ServiceCalls.bedroom;
                 coordinator := coordinator ServiceCalls.bedroom;
                 latest_status := Example.status0;
                 ced_client := "client1" |} _ Example.hass1 eq_refl)
    as (out & filters & Hrun & Hout & Hfilters).
  - discriminate.
  - exists out, filters. split; [exact Hrun|]. split; [exact Hout|].
    split; rewrite Hfilters; reflexivity.
Defined.

(** Looking a key up in a redacted mapping: [None] and the empty string
    are kept, another value is replaced under a key to redact and redacted
    in turn under another key. *)
Lemma redact_dict_get keys d key :
  lookup_path [key] (async_redact_data keys (PDict d))
  = match dict_get d key with
    | None => None
    | Some value =>
        Some match value with
             | PNone => PNone
             | PStr EmptyString => PStr ""
             | _ => if in_set key keys then PStr REDACTED
                    else async_redact_data keys value
             end
    end.
Proof.
  cbn [lookup_path async_redact_data].
  induction d as [|[k value] d IH]; [reflexivity|].
  cbn [map dict_get].
  destruct (String.eqb k key) eqn:Hk.
  - apply String.eqb_eq in Hk as ->.
    destruct value as [| | |[|]| | | |]; cbn [dict_get];
      rewrite ?String.eqb_refl; try reflexivity;
      destruct (in_set key keys); cbn [dict_get]; rewrite ?String.eqb_refl;
      reflexivity.
  - rewrite <- IH.
    destruct value as [| | |[|]| | | |]; cbn [dict_get];
      rewrite ?Hk; try reflexivity;
      destruct (in_set k keys); cbn [dict_get]; rewrite ?Hk; reflexivity.
Qed.

Lemma lookup_path_cons key path v inner :
  lookup_path [key] v = Some inner ->
  lookup_path (key :: path) v = lookup_path path inner.
Proof.
  destruct v; try discriminate. cbn [lookup_path].
  destruct (dict_get _ key); [|discriminate]. intros E. injection E as ->.
  reflexivity.
Qed.

Section Collection.
Variable K : Const.
Variable py_str : pyval -> string.

Lemma device_info_runs entry config_entry_data device_entry d h :
  or_empty_dict (latest_status config_entry_data) = PDict d ->
  exists out,
    _get_device_info entry config_entry_data device_entry h = (Ok (PDict out), h).
Proof.
  intros Hstatus. unfold _get_device_info. cbv zeta. rewrite Hstatus.
  destruct (truthy (PDict d)); eexists; reflexivity.
Qed.

Lemma connectivity_info_runs config_entry_data d h :
  or_empty_dict (latest_status config_entry_data) = PDict d ->
  (forall rssi, dict_get d "rssi" = Some rssi -> exists z, rssi = PInt z) ->
  exists out,
    _get_connectivity_info config_entry_data h = (Ok (PDict out), h).
Proof.
  intros Hstatus Hrssi. unfold _get_connectivity_info. cbv zeta.
  rewrite Hstatus. cbn [py_len py_contains py_getitem]. unfold dict_has, getitem.
  destruct (dict_get d "rssi") as [rssi|] eqn:Hget.
  - destruct (Hrssi rssi eq_refl) as [z ->].
    unfold bind, ret, _get_signal_quality, ordered_int, bind, ret.
    destruct (-50 <=? z); [eexists; reflexivity|].
    destruct (-60 <=? z); [eexists; reflexivity|].
    destruct (-70 <=? z); eexists; reflexivity.
  - eexists. reflexivity.
Qed.

Lemma connectivity_info_raises config_entry_data d text h :
  latest_status config_entry_data = PDict d ->
  dict_get d "rssi" = Some (PStr text) ->
  _get_connectivity_info config_entry_data h = (Raise TypeError, h).
Proof.
  intros Hstatus Hrssi. unfold _get_connectivity_info. cbv zeta.
  rewrite Hstatus. destruct d as [|kv d']; [discriminate|].
  cbn [or_empty_dict truthy py_len py_contains py_getitem].
  unfold dict_has, getitem. rewrite Hrssi. reflexivity.
Qed.

Lemma configuration_data_runs entry h :
  (forall persisted,
     dict_get (data entry) (CONF_STATUS K) = Some persisted ->
     exists snapshot, persisted = PDict snapshot) ->
  exists out, _get_configuration_data K entry h = (Ok (PDict out), h).
Proof.
  intros Hpersisted. unfold _get_configuration_data, dict_get_default.
  destruct (dict_get (data entry) (CONF_STATUS K)) as [persisted|].
  - destruct (Hpersisted persisted eq_refl) as [snapshot ->].
    eexists. reflexivity.
  - eexists. reflexivity.
Qed.

Lemma error_tracking_runs config_entry_data d h :
  or_empty_dict (latest_status config_entry_data) = PDict d ->
  exists out,
    _get_error_tracking py_str config_entry_data h = (Ok (PDict out), h).
Proof.
  intros Hstatus. unfold _get_error_tracking. cbv zeta. rewrite Hstatus.
  eexists. reflexivity.
Qed.

Lemma device_status_runs config_entry_data d h :
  or_empty_dict (latest_status config_entry_data) = PDict d ->
  exists out,
    _get_device_status config_entry_data h = (Ok (PDict out), h).
Proof.
  intros Hstatus. unfold _get_device_status. cbv zeta. rewrite Hstatus.
  destruct (truthy (PDict d)); eexists; reflexivity.
Qed.

Lemma integration_info_runs entry config_entry_data h :
  exists out,
    _get_integration_info K entry config_entry_data h = (Ok (PDict out), h).
Proof. eexists. reflexivity. Qed.

Lemma performance_metrics_runs config_entry_data h :
  exists out,
    _get_performance_metrics config_entry_data h = (Ok (PDict out), h).
Proof. eexists. reflexivity. Qed.

Lemma entity_info_runs entry h :
  exists out, _get_entity_info entry h = (Ok (PDict out), h).
Proof. eexists. reflexivity. Qed.

(** The collection up to the connectivity section, on an instance whose
    [config] answers [version]. *)
Lemma diagnostics_run_to_connectivity entry h m config_entry_data d v :
  domain_data h = Some m ->
  m !! entry_id entry = Some config_entry_data ->
  or_empty_dict (latest_status config_entry_data) = PDict d ->
  ha_version h = Some v ->
  exists system_info integration_info device_info,
    async_get_config_entry_diagnostics K py_str entry h
    = (connectivity_info <- _get_connectivity_info config_entry_data ;;
       performance_metrics <- _get_performance_metrics config_entry_data ;;
       entity_info <- _get_entity_info entry ;;
       configuration_data <- _get_configuration_data K entry ;;
       error_tracking <- _get_error_tracking py_str config_entry_data ;;
       device_status <- _get_device_status config_entry_data ;;
       ret (async_redact_data TO_REDACT
              (PDict
                 [("system_info", PDict system_info);
                  ("integration_info", PDict integration_info);
                  ("device_info", PDict device_info);
                  ("connectivity_info", connectivity_info);
                  ("performance_metrics", performance_metrics);
                  ("entity_info", entity_info);
                  ("configuration_data", configuration_data);
                  ("error_tracking", error_tracking);
                  ("device_status", device_status)]))) h.
Proof.
  intros Hm Hced Hstatus Hversion.
  unfold async_get_config_entry_diagnostics.
  rewrite (bind_ok _ _ h config_entry_data h)
    by (unfold domain_data_lookup, domain_data_get, bind; rewrite Hm, Hced;
        reflexivity).
  rewrite (bind_ok _ _ h _ h) by reflexivity.
  erewrite (bind_ok _ _ h _ h)
    by (unfold _get_system_info, config_version, bind, reads;
        rewrite Hversion; reflexivity).
  destruct (integration_info_runs entry config_entry_data h)
    as [integration_info Hintegration].
  rewrite (bind_ok _ _ h _ h Hintegration).
  destruct (device_info_runs entry config_entry_data
              (List.find (fun device => in_set (entry_id entry)
                                          (dev_config_entries device))
                 (devices h)) d h Hstatus) as [device_info Hdevice].
  rewrite (bind_ok _ _ h _ h Hdevice).
  do 3 eexists. reflexivity.
Qed.

(** The eight sections after the system information are collected
    without an exception, on any instance, when the latest status is None
    (or another false value) or a mapping whose signal strength, if it has
    one, is an int, and the snapshot persisted in the entry, if there is
    one, is a mapping.  The diagnostics of a config entry that is set up
    then have the nine sections in the order of the source on an instance
    whose [config] answers [version]; on Home Assistant's, which has no
    such attribute, the system information raises AttributeError and no
    section is returned. *)
Theorem diagnostics_collected_in_nine_sections entry h m config_entry_data d :
  domain_data h = Some m ->
  m !! entry_id entry = Some config_entry_data ->
  or_empty_dict (latest_status config_entry_data) = PDict d ->
  (forall rssi, dict_get d "rssi" = Some rssi -> exists z, rssi = PInt z) ->
  (forall persisted,
     dict_get (data entry) (CONF_STATUS K) = Some persisted ->
     exists snapshot, persisted = PDict snapshot) ->
  let device_entry :=
    List.find (fun device => in_set (entry_id entry) (dev_config_entries device))
      (devices h) in
  (exists integration_info device_info connectivity_info performance_metrics
          entity_info configuration_data error_tracking device_status,
     _get_integration_info K entry config_entry_data h
     = (Ok (PDict integration_info), h)
     /\ _get_device_info entry config_entry_data device_entry h
        = (Ok (PDict device_info), h)
     /\ _get_connectivity_info config_entry_data h
        = (Ok (PDict connectivity_info), h)
     /\ _get_performance_metrics config_entry_data h
        = (Ok (PDict performance_metrics), h)
     /\ _get_entity_info entry h = (Ok (PDict entity_info), h)
     /\ _get_configuration_data K entry h = (Ok (PDict configuration_data), h)
     /\ _get_error_tracking py_str config_entry_data h
        = (Ok (PDict error_tracking), h)
     /\ _get_device_status config_entry_data h = (Ok (PDict device_status), h))
  /\ (forall v,
        ha_version h = Some v ->
        exists out,
          async_get_config_entry_diagnostics K py_str entry h = (Ok (PDict out), h)
          /\ dict_keys out
             = ["system_info"; "integration_info"; "device_info";
                "connectivity_info"; "performance_metrics"; "entity_info";
                "configuration_data"; "error_tracking"; "device_status"])
  /\ (ha_version h = None ->
      async_get_config_entry_diagnostics K py_str entry h
      = (Raise AttributeError, h)).
Proof.
  intros Hm Hced Hstatus Hrssi Hpersisted device_entry.
  destruct (integration_info_runs entry config_entry_data h)
    as [integration_info Hintegration].
  destruct (device_info_runs entry config_entry_data device_entry d h Hstatus)
    as [device_info Hdevice].
  destruct (connectivity_info_runs config_entry_data d h Hstatus Hrssi)
    as [connectivity_info Hconnectivity].
  destruct (performance_metrics_runs config_entry_data h)
    as [performance_metrics Hperformance].
  destruct (entity_info_runs entry h) as [entity_info Hentity].
  destruct (configuration_data_runs entry h Hpersisted)
    as [configuration_data Hconfiguration].
  destruct (error_tracking_runs config_entry_data d h Hstatus)
    as [error_tracking Herror].
  destruct (device_status_runs config_entry_data d h Hstatus)
    as [device_status Hdevice_status].
  split; [|split].
  - exists integration_info, device_info, connectivity_info, performance_metrics,
      entity_info, configuration_data, error_tracking, device_status.
    repeat split; assumption.
  - intros v Hversion.
    destruct (diagnostics_run_to_connectivity entry h m config_entry_data d v
                Hm Hced Hstatus Hversion) as (s1 & s2 & s3 & ->).
    rewrite (bind_ok _ _ h _ h Hconnectivity).
    rewrite (bind_ok _ _ h _ h Hperformance).
    rewrite (bind_ok _ _ h _ h Hentity).
    rewrite (bind_ok _ _ h _ h Hconfiguration).
    rewrite (bind_ok _ _ h _ h Herror).
    rewrite (bind_ok _ _ h _ h Hdevice_status).
    eexists. split; reflexivity.
  - intros Hversion.
    rewrite (DiagnosticsFacts.diagnostics_run_without_version K py_str entry h
               Hversion), Hm, Hced.
    reflexivity.
Qed.

(** The connectivity section on a status that has a signal strength: for
    an int it holds the signal strength and its quality, excellent from
    -50 dBm, good from -60, fair from -70 and poor below; for a text the
    comparison with the quality levels raises TypeError.  The diagnostics
    of an entry set up with such a text raise that TypeError on an instance
    whose [config] answers [version], and AttributeError, raised before the
    connectivity section is reached, on one that does not. *)
Theorem connectivity_signal_quality_by_rssi config_entry_data d rssi h :
  latest_status config_entry_data = PDict d ->
  dict_get d "rssi" = Some rssi ->
  (forall z,
     rssi = PInt z ->
     exists out,
       _get_connectivity_info config_entry_data h = (Ok (PDict out), h)
       /\ dict_get out "signal_strength_dbm" = Some (PInt z)
       /\ dict_get out "signal_quality"
          = Some (PStr (if -50 <=? z then "excellent"
                        else if -60 <=? z then "good"
                        else if -70 <=? z then "fair" else "poor")))
  /\ (forall text,
        rssi = PStr text ->
        _get_connectivity_info config_entry_data h = (Raise TypeError, h)
        /\ forall entry m,
             domain_data h = Some m ->
             m !! entry_id entry = Some config_entry_data ->
             async_get_config_entry_diagnostics K py_str entry h
             = (Raise match ha_version h with
                      | Some _ => TypeError
                      | None => AttributeError
                      end, h)).
Proof.
  intros Hstatus Hrssi.
  assert (or_empty_dict (latest_status config_entry_data) = PDict d) as Hor.
  { rewrite Hstatus. destruct d; [discriminate | reflexivity]. }
  split.
  - intros z ->. unfold _get_connectivity_info. cbv zeta. rewrite Hor.
    cbn [py_len py_contains py_getitem]. unfold dict_has, getitem. rewrite Hrssi.
    unfold bind, ret, _get_signal_quality, ordered_int, bind, ret.
    destruct (-50 <=? z); [eexists; repeat split; reflexivity|].
    destruct (-60 <=? z); [eexists; repeat split; reflexivity|].
    destruct (-70 <=? z); eexists; repeat split; reflexivity.
  - intros text ->.
    pose proof (connectivity_info_raises config_entry_data d text h Hstatus Hrssi)
      as Hraise.
    split; [exact Hraise|]. intros entry m Hm Hced.
    destruct (ha_version h) as [v|] eqn:Hversion.
    + destruct (diagnostics_run_to_connectivity entry h m config_entry_data d v
                  Hm Hced Hor Hversion) as (s1 & s2 & s3 & ->).
      apply bind_raise. exact Hraise.
    + rewrite (DiagnosticsFacts.diagnostics_run_without_version K py_str entry h
                 Hversion), Hm, Hced.
      reflexivity.
Qed.

(** The sections of the diagnostics, put together and redacted, on an
    instance whose [config] answers [version]. *)
Lemma diagnostics_run_sections entry h m config_entry_data v
    integration_info device_info connectivity_info performance_metrics
    entity_info configuration_data error_tracking device_status :
  domain_data h = Some m ->
  m !! entry_id entry = Some config_entry_data ->
  ha_version h = Some v ->
  _get_integration_info K entry config_entry_data h = (Ok integration_info, h) ->
  _get_device_info entry config_entry_data
    (List.find (fun device => in_set (entry_id entry) (dev_config_entries device))
       (devices h)) h = (Ok device_info, h) ->
  _get_connectivity_info config_entry_data h = (Ok connectivity_info, h) ->
  _get_performance_metrics config_entry_data h = (Ok performance_metrics, h) ->
  _get_entity_info entry h = (Ok entity_info, h) ->
  _get_configuration_data K entry h = (Ok configuration_data, h) ->
  _get_error_tracking py_str config_entry_data h = (Ok error_tracking, h) ->
  _get_device_status config_entry_data h = (Ok device_status, h) ->
  exists system_info,
    async_get_config_entry_diagnostics K py_str entry h
    = (Ok (async_redact_data TO_REDACT
             (PDict
                [("system_info", PDict system_info);
                 ("integration_info", integration_info);
                 ("device_info", device_info);
                 ("connectivity_info", connectivity_info);
                 ("performance_metrics", performance_metrics);
                 ("entity_info", entity_info);
                 ("configuration_data", configuration_data);
                 ("error_tracking", error_tracking);
                 ("device_status", device_status)])), h).
Proof.
  intros Hm Hced Hversion H1 H2 H3 H4 H5 H6 H7 H8.
  unfold async_get_config_entry_diagnostics.
  rewrite (bind_ok _ _ h config_entry_data h)
    by (unfold domain_data_lookup, domain_data_get, bind; rewrite Hm, Hced;
        reflexivity).
  rewrite (bind_ok _ _ h _ h) by reflexivity.
  erewrite (bind_ok _ _ h _ h)
    by (unfold _get_system_info, config_version, bind, reads;
        rewrite Hversion; reflexivity).
  rewrite (bind_ok _ _ h _ h H1), (bind_ok _ _ h _ h H2), (bind_ok _ _ h _ h H3),
    (bind_ok _ _ h _ h H4), (bind_ok _ _ h _ h H5), (bind_ok _ _ h _ h H6),
    (bind_ok _ _ h _ h H7), (bind_ok _ _ h _ h H8).
  eexists. reflexivity.
Qed.

(** The host address, redacted under the key host of the connectivity
    section, is in clear under device_host in the integration section and
    in the device section, and so are the MAC address under device_mac and
    the device id under device_id_from_config: these keys are not among
    those of [TO_REDACT].  This holds of each section as it is collected
    and redacted, on any instance, and of the diagnostics returned on an
    instance whose [config] answers [version]. *)
Theorem host_mac_and_device_id_in_clear entry h config_entry_data d host mac device_id
    device_entry :
  or_empty_dict (latest_status config_entry_data) = PDict d ->
  (forall rssi, dict_get d "rssi" = Some rssi -> exists z, rssi = PInt z) ->
  di_host (device_information config_entry_data) = PStr host ->
  di_mac (device_information config_entry_data) = PStr mac ->
  di_device_id (device_information config_entry_data) = PStr device_id ->
  (exists section,
     _get_connectivity_info config_entry_data h = (Ok (PDict section), h)
     /\ lookup_path ["host"] (async_redact_data TO_REDACT (PDict section))
        = Some (PStr (if String.eqb host "" then "" else REDACTED)))
  /\ (exists section,
        _get_integration_info K entry config_entry_data h = (Ok (PDict section), h)
        /\ lookup_path ["device_host"] (async_redact_data TO_REDACT (PDict section))
           = Some (PStr host))
  /\ (exists section,
        _get_device_info entry config_entry_data device_entry h
        = (Ok (PDict section), h)
        /\ lookup_path ["device_host"] (async_redact_data TO_REDACT (PDict section))
           = Some (PStr host)
        /\ lookup_path ["device_mac"] (async_redact_data TO_REDACT (PDict section))
           = Some (PStr mac)
        /\ lookup_path ["device_id_from_config"]
             (async_redact_data TO_REDACT (PDict section))
           = Some (PStr device_id))
  /\ (forall m v,
        domain_data h = Some m ->
        m !! entry_id entry = Some config_entry_data ->
        ha_version h = Some v ->
        (forall persisted,
           dict_get (data entry) (CONF_STATUS K) = Some persisted ->
           exists snapshot, persisted = PDict snapshot) ->
        exists out,
          async_get_config_entry_diagnostics K py_str entry h = (Ok out, h)
          /\ lookup_path ["connectivity_info"; "host"] out
             = Some (PStr (if String.eqb host "" then "" else REDACTED))
          /\ lookup_path ["integration_info"; "device_host"] out = Some (PStr host)
          /\ lookup_path ["device_info"; "device_host"] out = Some (PStr host)
          /\ lookup_path ["device_info"; "device_mac"] out = Some (PStr mac)
          /\ lookup_path ["device_info"; "device_id_from_config"] out
             = Some (PStr device_id)).
Proof.
  intros Hstatus Hrssi Hhost Hmac Hid.
  assert (forall text, match text with
                       | EmptyString => PStr ""
                       | String _ _ => PStr text
                       end = PStr text) as Htext by (intros []; reflexivity).
  assert (forall section,
            dict_get section "host" = Some (PStr host) ->
            lookup_path ["host"] (async_redact_data TO_REDACT (PDict section))
            = Some (PStr (if String.eqb host "" then "" else REDACTED))) as Hredacted.
  { intros section Hget. rewrite redact_dict_get, Hget. destruct host; reflexivity. }
  assert (forall key section text,
            in_set key TO_REDACT = false ->
            dict_get section key = Some (PStr text) ->
            lookup_path [key] (async_redact_data TO_REDACT (PDict section))
            = Some (PStr text)) as Hclear.
  { intros key section text Hkey Hget. rewrite redact_dict_get, Hget, Hkey.
    destruct text; reflexivity. }
  assert (exists section,
            _get_connectivity_info config_entry_data h = (Ok (PDict section), h)
            /\ lookup_path ["host"] (async_redact_data TO_REDACT (PDict section))
               = Some (PStr (if String.eqb host "" then "" else REDACTED)))
    as Hconnectivity.
  { destruct (connectivity_info_runs config_entry_data d h Hstatus Hrssi)
      as [section Hrun].
    exists section. split; [exact Hrun|]. apply Hredacted.
    revert Hrun. unfold _get_connectivity_info. cbv zeta. rewrite Hstatus, Hhost.
    cbn [py_len py_contains py_getitem]. unfold dict_has, getitem.
    destruct (dict_get d "rssi") as [rssi|] eqn:Hget.
    - destruct (Hrssi rssi eq_refl) as [z ->].
      unfold bind, ret, _get_signal_quality, ordered_int, bind, ret.
      destruct (-50 <=? z); [intros E; injection E as <-; reflexivity|].
      destruct (-60 <=? z); [intros E; injection E as <-; reflexivity|].
      destruct (-70 <=? z); intros E; injection E as <-; reflexivity.
    - unfold bind, ret. intros E. injection E as <-. reflexivity. }
  assert (exists section,
            _get_integration_info K entry config_entry_data h
            = (Ok (PDict section), h)
            /\ lookup_path ["device_host"]
                 (async_redact_data TO_REDACT (PDict section))
               = Some (PStr host)) as Hintegration.
  { eexists. split; [reflexivity|]. apply Hclear; [reflexivity|].
    rewrite <- Hhost. reflexivity. }
  assert (forall device_entry,
            exists section,
              _get_device_info entry config_entry_data device_entry h
              = (Ok (PDict section), h)
              /\ lookup_path ["device_host"]
                   (async_redact_data TO_REDACT (PDict section))
                 = Some (PStr host)
              /\ lookup_path ["device_mac"]
                   (async_redact_data TO_REDACT (PDict section))
                 = Some (PStr mac)
              /\ lookup_path ["device_id_from_config"]
                   (async_redact_data TO_REDACT (PDict section))
                 = Some (PStr device_id)) as Hdevice.
  { intros device_entry'.
    destruct (device_info_runs entry config_entry_data device_entry' d h Hstatus)
      as [section Hrun].
    exists section. split; [exact Hrun|].
    revert Hrun. unfold _get_device_info. cbv zeta.
    rewrite Hstatus, Hhost, Hmac, Hid.
    destruct device_entry' as [device|]; destruct (truthy (PDict d));
      unfold mapping, bind, ret; intros E; injection E as <-;
      (split; [|split]); (apply Hclear; [reflexivity|]); reflexivity. }
  split; [exact Hconnectivity|]. split; [exact Hintegration|].
  split; [apply Hdevice|].
  intros m v Hm Hced Hversion Hpersisted.
  destruct Hconnectivity as (connectivity & Hrun1 & Hhost1).
  destruct Hintegration as (integration & Hrun2 & Hhost2).
  destruct (Hdevice (List.find (fun device => in_set (entry_id entry)
                                                (dev_config_entries device))
                       (devices h)))
    as (device & Hrun3 & Hhost3 & Hmac3 & Hid3).
  destruct (performance_metrics_runs config_entry_data h) as [s4 Hrun4].
  destruct (entity_info_runs entry h) as [s5 Hrun5].
  destruct (configuration_data_runs entry h Hpersisted) as [s6 Hrun6].
  destruct (error_tracking_runs config_entry_data d h Hstatus)
    as [s7 Hrun7].
  destruct (device_status_runs config_entry_data d h Hstatus) as [s8 Hrun8].
  destruct (diagnostics_run_sections entry h m config_entry_data v _ _ _ _ _ _ _ _
              Hm Hced Hversion Hrun2 Hrun3 Hrun1 Hrun4 Hrun5 Hrun6 Hrun7 Hrun8)
    as [system_info Hrun].
  eexists. split; [exact Hrun|].
  rewrite (lookup_path_cons "connectivity_info" ["host"] _
             (async_redact_data TO_REDACT (PDict connectivity)))
    by (rewrite redact_dict_get; reflexivity).
  rewrite !(lookup_path_cons "integration_info" _ _
              (async_redact_data TO_REDACT (PDict integration)))
    by (rewrite redact_dict_get; reflexivity).
  rewrite !(lookup_path_cons "device_info" _ _
              (async_redact_data TO_REDACT (PDict device)))
    by (rewrite redact_dict_get; reflexivity).
  repeat split; assumption.
Qed.

End Collection.

Lemma diagnostics_collected_in_nine_sections_witness :
  (exists out,
     async_get_config_entry_diagnostics Example.K0 Example.py_str0
       Example.entry_with_status (Example.answering_version Example.hass1)
     = (Ok (PDict out), Example.answering_version Example.hass1)
     /\ List.length (dict_keys out) = 9%nat)
  /\ async_get_config_entry_diagnostics Example.K0 Example.py_str0
       Example.entry_with_status Example.hass1
     = (Raise AttributeError, Example.hass1).
Proof.
  split.
  - edestruct (diagnostics_collected_in_nine_sections Example.K0 Example.py_str0
                 Example.entry_with_status (Example.answering_version Example.hass1))
      as (_ & Hnine & _).
    + vm_compute. reflexivity.
    + vm_compute. reflexivity.
    + vm_compute. reflexivity.
    + intros rssi Hget. injection Hget as <-. eexists. reflexivity.
    + intros persisted Hget. injection Hget as <-. eexists. reflexivity.
    + destruct (Hnine _ eq_refl) as (out & Hrun & Hkeys).
      exists out. split; [exact Hrun|]. rewrite Hkeys. reflexivity.
  - edestruct (diagnostics_collected_in_nine_sections Example.K0 Example.py_str0
                 Example.entry_with_status Example.hass1)
      as (_ & _ & Hnone).
    + vm_compute. reflexivity.
    + vm_compute. reflexivity.
    + vm_compute. reflexivity.
    + intros rssi Hget. injection Hget as <-. eexists. reflexivity.
    + intros persisted Hget. injection Hget as <-. eexists. reflexivity.
    + exact (Hnone eq_refl).
Defined.

Lemma connectivity_signal_quality_by_rssi_witness :
  (exists out,
     _get_connectivity_info
       {| device_information := device_information ServiceCalls.bedroom;
          coordinator := coordinator ServiceCalls.bedroom;
          latest_status := Example.status0;
          ced_client := "client1" |} Example.hass1
     = (Ok (PDict out), Example.hass1)
     /\ dict_get out "signal_quality" = Some (PStr "good"))
  /\ fst (_get_connectivity_info
            {| device_information := device_information ServiceCalls.bedroom;
               coordinator := coordinator ServiceCalls.bedroom;
               latest_status := PDict [("pwr", PStr "1"); ("rssi", PStr "-55")];
               ced_client := "client1" |} Example.hass1)
     = Raise TypeError.
Proof.
  split.
  - edestruct (connectivity_signal_quality_by_rssi Example.K0 Example.py_str0
                 {| device_information := device_information ServiceCalls.bedroom;
                    coordinator := coordinator ServiceCalls.bedroom;
                    latest_status := Example.status0;
                    ced_client := "client1" |} _ (PInt (-55)) Example.hass1
                 eq_refl eq_refl) as [Hint _].
    destruct (Hint (-55) eq_refl) as (out & Hrun & _ & Hquality).
    exists out. split; [exact Hrun | exact Hquality].
  - edestruct (connectivity_signal_quality_by_rssi Example.K0 Example.py_str0
                 {| device_information := device_information ServiceCalls.bedroom;
                    coordinator := coordinator ServiceCalls.bedroom;
                    latest_status := PDict [("pwr", PStr "1"); ("rssi", PStr "-55")];
                    ced_client := "client1" |} _ (PStr "-55") Example.hass1
                 eq_refl eq_refl) as [_ Htext].
    destruct (Htext "-55" eq_refl) as [-> _]. reflexivity.
Defined.

Lemma host_mac_and_device_id_in_clear_witness :
  exists out,
    fst (async_get_config_entry_diagnostics Example.K0 Example.py_str0
           Example.entry_with_status (Example.answering_version Example.hass1))
    = Ok out
    /\ lookup_path ["connectivity_info"; "host"] out = Some (PStr REDACTED)
    /\ lookup_path ["device_info"; "device_host"] out = Some (PStr "192.168.1.20")
    /\ lookup_path ["device_info"; "device_mac"] out
       = Some (PStr "aa:bb:cc:dd:ee:ff").
Proof.
  edestruct (host_mac_and_device_id_in_clear Example.K0 Example.py_str0
               Example.entry_with_status (Example.answering_version Example.hass1)
               ltac:(let ced := eval vm_compute in
                       (default ServiceCalls.bedroom
                          (default ∅ (domain_data Example.hass1) !! "entry1")) in
                     exact ced)
               ltac:(let d := eval vm_compute in
                       (match Example.status0 with PDict d => d | _ => [] end) in
                     exact d)
               "192.168.1.20" "aa:bb:cc:dd:ee:ff" "abc123" None)
    as (_ & _ & _ & Hall).
  - vm_compute. reflexivity.
  - intros rssi Hget. injection Hget as <-. eexists. reflexivity.
  - vm_compute. reflexivity.
  - vm_compute. reflexivity.
  - vm_compute. reflexivity.
  - edestruct Hall as (out & Hrun & H1 & _ & H3 & H4 & _).
    + vm_compute. reflexivity.
    + vm_compute. reflexivity.
    + reflexivity.
    + intros persisted Hget. injection Hget as <-. eexists. reflexivity.
    + exists out. rewrite Hrun. repeat split; assumption.
Defined.

End DiagnosticsContentFacts.
